(** * BR4GR/idb: parking-spot indicator and tea/liquid-level meter

    A shallow embedding of [src/parking_light.py] (class
    [ParkingSpotMonitor]) and [src/tea_meter.py] (class [TeaMeter]),
    with the properties of the specification stated over it.

    Conventions of the embedding.
    - Python floats are read as exact rationals ([Q]); rounding of the
      binary representation is outside the model.  Comparisons are the
      boolean ones of [QArith].  Theorems about a sum, a quotient or a
      difference say which operation the code applies to which values.
    - Hardware and operating-system calls (sonar, DHT sensor, button, LED,
      clock, file system, HTTP) are answered by an oracle, a record of
      functions indexed by the number of calls made so far to the device.
      The mutable part of the devices (call counters, file content, what
      was logged, slept or posted) lives next to the fields of [self].
    - Text written to a file is buffered: it is in the file for sure
      once the file is closed, and a write or the close can fail, leaving
      any beginning of the text in the file.  The close that ends a
      [with] block is a disk call like the others.
    - Methods are computations in a state-and-exception monad whose state
      survives a raised exception, as Python's side effects do. *)

From Stdlib Require Import List String Ascii Bool Arith ZArith QArith Lia.
From Stdlib Require Import Qabs Qminmax DecimalString.
Import ListNotations.

Local Open Scope string_scope.
Local Open Scope Q_scope.

(** ** Exceptions and the monad *)

Inductive exn : Type :=
| IOError
| SensorError
| LedError
| ZeroDivisionError
| ValueError
| RequestTimeout
| RequestConnectionError
| RequestException
| OtherException.

Inductive result (A : Type) : Type :=
| Ok (a : A)
| Raise (e : exn).
Arguments Ok {A} a.
Arguments Raise {A} e.

Section Monad.
Context {St : Type}.

Definition M (A : Type) : Type := St -> result A * St.

Definition ret {A} (a : A) : M A := fun s => (Ok a, s).

Definition bind {A B} (c : M A) (k : A -> M B) : M B :=
  fun s => match c s with
           | (Ok a, s') => k a s'
           | (Raise e, s') => (Raise e, s')
           end.

Definition raise {A} (e : exn) : M A := fun s => (Raise e, s).

(** [try: body / except Exception as e: handler e] *)
Definition try_except {A} (body : M A) (handler : exn -> M A) : M A :=
  fun s => match body s with
           | (Ok a, s') => (Ok a, s')
           | (Raise e, s') => handler e s'
           end.

Definition get : M St := fun s => (Ok s, s).
Definition gets {A} (f : St -> A) : M A := fun s => (Ok (f s), s).
Definition modify (f : St -> St) : M unit := fun s => (Ok tt, f s).

Definition when (b : bool) (c : M unit) : M unit :=
  if b then c else ret tt.

Definition exec {A} (c : M A) (s : St) : St := snd (c s).
Definition eval {A} (c : M A) (s : St) : result A := fst (c s).
End Monad.
Arguments M St A : clear implicits.

Declare Scope monad_scope.
Delimit Scope monad_scope with monad.
Notation "x <- c ;; k" := (bind c (fun x => k))
  (at level 61, c at next level, right associativity) : monad_scope.
Notation "c ;; k" := (bind c (fun _ => k))
  (at level 61, right associativity) : monad_scope.
Notation "' pat <- c ;; k" := (bind c (fun x => match x with pat => k end))
  (at level 61, pat pattern, c at next level, right associativity)
  : monad_scope.

(** ** Numbers *)

(** [x < y] and [x > y] on floats. *)
Definition Qlt_bool (x y : Q) : bool := negb (Qle_bool y x).
(** Python's [sum(xs)]: left to right, starting from [0]. *)
Definition py_sum (xs : list Q) : Q := fold_left Qplus xs 0.

(** Python's [max(x, y)]: the first argument unless the second is
    strictly greater. *)
Definition py_max (x y : Q) : Q := if Qlt_bool x y then y else x.

(** Python's [max(xs)] on a list: [ValueError] when empty, otherwise the
    first of the greatest elements. *)
Definition py_max_list (xs : list Q) : result Q :=
  match xs with
  | [] => Raise ValueError
  | x :: rest => Ok (fold_left py_max rest x)
  end.

(** [x / len(xs)]: [ZeroDivisionError] when the length is zero. *)
Definition py_div_len (x : Q) (n : nat) : result Q :=
  match n with
  | O => Raise ZeroDivisionError
  | S _ => Ok (x / inject_Z (Z.of_nat n))
  end.

(** ** Formatting *)

Definition nat_to_string (n : nat) : string :=
  NilZero.string_of_uint (Nat.to_uint n).

Definition N_to_string (n : N) : string :=
  NilZero.string_of_uint (N.to_uint n).

(** [|q| * 10], rounded to the nearest integer, ties to even: the digits
    that [format(q, ".1f")] prints. *)
Definition tenths (q : Q) : Z :=
  let n := (Z.abs (Qnum q) * 10)%Z in
  let d := Zpos (Qden q) in
  let quo := (n / d)%Z in
  let rem := (n mod d)%Z in
  if (d <? 2 * rem)%Z then (quo + 1)%Z
  else if ((d =? 2 * rem)%Z && Z.odd quo)%bool then (quo + 1)%Z
  else quo.

(** [f"{q:.1f}"]. The sign is the sign of the value, so a small negative
    value prints as [-0.0], as in Python. *)
Definition format_1f (q : Q) : string :=
  let t := tenths q in
  (if (Qnum q <? 0)%Z then "-" else "")
    ++ N_to_string (Z.to_N (t / 10)) ++ "."
    ++ N_to_string (Z.to_N (t mod 10)).

(** [time.struct_time], the fields [strftime("%H:%M:%S")] reads. *)
Record struct_time : Type := {
  tm_hour : nat;
  tm_min : nat;
  tm_sec : nat
}.

(** [%H], [%M], [%S]: two digits, zero padded. *)
Definition two_digits (n : nat) : string :=
  if (n <? 10)%nat then "0" ++ nat_to_string n else nat_to_string n.

(** [time.strftime("%H:%M:%S")] at local time [t]. *)
Definition strftime_HMS (t : struct_time) : string :=
  two_digits (tm_hour t) ++ ":" ++ two_digits (tm_min t) ++ ":"
    ++ two_digits (tm_sec t).

(** * [src/parking_light.py]: the occupancy reporter *)

Module ParkingLight.

Local Open Scope monad_scope.

(** ** Configuration *)

Definition DISTANCE_THRESHOLD_CM : Q := 10.
Definition CHECK_INTERVAL_S : Q := 2 # 10.
Definition MAX_RETRY_ATTEMPTS : nat := 3.
Definition SENSOR_RETRY_DELAY_S : Q := 1 # 10.

Definition API_BASE_URL : string := "https://dpo.been-jammin.ch/api/parking".

(** The dict [API_ENDPOINTS], in the order it is written. *)
Definition API_ENDPOINTS : list (string * string) :=
  [ ("arrival", API_BASE_URL ++ "/arrival");
    ("departure", API_BASE_URL ++ "/departure");
    ("status", API_BASE_URL ++ "/status") ].

Fixpoint dict_get (k : string) (d : list (string * string)) : option string :=
  match d with
  | [] => None
  | (k', v) :: d' => if String.eqb k k' then Some v else dict_get k d'
  end.

(** ** Devices *)

(** What one call of [sonar.get_distance()] does. *)
Inductive sonar_outcome : Type :=
| Distance (d : Q)
| SonarRaises.

(** What one call of [requests.post] does. *)
Inductive http_outcome : Type :=
| Response (status_code : Z)
| PostRaises (e : exn).

Record World : Type := {
  sonar_at : nat -> sonar_outcome;   (* the k-th sonar.get_distance() *)
  post_at : nat -> http_outcome;     (* the k-th requests.post(...) *)
  led_raises_at : nat -> bool        (* the k-th led.on()/led.off() raises *)
}.

Inductive level : Type := INFO | WARNING | ERROR.

Inductive message : Type :=
| MonitorInitialized
| AttemptFailed (attempt : nat)
| AllAttemptsFailed
| InvalidEventType (event_type : string)
| ApiSuccessful (event_type : string)
| ApiFailed (event_type : string) (status_code : Z)
| ApiTimedOut (event_type : string)
| ApiConnectionError (event_type : string)
| ApiRequestError (event_type : string)
| ApiUnexpectedError (event_type : string)
| LedUpdateFailed
| InitializingState
| InitialState (taken : bool) (distance : Q)
| AssumingEmpty
| StateChanged (distance : Q) (taken : bool)
| SkippingCycle
| CleanupCompleted
| CleanupError.

(** What the process does to the outside, in order. *)
Inductive effect : Type :=
| Log (l : level) (msg : message)
| Sleep (seconds : Q)
| Led (on : bool)        (* led.on() is [Led true], led.off() is [Led false] *)
| Post (url : string).

(** [self] and the devices. *)
Record Monitor : Type := {
  last_spot_state_taken : bool;
  sonar_calls : nat;
  post_calls : nat;
  led_calls : nat;
  led_lit : bool;
  trace : list effect
}.

Definition set_last_spot_state_taken (b : bool) (m : Monitor) : Monitor :=
  {| last_spot_state_taken := b; sonar_calls := sonar_calls m;
     post_calls := post_calls m; led_calls := led_calls m;
     led_lit := led_lit m; trace := trace m |}.

Definition set_sonar_calls (n : nat) (m : Monitor) : Monitor :=
  {| last_spot_state_taken := last_spot_state_taken m; sonar_calls := n;
     post_calls := post_calls m; led_calls := led_calls m;
     led_lit := led_lit m; trace := trace m |}.

Definition set_post_calls (n : nat) (m : Monitor) : Monitor :=
  {| last_spot_state_taken := last_spot_state_taken m;
     sonar_calls := sonar_calls m; post_calls := n; led_calls := led_calls m;
     led_lit := led_lit m; trace := trace m |}.

Definition set_led (n : nat) (lit : bool) (m : Monitor) : Monitor :=
  {| last_spot_state_taken := last_spot_state_taken m;
     sonar_calls := sonar_calls m; post_calls := post_calls m;
     led_calls := n; led_lit := lit; trace := trace m |}.

Definition set_trace (t : list effect) (m : Monitor) : Monitor :=
  {| last_spot_state_taken := last_spot_state_taken m;
     sonar_calls := sonar_calls m; post_calls := post_calls m;
     led_calls := led_calls m; led_lit := led_lit m; trace := t |}.

(** The events posted and the LED commands issued, read off a trace. *)
Fixpoint posts (t : list effect) : list string :=
  match t with
  | [] => []
  | Post url :: t' => url :: posts t'
  | _ :: t' => posts t'
  end.

Fixpoint led_commands (t : list effect) : list bool :=
  match t with
  | [] => []
  | Led on :: t' => on :: led_commands t'
  | _ :: t' => led_commands t'
  end.

Section WithWorld.
Variable w : World.

Definition emit (e : effect) : M Monitor unit :=
  modify (fun m => set_trace (trace m ++ [e]) m).

Definition logger (l : level) (msg : message) : M Monitor unit :=
  emit (Log l msg).

Definition time_sleep (seconds : Q) : M Monitor unit :=
  emit (Sleep seconds).

(** [self.sonar.get_distance()] *)
Definition sonar_get_distance : M Monitor Q :=
  fun m =>
    let m' := set_sonar_calls (S (sonar_calls m)) m in
    match sonar_at w (sonar_calls m) with
    | Distance d => (Ok d, m')
    | SonarRaises => (Raise SensorError, m')
    end.

(** [requests.post(url, timeout=API_TIMEOUT_S)], returning the status
    code of the response. *)
Definition requests_post (url : string) : M Monitor Z :=
  emit (Post url) ;;
  fun m =>
    let m' := set_post_calls (S (post_calls m)) m in
    match post_at w (post_calls m) with
    | Response code => (Ok code, m')
    | PostRaises e => (Raise e, m')
    end.

(** [self.led.on()] and [self.led.off()] *)
Definition led_switch (on : bool) : M Monitor unit :=
  emit (Led on) ;;
  fun m =>
    if led_raises_at w (led_calls m)
    then (Raise LedError, set_led (S (led_calls m)) (led_lit m) m)
    else (Ok tt, set_led (S (led_calls m)) on m).

(** The [for attempt in range(MAX_RETRY_ATTEMPTS)] loop of
    [get_sensor_reading], from iteration [attempt] with [remaining]
    iterations to go, and the two statements after it. *)
Fixpoint get_sensor_reading_loop (attempt remaining : nat)
  : M Monitor (option Q) :=
  match remaining with
  | O => logger ERROR AllAttemptsFailed ;; ret None
  | S remaining' =>
      r <- try_except
             (distance <- sonar_get_distance ;;
              if Qle_bool 0 distance then ret (Some distance) else ret None)
             (fun _ =>
                logger WARNING (AttemptFailed (attempt + 1)) ;;
                when (attempt <? MAX_RETRY_ATTEMPTS - 1)%nat
                     (time_sleep SENSOR_RETRY_DELAY_S) ;;
                ret None) ;;
      match r with
      | Some distance => ret (Some distance)
      | None => get_sensor_reading_loop (S attempt) remaining'
      end
  end.

Definition get_sensor_reading : M Monitor (option Q) :=
  get_sensor_reading_loop 0 MAX_RETRY_ATTEMPTS.

Definition send_event_to_api (event_type : string) : M Monitor bool :=
  match dict_get event_type API_ENDPOINTS with
  | None => logger ERROR (InvalidEventType event_type) ;; ret false
  | Some url =>
      try_except
        (status_code <- requests_post url ;;
         if (status_code =? 200)%Z
         then logger INFO (ApiSuccessful event_type) ;; ret true
         else logger WARNING (ApiFailed event_type status_code) ;; ret false)
        (fun e =>
           logger ERROR
             match e with
             | RequestTimeout => ApiTimedOut event_type
             | RequestConnectionError => ApiConnectionError event_type
             | RequestException => ApiRequestError event_type
             | _ => ApiUnexpectedError event_type
             end ;;
           ret false)
  end.

Definition update_led_state (spot_taken : bool) : M Monitor unit :=
  try_except
    (if spot_taken then led_switch false else led_switch true)
    (fun _ => logger ERROR LedUpdateFailed).

Definition initialize_state : M Monitor unit :=
  logger INFO InitializingState ;;
  initial_distance <- get_sensor_reading ;;
  match initial_distance with
  | Some initial_distance =>
      let spot_taken := Qle_bool initial_distance DISTANCE_THRESHOLD_CM in
      modify (set_last_spot_state_taken spot_taken) ;;
      update_led_state spot_taken ;;
      let event_type := if spot_taken then "arrival" else "departure" in
      logger INFO (InitialState spot_taken initial_distance) ;;
      send_event_to_api event_type ;;
      ret tt
  | None =>
      logger WARNING AssumingEmpty ;;
      modify (set_last_spot_state_taken false) ;;
      update_led_state false
  end.

Definition process_sensor_reading (distance : Q) : M Monitor unit :=
  let current_spot_taken := Qle_bool distance DISTANCE_THRESHOLD_CM in
  last <- gets last_spot_state_taken ;;
  if negb (Bool.eqb current_spot_taken last) then
    (if current_spot_taken then
       logger INFO (StateChanged distance true) ;;
       update_led_state true ;;
       send_event_to_api "arrival" ;;
       ret tt
     else
       logger INFO (StateChanged distance false) ;;
       update_led_state false ;;
       send_event_to_api "departure" ;;
       ret tt) ;;
    modify (set_last_spot_state_taken current_spot_taken)
  else ret tt.

Definition cleanup : M Monitor unit :=
  try_except
    (led_switch false ;; logger INFO CleanupCompleted)
    (fun _ => logger ERROR CleanupError).

(** One round of the [while True] loop of [run]. *)
Definition run_iteration : M Monitor unit :=
  distance <- get_sensor_reading ;;
  match distance with
  | Some distance => process_sensor_reading distance
  | None => logger WARNING SkippingCycle
  end ;;
  time_sleep CHECK_INTERVAL_S.

(** [process_sensor_reading] on each reading of a list, in order. *)
Fixpoint process_readings (ds : list Q) : M Monitor unit :=
  match ds with
  | [] => ret tt
  | d :: ds' => process_sensor_reading d ;; process_readings ds'
  end.
End WithWorld.

(** [ParkingSpotMonitor.__init__]; [lit] is the state the LED happens to
    be in when the process starts. *)
Definition init (lit : bool) : Monitor :=
  {| last_spot_state_taken := false; sonar_calls := 0; post_calls := 0;
     led_calls := 0; led_lit := lit;
     trace := [Log INFO MonitorInitialized] |}.

(** ** Reference definitions, in the words of the specification *)

(** Occupancy: [taken = (distance <= THRESHOLD)]. *)
Definition classify (distance : Q) : bool :=
  Qle_bool distance DISTANCE_THRESHOLD_CM.

(** The first usable reading among the outcomes of consecutive sensor
    calls: not an error, not negative. *)
Fixpoint first_valid (os : list sonar_outcome) : option Q :=
  match os with
  | [] => None
  | Distance d :: os' => if Qle_bool 0 d then Some d else first_valid os'
  | SonarRaises :: os' => first_valid os'
  end.

(** The outcomes of the [n] sensor calls that follow call number [from]. *)
Definition sonar_outcomes (w : World) (from n : nat) : list sonar_outcome :=
  map (sonar_at w) (seq from n).

(** The classifications that differ from the one before them, [prev]
    being the classification before the first. *)
Fixpoint transitions (prev : bool) (cs : list bool) : list bool :=
  match cs with
  | [] => []
  | c :: cs' => (if Bool.eqb c prev then [] else [c]) ++ transitions c cs'
  end.

(** [arrival] on an edge to taken, [departure] on an edge to empty. *)
Definition event_of (taken : bool) : string :=
  if taken then "arrival" else "departure".

Definition event_url (event_type : string) : string :=
  API_BASE_URL ++ "/" ++ event_type.

(** What a step leaves alone: used to say that reading the sensor touches
    neither [self] nor the LED nor the network. *)
Record quiet (m m' : Monitor) : Prop := {
  quiet_last : last_spot_state_taken m' = last_spot_state_taken m;
  quiet_post_calls : post_calls m' = post_calls m;
  quiet_led_calls : led_calls m' = led_calls m;
  quiet_led_lit : led_lit m' = led_lit m;
  quiet_posts : posts (trace m') = posts (trace m);
  quiet_leds : led_commands (trace m') = led_commands (trace m)
}.

(** A world without network: every request times out; the sonar raises
    on the first call and reads 8.0 afterwards; the LED driver works. *)
Definition offline_world : World :=
  {| sonar_at := fun k => match k with O => SonarRaises | _ => Distance 8 end;
     post_at := fun _ => PostRaises RequestTimeout;
     led_raises_at := fun _ => false |}.

(** ** The main loop, and reference definitions for it *)

(** [n] rounds of the [while True] loop of [run]. *)
Fixpoint run_iterations (w : World) (n : nat) : M Monitor unit :=
  match n with
  | O => ret tt
  | S n' => run_iteration w ;; run_iterations w n'
  end.

(** The durations slept, read off a trace. *)
Fixpoint delays (t : list effect) : list Q :=
  match t with
  | [] => []
  | Sleep seconds :: t' => seconds :: delays t'
  | _ :: t' => delays t'
  end.

(** A usable reading: not an error, not negative. *)
Definition usable (o : sonar_outcome) : bool :=
  match o with
  | Distance d => Qle_bool 0 d
  | SonarRaises => false
  end.

(** How many of the outcomes are consumed when reading stops at the first
    usable one. *)
Fixpoint attempts_used (os : list sonar_outcome) : nat :=
  match os with
  | [] => O
  | o :: os' => if usable o then 1%nat else S (attempts_used os')
  end.

(** How many of the outcomes are exceptions. *)
Fixpoint count_raises (os : list sonar_outcome) : nat :=
  match os with
  | [] => O
  | SonarRaises :: os' => S (count_raises os')
  | Distance _ :: os' => count_raises os'
  end.

(** No two neighbours of the list are equal. *)
Fixpoint alternating (l : list string) : Prop :=
  match l with
  | a :: (b :: _) as l' => a <> b /\ alternating l'
  | _ => True
  end.

(** The last element of a list, if any. *)
Definition last_of {A} (l : list A) : option A :=
  match rev l with
  | [] => None
  | a :: _ => Some a
  end.

(** The stored state and the LED agree: the last LED command is the
    inverse of the stored occupancy.  *)
Definition led_follows_state (m : Monitor) : Prop :=
  last_of (led_commands (trace m)) = Some (negb (last_spot_state_taken m)).

(** The posts alternate, and the last one is the event of the stored
    occupancy; when nothing was posted the spot is stored as empty. *)
Definition posts_follow_state (m : Monitor) : Prop :=
  alternating (posts (trace m)) /\
  match last_of (posts (trace m)) with
  | Some url => url = event_url (event_of (last_spot_state_taken m))
  | None => last_spot_state_taken m = false
  end.

End ParkingLight.

(** * [src/tea_meter.py]: the liquid-level meter *)

Module TeaMeter.

Local Open Scope monad_scope.

(** ** Configuration *)

Definition DEFAULT_DISTANCE_TO_EMPTY_CUP_BOTTOM_CM : Q := 15.
Definition CALIBRATION_DELAY_S : Q := 15 # 10.
Definition CALIBRATION_READS : nat := 5.
Definition MIN_READING_INTERVAL_S : Q := 1 # 10.
Definition TEMP_READ_INTERVAL : nat := 2.

(** [self.csv_header], set once in [__init__]. *)
Definition csv_header : string := "Time,Temp,Hum,FillLevelCM".

(** The literal [-999.0] of [process_measurement_cycle] ("Error value"). *)
Definition error_fill_level : Q := -999.

(** ** Devices *)

Inductive sonar_outcome : Type :=
| Distance (d : Q)
| SonarRaises.

(** What one call of [dht_sensor.read()] does: a pair whose components may
    be [None], or an exception. *)
Inductive dht_outcome : Type :=
| DhtValues (hum temp : option Q)
| DhtRaises.

Inductive device : Type := Sonar | Dht | Button | Monotonic | Clock | Disk.

Definition device_eqb (a b : device) : bool :=
  match a, b with
  | Sonar, Sonar | Dht, Dht | Button, Button | Monotonic, Monotonic
  | Clock, Clock | Disk, Disk => true
  | _, _ => false
  end.

(** The answers of the outside world, by device and call number. *)
Record World : Type := {
  sonar_at : nat -> sonar_outcome;      (* sonar.get_distance() *)
  dht_at : nat -> dht_outcome;          (* dht_sensor.read() *)
  button_at : nat -> Z;                 (* button.read() *)
  monotonic_at : nat -> Q;              (* time.monotonic() *)
  localtime_at : nat -> struct_time;    (* the time strftime formats *)
  disk_fault_at : nat -> option exn;    (* makedirs, open, write, close *)
  flushed_at : nat -> nat               (* characters in the file after a
                                           write or close that faults *)
}.

Inductive level : Type := DEBUG | INFO | WARNING | ERROR.

Inductive message : Type :=
| TeaMeterInitialized
| DhtNoneValues
| DhtSensorError
| SonarSensorError
| CalibratingEmptyCup
| CalibrationRead (i : nat) (distance : Q)
| CalibrationReadFailed (i : nat)
| CalibratedDistance (distance : Q)
| CalibrationFailedUsingDefault (distance : Q)
| NoDataCollected
| SessionDataSummary
| TotalMeasurements (n : nat)
| SessionDataSaved
| MaxAndAverageFill (max_fill avg_fill : Q)
| CouldNotWrite
| UnexpectedErrorSavingCSV
| CupRemoved
| Status (temperature humidity fill_level : Q)
| CupDetected
| StartingSession
| SystemReady
| StoppedByUser
| SavingFinalData
| ShutdownComplete.

Inductive effect : Type :=
| Log (l : level) (msg : message)
| Sleep (seconds : Q).

(** The directory of the output file and the file itself ([None]: no such
    file; [Some s]: a file whose content is [s]). *)
Record FileSystem : Type := {
  data_dir_exists : bool;
  csv_file : option string
}.

(** A row of [measurement_data]:
    [(current_time_str, temperature, humidity, fill_level)]. *)
Definition Row : Type := (string * Q * Q * Q)%type.

Definition row_0 (r : Row) : string := let '(t, _, _, _) := r in t.
Definition row_1 (r : Row) : Q := let '(_, temperature, _, _) := r in temperature.
Definition row_2 (r : Row) : Q := let '(_, _, humidity, _) := r in humidity.
Definition row_3 (r : Row) : Q := let '(_, _, _, fill_level) := r in fill_level.

(** The attributes of [self] that change. *)
Record Self : Type := {
  measurement_data : list Row;
  is_cup_present : bool;
  is_measuring : bool;
  calibrated_empty_cup_distance : Q;
  temp_read_counter : nat;
  last_temp : Q;
  last_humidity : Q
}.

Record Machine : Type := {
  self : Self;
  calls : device -> nat;
  fs : FileSystem;
  trace : list effect
}.

Definition set_measurement_data (v : list Row) (s : Self) : Self :=
  {| measurement_data := v; is_cup_present := is_cup_present s;
     is_measuring := is_measuring s;
     calibrated_empty_cup_distance := calibrated_empty_cup_distance s;
     temp_read_counter := temp_read_counter s; last_temp := last_temp s;
     last_humidity := last_humidity s |}.

Definition set_is_cup_present (v : bool) (s : Self) : Self :=
  {| measurement_data := measurement_data s; is_cup_present := v;
     is_measuring := is_measuring s;
     calibrated_empty_cup_distance := calibrated_empty_cup_distance s;
     temp_read_counter := temp_read_counter s; last_temp := last_temp s;
     last_humidity := last_humidity s |}.

Definition set_is_measuring (v : bool) (s : Self) : Self :=
  {| measurement_data := measurement_data s;
     is_cup_present := is_cup_present s; is_measuring := v;
     calibrated_empty_cup_distance := calibrated_empty_cup_distance s;
     temp_read_counter := temp_read_counter s; last_temp := last_temp s;
     last_humidity := last_humidity s |}.

Definition set_calibrated_empty_cup_distance (v : Q) (s : Self) : Self :=
  {| measurement_data := measurement_data s;
     is_cup_present := is_cup_present s; is_measuring := is_measuring s;
     calibrated_empty_cup_distance := v;
     temp_read_counter := temp_read_counter s; last_temp := last_temp s;
     last_humidity := last_humidity s |}.

Definition set_temp_read_counter (v : nat) (s : Self) : Self :=
  {| measurement_data := measurement_data s;
     is_cup_present := is_cup_present s; is_measuring := is_measuring s;
     calibrated_empty_cup_distance := calibrated_empty_cup_distance s;
     temp_read_counter := v; last_temp := last_temp s;
     last_humidity := last_humidity s |}.

Definition set_last_temp (v : Q) (s : Self) : Self :=
  {| measurement_data := measurement_data s;
     is_cup_present := is_cup_present s; is_measuring := is_measuring s;
     calibrated_empty_cup_distance := calibrated_empty_cup_distance s;
     temp_read_counter := temp_read_counter s; last_temp := v;
     last_humidity := last_humidity s |}.

Definition set_last_humidity (v : Q) (s : Self) : Self :=
  {| measurement_data := measurement_data s;
     is_cup_present := is_cup_present s; is_measuring := is_measuring s;
     calibrated_empty_cup_distance := calibrated_empty_cup_distance s;
     temp_read_counter := temp_read_counter s; last_temp := last_temp s;
     last_humidity := v |}.

Definition set_self (v : Self) (m : Machine) : Machine :=
  {| self := v; calls := calls m; fs := fs m; trace := trace m |}.

Definition set_calls (v : device -> nat) (m : Machine) : Machine :=
  {| self := self m; calls := v; fs := fs m; trace := trace m |}.

Definition set_fs (v : FileSystem) (m : Machine) : Machine :=
  {| self := self m; calls := calls m; fs := v; trace := trace m |}.

Definition set_trace (v : list effect) (m : Machine) : Machine :=
  {| self := self m; calls := calls m; fs := fs m; trace := v |}.

(** One more call to device [d]. *)
Definition bump (d : device) (c : device -> nat) : device -> nat :=
  fun d' => if device_eqb d d' then S (c d') else c d'.

(** The sleeps of a trace, in order. *)
Fixpoint sleeps (t : list effect) : list Q :=
  match t with
  | [] => []
  | Sleep seconds :: t' => seconds :: sleeps t'
  | Log _ _ :: t' => sleeps t'
  end.

Section WithWorld.
Variable w : World.

(** *** Primitive operations *)

Definition lift {A} (r : result A) : M Machine A := fun m => (r, m).

Definition update (f : Self -> Self) : M Machine unit :=
  modify (fun m => set_self (f (self m)) m).

Definition attr {A} (f : Self -> A) : M Machine A :=
  gets (fun m => f (self m)).

Definition emit (e : effect) : M Machine unit :=
  modify (fun m => set_trace (trace m ++ [e]) m).

(** [logging] is configured with [level=logging.INFO]: debug records are
    dropped. *)
Definition logger (l : level) (msg : message) : M Machine unit :=
  match l with
  | DEBUG => ret tt
  | _ => emit (Log l msg)
  end.

Definition time_sleep (seconds : Q) : M Machine unit :=
  emit (Sleep seconds).

(** Count a call to device [d] and return its number. *)
Definition call (d : device) : M Machine nat :=
  fun m => (Ok (calls m d), set_calls (bump d (calls m)) m).

Definition sonar_get_distance : M Machine Q :=
  k <- call Sonar ;;
  match sonar_at w k with
  | Distance d => ret d
  | SonarRaises => raise SensorError
  end.

Definition dht_sensor_read : M Machine (option Q * option Q) :=
  k <- call Dht ;;
  match dht_at w k with
  | DhtValues hum temp => ret (hum, temp)
  | DhtRaises => raise SensorError
  end.

Definition button_read : M Machine Z :=
  k <- call Button ;; ret (button_at w k).

Definition time_monotonic : M Machine Q :=
  k <- call Monotonic ;; ret (monotonic_at w k).

(** [time.strftime("%H:%M:%S")] *)
Definition time_strftime : M Machine string :=
  k <- call Clock ;; ret (strftime_HMS (localtime_at w k)).

Definition disk_call : M Machine unit :=
  k <- call Disk ;;
  match disk_fault_at w k with
  | Some e => raise e
  | None => ret tt
  end.

(** [os.makedirs(os.path.dirname(self.output_csv_filename), exist_ok=True)] *)
Definition os_makedirs : M Machine unit :=
  disk_call ;;
  modify (fun m => set_fs {| data_dir_exists := true;
                             csv_file := csv_file (fs m) |} m).

(** [open(self.output_csv_filename, "w")]: fails without the directory,
    otherwise leaves an empty file and returns the handle [f], here the
    text written to it so far. *)
Definition open_w : M Machine string :=
  disk_call ;;
  dir <- gets (fun m => data_dir_exists (fs m)) ;;
  if dir
  then modify (fun m => set_fs {| data_dir_exists := true;
                                  csv_file := Some "" |} m) ;;
       ret ""
  else raise IOError.

(** What the file holds after disk call [k], a write or a close, has
    faulted: the first [flushed_at w k] characters of the text written to
    the handle. *)
Definition spill (k : nat) (text : string) : M Machine unit :=
  modify (fun m =>
            set_fs {| data_dir_exists := data_dir_exists (fs m);
                      csv_file := Some (substring 0 (flushed_at w k) text) |}
                   m).

(** [f.write(s)].  Python buffers the text: it is in the file for sure
    only once the file is closed, and a write raises when flushing the
    buffer fails. *)
Definition f_write (f s : string) : M Machine string :=
  k <- call Disk ;;
  match disk_fault_at w k with
  | Some e => spill k (f ++ s) ;; raise e
  | None => ret (f ++ s)
  end.

(** The close of the file when the [with] block is left normally: the
    text written reaches the file, or the close raises. *)
Definition f_close (f : string) : M Machine unit :=
  k <- call Disk ;;
  match disk_fault_at w k with
  | Some e => spill k f ;; raise e
  | None =>
      modify (fun m => set_fs {| data_dir_exists := data_dir_exists (fs m);
                                 csv_file := Some f |} m)
  end.

(** [with open(self.output_csv_filename, "w") as f: body].  The file is
    closed when the block is left, also when it is left by an exception;
    an exception of that close replaces the one of the block. *)
Definition with_open_w (body : string -> M Machine string)
  : M Machine unit :=
  f <- open_w ;;
  f <- try_except (body f) (fun e => disk_call ;; raise e) ;;
  f_close f.

(** *** The methods of [TeaMeter] *)

Definition read_environmental_data : M Machine (Q * Q) :=
  try_except
    ('(hum, temp) <- dht_sensor_read ;;
     match hum, temp with
     | Some hum, Some temp =>
         update (set_last_humidity hum) ;;
         update (set_last_temp temp) ;;
         ret (hum, temp)
     | _, _ =>
         logger WARNING DhtNoneValues ;;
         last_humidity <- attr last_humidity ;;
         last_temp <- attr last_temp ;;
         ret (last_humidity, last_temp)
     end)
    (fun _ =>
       logger ERROR DhtSensorError ;;
       last_humidity <- attr last_humidity ;;
       last_temp <- attr last_temp ;;
       ret (last_humidity, last_temp)).

Definition get_distance_reading : M Machine (option Q) :=
  try_except
    (distance <- sonar_get_distance ;;
     ret (if Qlt_bool 0 distance then Some distance else None))
    (fun _ => logger ERROR SonarSensorError ;; ret None).

(** The [for i in range(CALIBRATION_READS)] loop of [calibrate_empty_cup],
    from iteration [i] with [remaining] iterations to go; [distances] is
    the list built so far. *)
Fixpoint calibration_loop (i remaining : nat) (distances : list Q)
  : M Machine (list Q) :=
  match remaining with
  | O => ret distances
  | S remaining' =>
      distance <- get_distance_reading ;;
      match distance with
      | Some distance =>
          logger DEBUG (CalibrationRead (i + 1) distance) ;;
          calibration_loop (S i) remaining' (distances ++ [distance])
      | None =>
          logger WARNING (CalibrationReadFailed (i + 1)) ;;
          calibration_loop (S i) remaining' distances
      end
  end.

Definition calibrate_empty_cup : M Machine bool :=
  logger INFO CalibratingEmptyCup ;;
  distances <- calibration_loop 0 CALIBRATION_READS [] ;;
  match distances with
  | _ :: _ =>
      mean <- lift (py_div_len (py_sum distances) (List.length distances)) ;;
      update (set_calibrated_empty_cup_distance mean) ;;
      logger INFO (CalibratedDistance mean) ;;
      ret true
  | [] =>
      logger WARNING
        (CalibrationFailedUsingDefault DEFAULT_DISTANCE_TO_EMPTY_CUP_BOTTOM_CM) ;;
      update (set_calibrated_empty_cup_distance
                DEFAULT_DISTANCE_TO_EMPTY_CUP_BOTTOM_CM) ;;
      ret false
  end.

Definition calculate_fill_level (distance : Q) : M Machine Q :=
  reference <- attr calibrated_empty_cup_distance ;;
  ret (reference - distance).

(** [f"{row[0]},{row[1]:.1f},{row[2]:.1f},{row[3]:.1f}\n"] *)
Definition csv_line (row : Row) : string :=
  row_0 row ++ "," ++ format_1f (row_1 row) ++ "," ++ format_1f (row_2 row)
    ++ "," ++ format_1f (row_3 row) ++ "
".

(** [for row in self.measurement_data: f.write(line)] *)
Fixpoint write_rows (f : string) (rows : list Row) : M Machine string :=
  match rows with
  | [] => ret f
  | row :: rows' => f <- f_write f (csv_line row) ;; write_rows f rows'
  end.

(** [[row[3] for row in self.measurement_data if row[3] > 0]] *)
Fixpoint positive_fill_levels (rows : list Row) : list Q :=
  match rows with
  | [] => []
  | row :: rows' =>
      if Qlt_bool 0 (row_3 row)
      then row_3 row :: positive_fill_levels rows'
      else positive_fill_levels rows'
  end.

Definition save_session_data : M Machine unit :=
  data <- attr measurement_data ;;
  match data with
  | [] => logger INFO NoDataCollected
  | _ :: _ =>
      logger INFO SessionDataSummary ;;
      logger INFO (TotalMeasurements (List.length data)) ;;
      try_except
        (os_makedirs ;;
         with_open_w
           (fun f => f <- f_write f (csv_header ++ "
") ;;
                     write_rows f data) ;;
         logger INFO SessionDataSaved ;;
         let fill_levels := positive_fill_levels data in
         match fill_levels with
         | _ :: _ =>
             max_fill <- lift (py_max_list fill_levels) ;;
             avg_fill <- lift (py_div_len (py_sum fill_levels)
                                          (List.length fill_levels)) ;;
             logger INFO (MaxAndAverageFill max_fill avg_fill)
         | [] => ret tt
         end)
        (fun e =>
           match e with
           | IOError => logger ERROR CouldNotWrite
           | _ => logger ERROR UnexpectedErrorSavingCSV
           end) ;;
      update (set_measurement_data [])
  end.

Definition process_measurement_cycle : M Machine unit :=
  start_time <- time_monotonic ;;
  current_time_str <- time_strftime ;;
  button <- button_read ;;
  if (button =? 0)%Z then
    logger INFO CupRemoved ;;
    update (set_is_cup_present false) ;;
    update (set_is_measuring false) ;;
    save_session_data
  else
    counter <- attr temp_read_counter ;;
    '(humidity, temperature) <-
       (if (counter mod TEMP_READ_INTERVAL =? 0)%nat
        then read_environmental_data
        else (last_humidity <- attr last_humidity ;;
              last_temp <- attr last_temp ;;
              ret (last_humidity, last_temp))) ;;
    update (set_temp_read_counter (counter + 1)) ;;
    distance <- get_distance_reading ;;
    fill_level <- match distance with
                  | Some distance => calculate_fill_level distance
                  | None => ret error_fill_level
                  end ;;
    data <- attr measurement_data ;;
    update (set_measurement_data
              (data ++ [(current_time_str, temperature, humidity, fill_level)])) ;;
    logger INFO (Status temperature humidity fill_level) ;;
    now <- time_monotonic ;;
    let elapsed := now - start_time in
    let sleep_time := py_max 0 (MIN_READING_INTERVAL_S - elapsed) in
    when (Qlt_bool 0 sleep_time) (time_sleep sleep_time).

Definition wait_for_cup : M Machine unit :=
  button <- button_read ;;
  when (button =? 1)%Z
    (logger INFO CupDetected ;;
     update (set_is_cup_present true) ;;
     time_sleep CALIBRATION_DELAY_S ;;
     calibrate_empty_cup ;;
     update (set_is_measuring true) ;;
     update (set_temp_read_counter 0) ;;
     logger INFO StartingSession).

(** One round of the [while True] loop of [run]. *)
Definition run_iteration : M Machine unit :=
  present <- attr is_cup_present ;;
  when (negb present) (wait_for_cup ;; time_sleep (1 # 10)) ;;
  measuring <- attr is_measuring ;;
  when measuring process_measurement_cycle.

(** [n] rounds of the loop. *)
Fixpoint run_iterations (n : nat) : M Machine unit :=
  match n with
  | O => ret tt
  | S n' => run_iteration ;; run_iterations n'
  end.

(** The [finally] block of [run]. *)
Definition run_finally : M Machine unit :=
  data <- attr measurement_data ;;
  match data with
  | _ :: _ => logger INFO SavingFinalData ;; save_session_data
  | [] => ret tt
  end ;;
  logger INFO ShutdownComplete.
End WithWorld.

(** [TeaMeter.__init__], on a machine whose file system is [disk]. *)
Definition init (disk : FileSystem) : Machine :=
  {| self := {| measurement_data := [];
                is_cup_present := false;
                is_measuring := false;
                calibrated_empty_cup_distance :=
                  DEFAULT_DISTANCE_TO_EMPTY_CUP_BOTTOM_CM;
                temp_read_counter := 0;
                last_temp := -1;
                last_humidity := -1 |};
     calls := fun _ => O;
     fs := disk;
     trace := [Log INFO TeaMeterInitialized] |}.

(** ** Reference definitions, in the words of the specification *)

(** The outcomes of the [n] sonar calls that follow call number [from]. *)
Definition sonar_outcomes (w : World) (from n : nat) : list sonar_outcome :=
  map (sonar_at w) (seq from n).

(** The samples of a list of outcomes that are not errors and whose value
    passes [valid], in order. *)
Fixpoint samples (valid : Q -> bool) (os : list sonar_outcome) : list Q :=
  match os with
  | [] => []
  | Distance d :: os' =>
      if valid d then d :: samples valid os' else samples valid os'
  | SonarRaises :: os' => samples valid os'
  end.

(** Non-error, non-negative readings. *)
Definition nonnegative_samples : list sonar_outcome -> list Q :=
  samples (Qle_bool 0).

(** Non-error readings strictly above zero. *)
Definition positive_samples : list sonar_outcome -> list Q :=
  samples (Qlt_bool 0).

(** The arithmetic mean: the sum of the values over their number. *)
Definition mean (xs : list Q) : Q :=
  fold_right Qplus 0 xs / inject_Z (Z.of_nat (List.length xs)).

(** The calibration reference is the mean of the valid samples when there
    is one, and the default otherwise; [valid_samples] says which samples
    of the [CALIBRATION_READS] outcomes count as valid. *)
Definition reference_is_mean_of
    (valid_samples : list sonar_outcome -> list Q)
    (w : World) (before after : Machine) : Prop :=
  match valid_samples
          (sonar_outcomes w (calls before Sonar) CALIBRATION_READS) with
  | [] => calibrated_empty_cup_distance (self after)
          = DEFAULT_DISTANCE_TO_EMPTY_CUP_BOTTOM_CM
  | valid => calibrated_empty_cup_distance (self after) == mean valid
  end.

(** The first fault among the [n] disk calls that follow call [from]. *)
Fixpoint first_fault (w : World) (from n : nat) : option exn :=
  match n with
  | O => None
  | S n' =>
      match disk_fault_at w from with
      | Some e => Some e
      | None => first_fault w (S from) n'
      end
  end.

(** The rows joined, as [write_rows] appends them. *)
Definition joined (rows : list Row) : string :=
  fold_right String.append ""%string (map csv_line rows).

(** The content of the session file: the header row, then one row per
    record in the order of the buffer. *)
Definition csv_content (rows : list Row) : string :=
  csv_header ++ "
" ++ joined rows.

(** [mx] is the greatest of [xs]. *)
Definition is_max_of (xs : list Q) (mx : Q) : Prop :=
  In mx xs /\ Forall (fun x => x <= mx) xs.

(** A DHT read that gives no usable pair: an exception, or [None] for
    either value. *)
Definition dht_failed (o : dht_outcome) : bool :=
  match o with
  | DhtValues (Some _) (Some _) => false
  | _ => true
  end.

(** A world that answers the same thing at every call. *)
Definition constant_world (sonar : sonar_outcome) (dht : dht_outcome)
    (button : Z) (fault : option exn) : World :=
  {| sonar_at := fun _ => sonar;
     dht_at := fun _ => dht;
     button_at := fun _ => button;
     monotonic_at := fun k => inject_Z (Z.of_nat k) * (3 # 100);
     localtime_at := fun k => {| tm_hour := 9; tm_min := 0; tm_sec := k |};
     disk_fault_at := fun _ => fault;
     flushed_at := fun _ => O |}.

(** The answer [l[k]] at call [k], and [d] after the list runs out. *)
Definition script {A} (l : list A) (d : A) : nat -> A :=
  fun k => nth k l d.

(** A world whose sonar answers [l] and then raises; the cup is present,
    the DHT sensor gives 55.0 % and 22.0 degrees, the disk has no fault. *)
Definition sonar_world (l : list sonar_outcome) : World :=
  {| sonar_at := script l SonarRaises;
     dht_at := fun _ => DhtValues (Some 55) (Some 22);
     button_at := fun _ => 1%Z;
     monotonic_at := fun k => inject_Z (Z.of_nat k) * (3 # 100);
     localtime_at := fun k => {| tm_hour := 9; tm_min := 0; tm_sec := k |};
     disk_fault_at := fun _ => None;
     flushed_at := fun _ => O |}.

(** The record counts and the (max, average) pairs that were logged. *)
Fixpoint logged_counts (t : list effect) : list nat :=
  match t with
  | [] => []
  | Log _ (TotalMeasurements n) :: t' => n :: logged_counts t'
  | _ :: t' => logged_counts t'
  end.

Fixpoint logged_summaries (t : list effect) : list (Q * Q) :=
  match t with
  | [] => []
  | Log _ (MaxAndAverageFill max_fill avg_fill) :: t' =>
      (max_fill, avg_fill) :: logged_summaries t'
  | _ :: t' => logged_summaries t'
  end.

(** The fill levels of the records whose fill level is strictly greater
    than zero. *)
Definition fill_levels_above_zero (rows : list Row) : list Q :=
  map row_3 (filter (fun row => Qlt_bool 0 (row_3 row)) rows).

(** A machine in the middle of a session, with [data] in the buffer. *)
Definition sampling (data : list Row) (disk : FileSystem) : Machine :=
  {| self := {| measurement_data := data;
                is_cup_present := true;
                is_measuring := true;
                calibrated_empty_cup_distance := 13;
                temp_read_counter := List.length data;
                last_temp := 22;
                last_humidity := 55 |};
     calls := fun _ => O;
     fs := disk;
     trace := [] |}.

(** The buffer of the specification's example. *)
Definition example_buffer : list Row :=
  [ ("09:00:00", 22, 55, 32 # 10); ("09:00:01", 22, 55, -999) ].

(** Temperature and humidity of a record, and the cache, still hold the
    values [-1.0] that [__init__] put in the cache. *)
Definition unread_row (row : Row) : Prop :=
  row_1 row = -1 /\ row_2 row = -1.

Definition unread (m : Machine) : Prop :=
  last_temp (self m) = -1 /\ last_humidity (self m) = -1 /\
  Forall unread_row (measurement_data (self m)).

(** What a step leaves alone apart from the sonar counter and the log. *)
Record sonar_only (n : nat) (m m' : Machine) : Prop := {
  so_self : self m' = self m;
  so_fs : fs m' = fs m;
  so_sleeps : sleeps (trace m') = sleeps (trace m);
  so_calls : forall d,
      (calls m' d = calls m d + (if device_eqb Sonar d then n else 0))%nat
}.

(** What [save_session_data] logs for a non-empty buffer, given the first
    fault of its disk calls. *)
Definition save_log (data : list Row) (fault : option exn) : list effect :=
  ([Log INFO SessionDataSummary;
   Log INFO (TotalMeasurements (List.length data))] ++
  match fault with
  | Some IOError => [Log ERROR CouldNotWrite]
  | Some _ => [Log ERROR UnexpectedErrorSavingCSV]
  | None =>
      Log INFO SessionDataSaved ::
      match positive_fill_levels data with
      | [] => []
      | x :: xs =>
          [Log INFO (MaxAndAverageFill
                       (fold_left py_max xs x)
                       (py_sum (x :: xs)
                        / inject_Z (Z.of_nat (List.length (x :: xs))))%Q)]
      end
  end)%list.

(** A file system without the output directory. *)
Definition empty_disk : FileSystem :=
  {| data_dir_exists := false; csv_file := None |}.

(** ** Reference definitions for the session state machine *)

(** What holds between two rounds of the main loop: the two flags agree,
    the buffer is empty outside a session, and inside a session the tick
    counter counts the records of the buffer. *)
Definition session_invariant (m : Machine) : Prop :=
  is_cup_present (self m) = is_measuring (self m) /\
  (is_measuring (self m) = false -> measurement_data (self m) = []) /\
  (is_measuring (self m) = true ->
   List.length (measurement_data (self m)) = temp_read_counter (self m)).

(** The state in which the tick that finds the cup removed calls
    [save_session_data]. *)
Definition removed (m : Machine) : Machine :=
  set_self (set_is_measuring false (set_is_cup_present false (self m)))
    (set_trace (trace m ++ [Log INFO CupRemoved])
       (set_calls (bump Button (bump Clock (bump Monotonic (calls m)))) m)).

(** A world whose button answers [buttons] and then 0; the sonar reads
    5.0, the DHT sensor gives 55.0 % and 22.0 degrees, the disk has no
    fault. *)
Definition button_world (buttons : list Z) : World :=
  {| sonar_at := fun _ => Distance 5;
     dht_at := fun _ => DhtValues (Some 55) (Some 22);
     button_at := script buttons 0%Z;
     monotonic_at := fun k => inject_Z (Z.of_nat k) * (3 # 100);
     localtime_at := fun k => {| tm_hour := 9; tm_min := 0; tm_sec := k |};
     disk_fault_at := fun _ => None;
     flushed_at := fun _ => O |}.

(** A world as [button_world [1; 1]] whose disk call number [k] faults
    with [IOError], leaving [n] characters in the file. *)
Definition faulty_disk_world (k n : nat) : World :=
  {| sonar_at := fun _ => Distance 5;
     dht_at := fun _ => DhtValues (Some 55) (Some 22);
     button_at := script [1; 1]%Z 0%Z;
     monotonic_at := fun i => inject_Z (Z.of_nat i) * (3 # 100);
     localtime_at := fun i => {| tm_hour := 9; tm_min := 0; tm_sec := i |};
     disk_fault_at := fun i => if (i =? k)%nat then Some IOError else None;
     flushed_at := fun _ => n |}.

(** The records that [n] consecutive ticks with the cup present append,
    read off the answers of the devices: the first of these ticks makes
    the sonar call number [sonar] and the clock call number [clock], its
    tick counter is [counter], the next DHT call is number [dht], and the
    cache holds [humidity] and [temperature]. *)
Fixpoint session_records (w : World) (n sonar dht clock counter : nat)
    (reference humidity temperature : Q) : list Row :=
  match n with
  | O => []
  | S n' =>
      let fresh := (counter mod TEMP_READ_INTERVAL =? 0)%nat in
      let env :=
        if fresh then
          match dht_at w dht with
          | DhtValues (Some hum) (Some temp) => (hum, temp)
          | _ => (humidity, temperature)
          end
        else (humidity, temperature) in
      let fill :=
        match sonar_at w sonar with
        | Distance d =>
            if Qlt_bool 0 d then reference - d else error_fill_level
        | SonarRaises => error_fill_level
        end in
      (strftime_HMS (localtime_at w clock), snd env, fst env, fill)
        :: session_records w n' (sonar + 1)
             (dht + if fresh then 1 else 0) (clock + 1) (counter + 1)
             reference (fst env) (snd env)
  end.

End TeaMeter.

(** * Properties *)

Local Open Scope list_scope.
Local Open Scope nat_scope.

(** ** Numbers and formatting *)

Lemma Qlt_bool_iff x y : Qlt_bool x y = true <-> (x < y)%Q.
Proof.
  unfold Qlt_bool. rewrite negb_true_iff. split; intro H.
  - apply Qnot_le_lt. intro L. apply Qle_bool_iff in L. congruence.
  - destruct (Qle_bool y x) eqn:E; [|reflexivity].
    apply Qle_bool_iff in E. exfalso. exact (Qlt_not_le _ _ H E).
Qed.

Lemma Qlt_bool_false_iff x y : Qlt_bool x y = false <-> (y <= x)%Q.
Proof.
  unfold Qlt_bool. rewrite negb_false_iff. apply Qle_bool_iff.
Qed.

Example format_1f_examples :
  format_1f (32 # 10) = "3.2" /\ format_1f (-999) = "-999.0" /\
  format_1f 22%Q = "22.0" /\ format_1f (1 # 4) = "0.2" /\
  format_1f (3 # 4) = "0.8" /\ format_1f (-4 # 100) = "-0.0" /\
  format_1f (1296 # 100) = "13.0" /\
  strftime_HMS {| tm_hour := 9; tm_min := 0; tm_sec := 1 |} = "09:00:01".
Proof. repeat split; reflexivity. Qed.
(** The digits printed by [format_1f] are those of the nearest multiple of
    one tenth: [| |q| * 10 - tenths q | <= 1/2]. *)
Lemma tenths_nearest (q : Q) :
  (0 <= tenths q)%Z /\
  (Qabs (Qabs q * 10 - inject_Z (tenths q)) <= 1 # 2)%Q.
Proof.
  destruct q as [n d]. unfold tenths. cbn [Qnum Qden].
  set (N := (Z.abs n * 10)%Z).
  assert (HN : (0 <= N)%Z) by (subst N; lia).
  pose proof (Z.div_mod N (Zpos d) ltac:(lia)) as Hdm.
  pose proof (Z.mod_pos_bound N (Zpos d) ltac:(lia)) as Hb.
  assert (Hq : (0 <= N / Zpos d)%Z) by (apply Z.div_pos; lia).
  set (quo := (N / Zpos d)%Z) in *. set (rem := (N mod Zpos d)%Z) in *.
  assert (Habs : forall t : Z,
             (Z.abs (2 * N - 2 * t * Zpos d) <= Zpos d)%Z ->
             (Qabs (Qabs (n # d) * 10 - inject_Z t) <= 1 # 2)%Q).
  { intros t Ht. unfold Qle, Qabs, Qminus, Qplus, Qmult, Qopp, inject_Z.
    cbn [Qnum Qden]. fold N.
    rewrite !Pos.mul_1_r, !Z.mul_1_r, Z.mul_1_l.
    replace (N * 1 + - t * Zpos d)%Z with (N - t * Zpos d)%Z by lia.
    lia. }
  destruct (Zpos d <? 2 * rem)%Z eqn:E1.
  - apply Z.ltb_lt in E1. split; [lia|]. apply Habs. nia.
  - apply Z.ltb_ge in E1.
    destruct ((Zpos d =? 2 * rem)%Z && Z.odd quo)%bool eqn:E2.
    + apply andb_true_iff in E2. destruct E2 as (E2 & _).
      apply Z.eqb_eq in E2. split; [lia|]. apply Habs. nia.
    + split; [lia|]. apply Habs. nia.
Qed.

(** [format_1f] prints an optional sign, an integer part, a point and
    exactly one decimal digit. *)
Lemma format_1f_one_decimal (q : Q) :
  exists sign int_part digit,
    format_1f q = (sign ++ int_part ++ "." ++ String digit "")%string /\
    (sign = ""%string \/ sign = "-"%string) /\
    In digit (list_ascii_of_string "0123456789").
Proof.
  unfold format_1f.
  pose proof (Z.mod_pos_bound (tenths q) 10 ltac:(lia)) as Hb.
  set (x := (tenths q mod 10)%Z) in *.
  exists (if (Qnum q <? 0)%Z then "-"%string else ""%string).
  exists (N_to_string (Z.to_N (tenths q / 10))).
  assert (Hx : (x = 0 \/ x = 1 \/ x = 2 \/ x = 3 \/ x = 4 \/ x = 5 \/ x = 6
                \/ x = 7 \/ x = 8 \/ x = 9)%Z) by lia.
  destruct Hx as [Hx|[Hx|[Hx|[Hx|[Hx|[Hx|[Hx|[Hx|[Hx|Hx]]]]]]]]];
    rewrite Hx; eexists; (split; [reflexivity|]);
    (split; [destruct (Qnum q <? 0)%Z; auto|simpl; tauto]).
Qed.

(** ** The occupancy reporter *)

Module ParkingLightProofs.
Import ParkingLight.

Lemma posts_app t1 t2 : posts (t1 ++ t2) = posts t1 ++ posts t2.
Proof.
  induction t1 as [|e t1 IH]; simpl; [reflexivity|].
  destruct e; simpl; rewrite IH; reflexivity.
Qed.

Lemma led_commands_app t1 t2 :
  led_commands (t1 ++ t2) = led_commands t1 ++ led_commands t2.
Proof.
  induction t1 as [|e t1 IH]; simpl; [reflexivity|].
  destruct e; simpl; rewrite IH; reflexivity.
Qed.

Ltac run :=
  unfold initialize_state, process_sensor_reading, update_led_state,
    send_event_to_api, requests_post, led_switch, sonar_get_distance,
    logger, time_sleep, emit, when, try_except, bind, ret, modify, gets,
    exec, eval in *;
  simpl in *.

Ltac traces :=
  repeat rewrite ?posts_app, ?led_commands_app, ?app_nil_r; simpl;
  repeat rewrite ?app_nil_r.

(** The retry loop returns the first usable reading of the outcomes it
    can consume, makes at most [remaining] sensor calls, and is quiet. *)
Lemma get_sensor_reading_loop_spec w remaining :
  forall attempt m,
    let r := get_sensor_reading_loop w attempt remaining m in
    fst r = Ok (first_valid (sonar_outcomes w (sonar_calls m) remaining)) /\
    sonar_calls m + Nat.min 1 remaining <= sonar_calls (snd r)
      <= sonar_calls m + remaining /\
    quiet m (snd r).
Proof.
  induction remaining as [|k IH]; intros attempt m; cbn zeta.
  - run. repeat split; simpl; traces; try reflexivity; lia.
  - unfold sonar_outcomes. simpl seq. simpl map. simpl get_sensor_reading_loop.
    unfold bind, try_except, sonar_get_distance, ret.
    destruct (sonar_at w (sonar_calls m)) as [d|]; simpl first_valid.
    + destruct (Qle_bool 0 d) eqn:Hd; simpl.
      * repeat split; simpl; try reflexivity; lia.
      * specialize (IH (S attempt) (set_sonar_calls (S (sonar_calls m)) m)).
        cbn zeta in IH. simpl sonar_calls in IH.
        destruct IH as (Hr & Hc & Hq). unfold sonar_outcomes in Hr.
        split; [exact Hr|]. split; [lia|].
        destruct Hq; constructor; assumption.
    + unfold logger, emit, modify, when, time_sleep, emit, modify, ret.
      destruct (attempt <? _)%nat; simpl;
        match goal with
        | |- context [get_sensor_reading_loop w (S attempt) k ?m1] =>
            specialize (IH (S attempt) m1); set (m0 := m1) in *
        end;
        cbn zeta in IH; destruct IH as (Hr & Hc & Hq);
        change (sonar_calls m0) with (S (sonar_calls m)) in Hr, Hc;
        unfold sonar_outcomes in Hr;
        (split; [exact Hr|]; split; [lia|]);
        destruct Hq as [q1 q2 q3 q4 q5 q6]; constructor;
        try assumption;
        [ rewrite q5 | rewrite q6 | rewrite q5 | rewrite q6 ];
        subst m0; simpl; traces; reflexivity.
Qed.

Lemma update_led_state_spec w taken m :
  let r := update_led_state w taken m in
  fst r = Ok tt /\
  last_spot_state_taken (snd r) = last_spot_state_taken m /\
  sonar_calls (snd r) = sonar_calls m /\
  post_calls (snd r) = post_calls m /\
  led_calls (snd r) = S (led_calls m) /\
  led_lit (snd r) =
    (if led_raises_at w (led_calls m) then led_lit m else negb taken) /\
  posts (trace (snd r)) = posts (trace m) /\
  led_commands (trace (snd r)) = led_commands (trace m) ++ [negb taken].
Proof.
  cbn zeta. run.
  destruct taken; simpl; destruct (led_raises_at w (led_calls m)); simpl;
    traces; repeat split; reflexivity.
Qed.

Lemma send_event_to_api_spec w taken m :
  let r := send_event_to_api w (event_of taken) m in
  (exists ok, fst r = Ok ok) /\
  last_spot_state_taken (snd r) = last_spot_state_taken m /\
  sonar_calls (snd r) = sonar_calls m /\
  post_calls (snd r) = S (post_calls m) /\
  led_calls (snd r) = led_calls m /\
  led_lit (snd r) = led_lit m /\
  posts (trace (snd r)) = posts (trace m) ++ [event_url (event_of taken)] /\
  led_commands (trace (snd r)) = led_commands (trace m).
Proof.
  cbn zeta. destruct taken; run;
    (destruct (post_at w (post_calls m)) as [code|e];
     [destruct (code =? 200)%Z | destruct e]);
    simpl; traces; repeat split; eauto.
Qed.

(** C7. At startup the sensor is read at most [MAX_RETRY_ATTEMPTS] = 3
    times.  When one of these reads gives a usable distance (the first that
    neither raises nor is negative), [last_spot_state_taken] is seeded with
    [distance <= DISTANCE_THRESHOLD_CM], the LED is commanded to the
    inverse of that (and takes that state unless the driver raises), and
    the matching event, [arrival] if taken and [departure] if empty, is
    posted once.  When all three reads fail the spot is taken as empty:
    [last_spot_state_taken] is [False], the LED is commanded on, and
    nothing is posted.  [initialize_state] never raises. *)
Theorem initialize_state_seeds_previous_state (w : World) (m : Monitor) :
  let m' := exec (initialize_state w) m in
  let lit taken :=
    if led_raises_at w (led_calls m) then led_lit m else negb taken in
  eval (initialize_state w) m = Ok tt /\
  1 <= sonar_calls m' - sonar_calls m <= MAX_RETRY_ATTEMPTS /\
  match first_valid (sonar_outcomes w (sonar_calls m) MAX_RETRY_ATTEMPTS) with
  | Some distance =>
      let taken := Qle_bool distance DISTANCE_THRESHOLD_CM in
      last_spot_state_taken m' = taken /\
      led_commands (trace m') = led_commands (trace m) ++ [negb taken] /\
      led_lit m' = lit taken /\
      posts (trace m') =
        posts (trace m) ++ [event_url (if taken then "arrival" else "departure")]
  | None =>
      last_spot_state_taken m' = false /\
      led_commands (trace m') = led_commands (trace m) ++ [true] /\
      led_lit m' = lit false /\
      posts (trace m') = posts (trace m)
  end.
Proof.
  cbn zeta. unfold exec, eval.
  remember (initialize_state w m) as res eqn:E.
  unfold initialize_state, get_sensor_reading, bind, logger, emit, modify,
    ret in E.
  set (m1 := set_trace _ m) in E.
  pose proof (get_sensor_reading_loop_spec w MAX_RETRY_ATTEMPTS 0 m1)
    as (Hr & Hc & Hq).
  destruct (get_sensor_reading_loop w 0 MAX_RETRY_ATTEMPTS m1) as [r m2].
  cbn [fst snd] in Hr, Hc, Hq. subst r.
  change (sonar_calls m1) with (sonar_calls m) in *.
  destruct Hq as [q1 q2 q3 q4 q5 q6].
  assert (Hp1 : posts (trace m1) = posts (trace m))
    by (subst m1; simpl; traces; reflexivity).
  assert (Hl1 : led_commands (trace m1) = led_commands (trace m))
    by (subst m1; simpl; traces; reflexivity).
  change (led_calls m1) with (led_calls m) in q3.
  change (led_lit m1) with (led_lit m) in q4.
  unfold MAX_RETRY_ATTEMPTS in Hc. simpl Nat.min in Hc.
  destruct (first_valid _) as [d|].
  - set (taken := Qle_bool d DISTANCE_THRESHOLD_CM) in *.
    set (m3 := set_last_spot_state_taken taken m2) in E.
    pose proof (update_led_state_spec w taken m3)
      as (U1 & U2 & U3 & U4 & U5 & U6 & U7 & U8).
    destruct (update_led_state w taken m3) as [r4 m4].
    cbn [fst snd] in *. subst r4.
    set (m5 := set_trace _ m4) in E.
    pose proof (send_event_to_api_spec w taken m5)
      as ((ok & S1) & S2 & S3 & S4 & S5 & S6 & S7 & S8).
    unfold event_of in S1, S2, S3, S4, S5, S6, S7, S8.
    destruct (send_event_to_api w _ m5) as [r6 m6].
    cbn [fst snd] in *. subst r6. subst res. cbn [fst snd].
    change (last_spot_state_taken m5) with (last_spot_state_taken m4) in *.
    change (sonar_calls m5) with (sonar_calls m4) in *.
    change (led_lit m5) with (led_lit m4) in *.
    change (led_calls m5) with (led_calls m4) in *.
    change (sonar_calls m3) with (sonar_calls m2) in *.
    change (led_calls m3) with (led_calls m2) in *.
    change (led_lit m3) with (led_lit m2) in *.
    change (last_spot_state_taken m3) with taken in *.
    assert (Hp5 : posts (trace m5) = posts (trace m4))
      by (subst m5; simpl; traces; reflexivity).
    assert (Hl5 : led_commands (trace m5) = led_commands (trace m4))
      by (subst m5; simpl; traces; reflexivity).
    change (trace m3) with (trace m2) in *.
    split; [reflexivity|]. split; [unfold MAX_RETRY_ATTEMPTS; lia|].
    repeat split; try congruence.
    rewrite S6, U6, q3, q4. reflexivity.
  - set (m3 := set_last_spot_state_taken false _) in E.
    pose proof (update_led_state_spec w false m3)
      as (U1 & U2 & U3 & U4 & U5 & U6 & U7 & U8).
    destruct (update_led_state w false m3) as [r4 m4].
    cbn [fst snd] in *. subst r4. subst res. cbn [fst snd].
    change (sonar_calls m3) with (sonar_calls m2) in *.
    change (led_calls m3) with (led_calls m2) in *.
    change (led_lit m3) with (led_lit m2) in *.
    change (last_spot_state_taken m3) with false in *.
    assert (Hp3 : posts (trace m3) = posts (trace m2))
      by (subst m3; simpl; traces; reflexivity).
    assert (Hl3 : led_commands (trace m3) = led_commands (trace m2))
      by (subst m3; simpl; traces; reflexivity).
    split; [reflexivity|]. split; [unfold MAX_RETRY_ATTEMPTS; lia|].
    repeat split; try congruence.
    + rewrite U8, Hl3, q6, Hl1. reflexivity.
    + rewrite U6, q3, q4. reflexivity.
Qed.

Lemma last_cons_default {A} (l : list A) :
  forall a d, last (a :: l) d = last l a.
Proof.
  induction l as [|b l IH]; intros a d; [reflexivity|].
  change (last (a :: b :: l) d) with (last (b :: l) d).
  rewrite !IH. reflexivity.
Qed.

(** One reading: the stored classification becomes the new one; an LED
    command and a post happen exactly when it differs from the old one. *)
Lemma process_sensor_reading_step w d m :
  let r := process_sensor_reading w d m in
  let taken := classify d in
  let edge := transitions (last_spot_state_taken m) [taken] in
  fst r = Ok tt /\
  last_spot_state_taken (snd r) = taken /\
  posts (trace (snd r)) =
    posts (trace m) ++ map (fun c => event_url (event_of c)) edge /\
  led_commands (trace (snd r)) = led_commands (trace m) ++ map negb edge.
Proof.
  cbn zeta. unfold classify.
  remember (process_sensor_reading w d m) as res eqn:E.
  unfold process_sensor_reading, gets, bind, modify, ret, logger, emit,
    modify in E.
  set (taken := Qle_bool d DISTANCE_THRESHOLD_CM) in *.
  simpl transitions.
  destruct (Bool.eqb taken (last_spot_state_taken m)) eqn:Heq; cbn [negb] in E.
  - apply eqb_prop in Heq. subst res. cbn [fst snd app map].
    rewrite !app_nil_r. auto.
  - assert (E' : res =
        let m1 := set_trace (trace m ++ [Log INFO (StateChanged d taken)]) m in
        let r2 := update_led_state w taken m1 in
        let r3 := send_event_to_api w (event_of taken) (snd r2) in
        match fst r2, fst r3 with
        | Ok _, Ok _ => (Ok tt, set_last_spot_state_taken taken (snd r3))
        | Ok _, Raise e => (Raise e, snd r3)
        | Raise e, _ => (Raise e, snd r2)
        end).
    { subst res. cbn zeta. unfold event_of.
      destruct taken; cbn iota;
        match goal with
        | |- context [update_led_state w ?b ?m1] =>
            destruct (update_led_state w b m1) as [[[]|e2] m2]
        end; cbn [fst snd]; try reflexivity;
        match goal with
        | |- context [send_event_to_api w ?ev ?m2] =>
            destruct (send_event_to_api w ev m2) as [[b3|e3] m3]
        end; reflexivity. }
    clear E. cbn zeta in E'.
    set (m1 := set_trace _ m) in E'.
    pose proof (update_led_state_spec w taken m1)
      as (U1 & U2 & U3 & U4 & U5 & U6 & U7 & U8).
    cbn zeta in *. rewrite U1 in E'.
    set (m2 := snd (update_led_state w taken m1)) in *.
    pose proof (send_event_to_api_spec w taken m2)
      as ((ok & S1) & S2 & S3 & S4 & S5 & S6 & S7 & S8).
    cbn zeta in *. rewrite S1 in E'.
    set (m3 := snd (send_event_to_api w (event_of taken) m2)) in *.
    subst res. cbn [fst snd map app].
    split; [reflexivity|]. split; [reflexivity|].
    change (trace (set_last_spot_state_taken taken m3)) with (trace m3).
    rewrite S7, S8, U7, U8. subst m1. cbn [trace set_trace]. traces.
    split; reflexivity.
Qed.

(** C2. Readings are classified [taken = (distance <=
    DISTANCE_THRESHOLD_CM)].  Over any sequence of readings handed to
    [process_sensor_reading], and whatever the sensor, the LED driver and
    the HTTP endpoint do: the posts are exactly one per classification that
    differs from the one before it, [arrival] on a change to taken and
    [departure] on a change to empty, and none where the classification
    repeats; the LED commands are the inverse of occupancy at exactly those
    changes; and after the last reading [last_spot_state_taken] holds its
    classification. *)
Theorem process_readings_reports_edges (w : World) (ds : list Q) :
  forall m : Monitor,
    let m' := exec (process_readings w ds) m in
    let changes := transitions (last_spot_state_taken m) (map classify ds) in
    eval (process_readings w ds) m = Ok tt /\
    posts (trace m') =
      posts (trace m) ++ map (fun c => event_url (event_of c)) changes /\
    led_commands (trace m') = led_commands (trace m) ++ map negb changes /\
    last_spot_state_taken m' =
      last (map classify ds) (last_spot_state_taken m).
Proof.
  induction ds as [|d ds IH]; intros m; cbn zeta.
  - unfold exec, eval. simpl. rewrite !app_nil_r. auto.
  - unfold exec, eval. simpl process_readings. unfold bind.
    pose proof (process_sensor_reading_step w d m) as (P1 & P2 & P3 & P4).
    cbn zeta in *.
    destruct (process_sensor_reading w d m) as [r1 m1].
    cbn [fst snd] in *. subst r1.
    specialize (IH m1). cbn zeta in IH. unfold exec, eval in IH.
    destruct IH as (I1 & I2 & I3 & I4).
    rewrite P2 in I2, I3, I4.
    split; [exact I1|].
    simpl transitions in P3, P4. rewrite app_nil_r in P3, P4.
    simpl map. simpl transitions.
    rewrite I2, I3, I4, P3, P4, !map_app, !app_assoc.
    repeat split.
    symmetry. apply last_cons_default.
Qed.

(** The example of the specification: distances 15, 15, 8, 8, 8, 15 with
    threshold 10, from a fresh monitor, post [arrival] then [departure],
    here with every request timing out: the state follows the readings
    all the same. *)
Example process_readings_example :
  let m' := exec (process_readings offline_world [15; 15; 8; 8; 8; 15]%Q)
                 (init false) in
  posts (trace m')
  = [ "https://dpo.been-jammin.ch/api/parking/arrival";
      "https://dpo.been-jammin.ch/api/parking/departure" ] /\
  led_commands (trace m') = [false; true] /\
  last_spot_state_taken m' = false /\ led_lit m' = true.
Proof. repeat split; reflexivity. Qed.

(** Startup with a sensor that raises once and then reads 8.0: the spot is
    taken, the LED is switched off and [arrival] is posted. *)
Example initialize_state_example :
  let m' := exec (initialize_state offline_world) (init true) in
  sonar_calls m' = 2 /\ last_spot_state_taken m' = true /\
  led_commands (trace m') = [false] /\ led_lit m' = false /\
  posts (trace m') = ["https://dpo.been-jammin.ch/api/parking/arrival"].
Proof. repeat split; reflexivity. Qed.

(** ** More of the occupancy reporter *)

Lemma delays_app t1 t2 : delays (t1 ++ t2) = delays t1 ++ delays t2.
Proof.
  induction t1 as [|e t1 IH]; simpl; [reflexivity|].
  destruct e; simpl; rewrite IH; reflexivity.
Qed.

(** X1.  [get_sensor_reading] never raises and returns the first usable
    reading (no exception, not negative) among at most
    [MAX_RETRY_ATTEMPTS] sensor calls, [None] if there is none.  It stops
    at the first usable reading, so it makes exactly as many sensor calls as
    that takes.  It sleeps [SENSOR_RETRY_DELAY_S] once for each of the first
    two attempts that raised: a negative reading is retried at once, and
    nothing is slept after the last attempt.  The stored state, the LED and
    the network are not touched. *)
Theorem get_sensor_reading_first_usable (w : World) (m : Monitor) :
  let os := sonar_outcomes w (sonar_calls m) MAX_RETRY_ATTEMPTS in
  let r := get_sensor_reading w m in
  fst r = Ok (first_valid os) /\
  sonar_calls (snd r) = sonar_calls m + attempts_used os /\
  delays (trace (snd r))
  = delays (trace m)
    ++ repeat SENSOR_RETRY_DELAY_S
         (count_raises (firstn (Nat.min 2 (attempts_used os)) os)) /\
  quiet m (snd r).
Proof.
  cbn zeta. unfold get_sensor_reading, sonar_outcomes, MAX_RETRY_ATTEMPTS.
  cbn [seq map get_sensor_reading_loop]. unfold MAX_RETRY_ATTEMPTS.
  unfold bind, try_except, sonar_get_distance, logger, time_sleep, emit,
    modify, when, ret.
  cbn [sonar_calls set_sonar_calls set_trace].
  destruct (sonar_at w (sonar_calls m)) as [d0|];
    [destruct (Qle_bool 0 d0) eqn:E0|];
    cbn [first_valid usable attempts_used]; rewrite ?E0;
    cbn [fst snd sonar_calls set_sonar_calls set_trace trace Nat.ltb Nat.leb
         Nat.sub Nat.add].
  all: try (destruct (sonar_at w (S (sonar_calls m))) as [d1|];
    [destruct (Qle_bool 0 d1) eqn:E1|];
    cbn [first_valid usable attempts_used]; rewrite ?E1;
    cbn [fst snd sonar_calls set_sonar_calls set_trace trace Nat.ltb Nat.leb
         Nat.sub Nat.add]).
  all: try (destruct (sonar_at w (S (S (sonar_calls m)))) as [d2|];
    [destruct (Qle_bool 0 d2) eqn:E2|];
    cbn [first_valid usable attempts_used]; rewrite ?E2;
    cbn [fst snd sonar_calls set_sonar_calls set_trace trace Nat.ltb Nat.leb
         Nat.sub Nat.add]).
  all: repeat rewrite delays_app; cbn [delays app Nat.min firstn count_raises
                                       repeat];
    rewrite <- ?app_assoc, ?app_nil_r; cbn [app];
    (split; [reflexivity|]); (split; [lia|]); (split; [reflexivity|]);
    constructor; cbn [last_spot_state_taken post_calls led_calls led_lit trace
                      set_trace set_sonar_calls];
    repeat rewrite ?posts_app, ?led_commands_app; cbn [posts led_commands app];
    rewrite ?app_nil_r; reflexivity.
Qed.
Lemma dict_get_endpoints (e : string) :
  match dict_get e API_ENDPOINTS with
  | Some url => In e ["arrival"; "departure"; "status"]%string
                /\ url = event_url e
  | None => ~ In e ["arrival"; "departure"; "status"]%string
  end.
Proof.
  unfold API_ENDPOINTS. cbn [dict_get].
  destruct (String.eqb e "arrival") eqn:A.
  { apply String.eqb_eq in A. subst e. split; [simpl; auto|reflexivity]. }
  destruct (String.eqb e "departure") eqn:D.
  { apply String.eqb_eq in D. subst e. split; [simpl; auto|reflexivity]. }
  destruct (String.eqb e "status") eqn:S.
  { apply String.eqb_eq in S. subst e. split; [simpl; auto|reflexivity]. }
  apply String.eqb_neq in A, D, S. simpl. intuition congruence.
Qed.

(** X2.  [send_event_to_api] never raises.  For an event type that is not
    a key of [API_ENDPOINTS] it returns [False] without any request.  For
    a key ([arrival], [departure], and also [status]) it makes exactly one
    POST, to the URL of that event, and returns [True] exactly when the
    response has status 200: any other status, a timeout, a connection
    error or any other exception gives [False].  The stored state and the
    LED are not touched. *)
Theorem send_event_to_api_outcome (w : World) (event_type : string)
    (m : Monitor) :
  let r := send_event_to_api w event_type m in
  match dict_get event_type API_ENDPOINTS with
  | None =>
      ~ In event_type ["arrival"; "departure"; "status"]%string /\
      fst r = Ok false /\
      posts (trace (snd r)) = posts (trace m) /\
      post_calls (snd r) = post_calls m
  | Some url =>
      In event_type ["arrival"; "departure"; "status"]%string /\
      url = event_url event_type /\
      fst r = Ok match post_at w (post_calls m) with
                 | Response status_code => (status_code =? 200)%Z
                 | PostRaises _ => false
                 end /\
      posts (trace (snd r)) = posts (trace m) ++ [url] /\
      post_calls (snd r) = S (post_calls m)
  end /\
  last_spot_state_taken (snd r) = last_spot_state_taken m /\
  sonar_calls (snd r) = sonar_calls m /\
  led_calls (snd r) = led_calls m /\
  led_lit (snd r) = led_lit m /\
  led_commands (trace (snd r)) = led_commands (trace m).
Proof.
  cbn zeta. pose proof (dict_get_endpoints event_type) as He.
  unfold send_event_to_api.
  destruct (dict_get event_type API_ENDPOINTS) as [url|].
  - destruct He as (He1 & He2). run.
    destruct (post_at w (post_calls m)) as [code|e];
      [destruct (code =? 200)%Z | destruct e];
      simpl; traces; repeat split; auto.
  - run. traces. repeat split; auto.
Qed.

(** [initialize_state] in terms of the first usable reading. *)
Lemma initialize_state_full w m :
  let reading :=
    first_valid (sonar_outcomes w (sonar_calls m) MAX_RETRY_ATTEMPTS) in
  let taken :=
    match reading with Some d => classify d | None => false end in
  let r := initialize_state w m in
  fst r = Ok tt /\
  last_spot_state_taken (snd r) = taken /\
  led_commands (trace (snd r)) = led_commands (trace m) ++ [negb taken] /\
  led_lit (snd r)
  = (if led_raises_at w (led_calls m) then led_lit m else negb taken) /\
  led_calls (snd r) = S (led_calls m) /\
  posts (trace (snd r))
  = posts (trace m) ++ match reading with
                       | Some _ => [event_url (event_of taken)]
                       | None => []
                       end.
Proof.
  cbn zeta.
  remember (initialize_state w m) as res eqn:E.
  unfold initialize_state, get_sensor_reading, bind, logger, emit, modify,
    ret in E.
  set (m1 := set_trace _ m) in E.
  pose proof (get_sensor_reading_loop_spec w MAX_RETRY_ATTEMPTS 0 m1)
    as (Hr & _ & Hq).
  destruct (get_sensor_reading_loop w 0 MAX_RETRY_ATTEMPTS m1) as [r m2].
  cbn [fst snd] in Hr, Hq. subst r.
  change (sonar_calls m1) with (sonar_calls m) in *.
  destruct Hq as [q1 q2 q3 q4 q5 q6].
  assert (Hp1 : posts (trace m1) = posts (trace m))
    by (subst m1; simpl; traces; reflexivity).
  assert (Hl1 : led_commands (trace m1) = led_commands (trace m))
    by (subst m1; simpl; traces; reflexivity).
  change (led_calls m1) with (led_calls m) in q3.
  change (led_lit m1) with (led_lit m) in q4.
  destruct (first_valid _) as [d|].
  - unfold classify. set (taken := Qle_bool d DISTANCE_THRESHOLD_CM) in *.
    set (m3 := set_last_spot_state_taken taken m2) in E.
    pose proof (update_led_state_spec w taken m3)
      as (U1 & U2 & U3 & U4 & U5 & U6 & U7 & U8).
    destruct (update_led_state w taken m3) as [r4 m4].
    cbn [fst snd] in *. subst r4.
    set (m5 := set_trace _ m4) in E.
    pose proof (send_event_to_api_spec w taken m5)
      as ((ok & S1) & S2 & S3 & S4 & S5 & S6 & S7 & S8).
    unfold event_of in S1, S2, S3, S4, S5, S6, S7, S8.
    destruct (send_event_to_api w _ m5) as [r6 m6].
    cbn [fst snd] in *. subst r6. subst res. cbn [fst snd].
    change (last_spot_state_taken m5) with (last_spot_state_taken m4) in *.
    change (led_lit m5) with (led_lit m4) in *.
    change (led_calls m5) with (led_calls m4) in *.
    change (led_calls m3) with (led_calls m2) in *.
    change (led_lit m3) with (led_lit m2) in *.
    change (last_spot_state_taken m3) with taken in *.
    assert (Hp5 : posts (trace m5) = posts (trace m4))
      by (subst m5; simpl; traces; reflexivity).
    assert (Hl5 : led_commands (trace m5) = led_commands (trace m4))
      by (subst m5; simpl; traces; reflexivity).
    change (trace m3) with (trace m2) in *.
    unfold event_of.
    repeat split; try congruence.
    rewrite S6, U6, q3, q4. reflexivity.
  - set (m3 := set_last_spot_state_taken false _) in E.
    pose proof (update_led_state_spec w false m3)
      as (U1 & U2 & U3 & U4 & U5 & U6 & U7 & U8).
    destruct (update_led_state w false m3) as [r4 m4].
    cbn [fst snd] in *. subst r4. subst res. cbn [fst snd].
    change (led_calls m3) with (led_calls m2) in *.
    change (led_lit m3) with (led_lit m2) in *.
    change (last_spot_state_taken m3) with false in *.
    assert (Hp3 : posts (trace m3) = posts (trace m2))
      by (subst m3; simpl; traces; reflexivity).
    assert (Hl3 : led_commands (trace m3) = led_commands (trace m2))
      by (subst m3; simpl; traces; reflexivity).
    rewrite app_nil_r.
    repeat split; try congruence.
    rewrite U6, q3, q4. reflexivity.
Qed.

Lemma update_led_state_delays w b m :
  delays (trace (snd (update_led_state w b m))) = delays (trace m).
Proof.
  unfold update_led_state, led_switch, try_except, bind, emit, logger, emit,
    modify. cbn [trace set_trace led_calls].
  destruct b; destruct (led_raises_at w (led_calls m));
    cbn [fst snd trace set_trace set_led];
    repeat rewrite delays_app; cbn [delays]; rewrite ?app_nil_r; reflexivity.
Qed.

Lemma send_event_to_api_delays w e m :
  delays (trace (snd (send_event_to_api w e m))) = delays (trace m).
Proof.
  unfold send_event_to_api.
  destruct (dict_get e API_ENDPOINTS) as [url|].
  - unfold try_except, requests_post, bind, logger, emit, modify, ret.
    cbn [trace set_trace post_calls].
    destruct (post_at w (post_calls m)) as [code|ex];
      [destruct (code =? 200)%Z | destruct ex];
      cbn [fst snd trace set_trace set_post_calls];
      repeat rewrite delays_app; cbn [delays]; rewrite ?app_nil_r;
      reflexivity.
  - unfold bind, logger, emit, modify, ret. cbn [fst snd trace set_trace].
    rewrite delays_app. cbn [delays]. rewrite app_nil_r. reflexivity.
Qed.

(** One reading, with the LED. *)
Lemma process_sensor_reading_full w d m :
  let r := process_sensor_reading w d m in
  let taken := classify d in
  let changed := negb (Bool.eqb taken (last_spot_state_taken m)) in
  fst r = Ok tt /\
  last_spot_state_taken (snd r) = taken /\
  sonar_calls (snd r) = sonar_calls m /\
  posts (trace (snd r))
  = posts (trace m) ++ (if changed then [event_url (event_of taken)] else []) /\
  led_commands (trace (snd r))
  = led_commands (trace m) ++ (if changed then [negb taken] else []) /\
  led_calls (snd r) = led_calls m + (if changed then 1 else 0) /\
  led_lit (snd r)
  = (if changed
     then if led_raises_at w (led_calls m) then led_lit m else negb taken
     else led_lit m) /\
  delays (trace (snd r)) = delays (trace m).
Proof.
  cbn zeta. unfold classify.
  remember (process_sensor_reading w d m) as res eqn:E.
  unfold process_sensor_reading, gets, bind, modify, ret, logger, emit,
    modify in E.
  set (taken := Qle_bool d DISTANCE_THRESHOLD_CM) in *.
  destruct (Bool.eqb taken (last_spot_state_taken m)) eqn:Heq; cbn [negb] in *.
  - apply eqb_prop in Heq. subst res. cbn [fst snd].
    rewrite !app_nil_r. repeat split; auto.
  - assert (E' : res =
        let m1 := set_trace (trace m ++ [Log INFO (StateChanged d taken)]) m in
        let r2 := update_led_state w taken m1 in
        let r3 := send_event_to_api w (event_of taken) (snd r2) in
        match fst r2, fst r3 with
        | Ok _, Ok _ => (Ok tt, set_last_spot_state_taken taken (snd r3))
        | Ok _, Raise e => (Raise e, snd r3)
        | Raise e, _ => (Raise e, snd r2)
        end).
    { subst res. cbn zeta. unfold event_of.
      destruct taken; cbn iota;
        match goal with
        | |- context [update_led_state w ?b ?m1] =>
            destruct (update_led_state w b m1) as [[[]|e2] m2]
        end; cbn [fst snd]; try reflexivity;
        match goal with
        | |- context [send_event_to_api w ?ev ?m2] =>
            destruct (send_event_to_api w ev m2) as [[b3|e3] m3]
        end; reflexivity. }
    clear E. cbn zeta in E'.
    set (m1 := set_trace _ m) in E'.
    pose proof (update_led_state_spec w taken m1)
      as (U1 & U2 & U3 & U4 & U5 & U6 & U7 & U8).
    cbn zeta in *. rewrite U1 in E'.
    pose proof (update_led_state_delays w taken m1) as U9.
    set (m2 := snd (update_led_state w taken m1)) in *.
    pose proof (send_event_to_api_spec w taken m2)
      as ((ok & S1) & S2 & S3 & S4 & S5 & S6 & S7 & S8).
    cbn zeta in *. rewrite S1 in E'.
    pose proof (send_event_to_api_delays w (event_of taken) m2) as S9.
    set (m3 := snd (send_event_to_api w (event_of taken) m2)) in *.
    subst res. cbn [fst snd].
    change (trace (set_last_spot_state_taken taken m3)) with (trace m3).
    change (led_lit (set_last_spot_state_taken taken m3)) with (led_lit m3).
    change (led_calls (set_last_spot_state_taken taken m3)) with (led_calls m3).
    change (sonar_calls (set_last_spot_state_taken taken m3))
      with (sonar_calls m3).
    rewrite S7, S8, U7, U8, S3, U3, S5, U5, S6, U6, S9, U9.
    subst m1. cbn [trace set_trace sonar_calls led_calls led_lit].
    rewrite delays_app. cbn [delays]. traces.
    repeat split; try reflexivity. lia.
Qed.

(** One round of the loop, in terms of the first usable reading. *)
Lemma run_iteration_spec w m :
  let reading :=
    first_valid (sonar_outcomes w (sonar_calls m) MAX_RETRY_ATTEMPTS) in
  let new :=
    match reading with
    | Some d => classify d
    | None => last_spot_state_taken m
    end in
  let changed := negb (Bool.eqb new (last_spot_state_taken m)) in
  let r := run_iteration w m in
  fst r = Ok tt /\
  last_spot_state_taken (snd r) = new /\
  posts (trace (snd r))
  = posts (trace m) ++ (if changed then [event_url (event_of new)] else []) /\
  led_commands (trace (snd r))
  = led_commands (trace m) ++ (if changed then [negb new] else []) /\
  led_calls (snd r) = led_calls m + (if changed then 1 else 0) /\
  led_lit (snd r)
  = (if changed
     then if led_raises_at w (led_calls m) then led_lit m else negb new
     else led_lit m) /\
  exists t, trace (snd r) = t ++ [Sleep CHECK_INTERVAL_S].
Proof.
  cbn zeta.
  remember (run_iteration w m) as res eqn:E.
  unfold run_iteration, get_sensor_reading in E. unfold bind at 1 2 in E.
  pose proof (get_sensor_reading_loop_spec w MAX_RETRY_ATTEMPTS 0 m)
    as (Hr & _ & Hq).
  destruct (get_sensor_reading_loop w 0 MAX_RETRY_ATTEMPTS m) as [r1 m1].
  cbn [fst snd] in Hr, Hq. subst r1.
  destruct Hq as [q1 q2 q3 q4 q5 q6].
  destruct (first_valid _) as [d|].
  - pose proof (process_sensor_reading_full w d m1)
      as (P1 & P2 & P3 & P4 & P5 & P6 & P7 & P8).
    cbn zeta in *.
    destruct (process_sensor_reading w d m1) as [r2 m2].
    cbn [fst snd] in *. subst r2.
    unfold time_sleep, emit, modify in E. subst res. cbn [fst snd].
    cbn [last_spot_state_taken led_calls led_lit trace set_trace].
    rewrite posts_app, led_commands_app. cbn [posts led_commands].
    rewrite !app_nil_r.
    rewrite P2, P4, P5, P6, P7, q1, q3, q4, q5, q6.
    repeat split; try reflexivity. eexists; reflexivity.
  - unfold logger, time_sleep, emit, modify, bind in E. subst res.
    cbn [fst snd last_spot_state_taken led_calls led_lit trace set_trace].
    rewrite !posts_app, !led_commands_app. cbn [posts led_commands].
    rewrite eqb_reflx. cbn [negb]. rewrite !app_nil_r.
    repeat split; try assumption; try lia. eexists; reflexivity.
Qed.

(** X3.  One round of the main loop never raises and always ends by
    sleeping [CHECK_INTERVAL_S].  When none of the three sensor attempts
    gives a usable reading the cycle is skipped: the stored state, the LED
    and its command history and the posts are as before.  Otherwise the
    stored state is the classification of the first usable reading and at
    most one event is posted. *)
Theorem run_iteration_skips_failed_cycle (w : World) (m : Monitor) :
  let r := run_iteration w m in
  fst r = Ok tt /\
  (exists t, trace (snd r) = t ++ [Sleep CHECK_INTERVAL_S]) /\
  match first_valid (sonar_outcomes w (sonar_calls m) MAX_RETRY_ATTEMPTS) with
  | None =>
      last_spot_state_taken (snd r) = last_spot_state_taken m /\
      led_lit (snd r) = led_lit m /\
      led_calls (snd r) = led_calls m /\
      led_commands (trace (snd r)) = led_commands (trace m) /\
      posts (trace (snd r)) = posts (trace m)
  | Some distance =>
      last_spot_state_taken (snd r) = classify distance /\
      List.length (posts (trace (snd r)))
      <= S (List.length (posts (trace m)))
  end.
Proof.
  cbn zeta.
  pose proof (run_iteration_spec w m) as (R1 & R2 & R3 & R4 & R5 & R6 & R7).
  cbn zeta in *. split; [exact R1|]. split; [exact R7|].
  destruct (first_valid _) as [d|].
  - split; [exact R2|]. rewrite R3, length_app.
    destruct (negb _); simpl; lia.
  - rewrite eqb_reflx in *. cbn [negb] in *.
    rewrite app_nil_r in R3, R4. repeat split; try assumption. lia.
Qed.

Lemma last_of_snoc {A} (l : list A) (a : A) : last_of (l ++ [a]) = Some a.
Proof. unfold last_of. rewrite rev_app_distr. reflexivity. Qed.

Lemma run_iteration_led_follows_state w m :
  led_follows_state m -> led_follows_state (snd (run_iteration w m)).
Proof.
  unfold led_follows_state. intros H.
  pose proof (run_iteration_spec w m) as (_ & R2 & _ & R4 & _).
  cbn zeta in *. rewrite R4, R2.
  destruct (negb (Bool.eqb _ _)) eqn:C.
  - apply last_of_snoc.
  - apply negb_false_iff, eqb_prop in C. rewrite app_nil_r, C. exact H.
Qed.

Lemma run_iterations_led_follows_state w n :
  forall m, led_follows_state m ->
            fst (run_iterations w n m) = Ok tt /\
            led_follows_state (snd (run_iterations w n m)).
Proof.
  induction n as [|n IH]; intros m H.
  - split; [reflexivity|exact H].
  - simpl run_iterations. unfold bind.
    pose proof (run_iteration_led_follows_state w m H) as H1.
    pose proof (run_iteration_spec w m) as (R1 & _). cbn zeta in R1.
    destruct (run_iteration w m) as [r1 m1]. cbn [fst snd] in *. subst r1.
    apply IH. exact H1.
Qed.

(** X4.  From any state, [initialize_state] followed by any number of
    rounds of the main loop never raises, and afterwards the last command
    given to the LED is the inverse of the stored occupancy: off when the
    spot is stored as taken, on when it is stored as empty. *)
Theorem run_keeps_led_command_inverse_of_state
    (w : World) (m : Monitor) (n : nat) :
  let m0 := exec (initialize_state w) m in
  let m' := exec (run_iterations w n) m0 in
  eval (initialize_state w) m = Ok tt /\
  eval (run_iterations w n) m0 = Ok tt /\
  last_of (led_commands (trace m'))
  = Some (negb (last_spot_state_taken m')).
Proof.
  cbn zeta. unfold exec, eval.
  pose proof (initialize_state_full w m) as (I1 & I2 & I3 & _).
  cbn zeta in *. split; [exact I1|].
  apply run_iterations_led_follows_state.
  unfold led_follows_state. rewrite I3, I2. apply last_of_snoc.
Qed.

Lemma run_iteration_led_lit w m :
  (forall k, led_raises_at w k = false) ->
  led_lit m = negb (last_spot_state_taken m) ->
  led_lit (snd (run_iteration w m))
  = negb (last_spot_state_taken (snd (run_iteration w m))).
Proof.
  intros Hw H.
  pose proof (run_iteration_spec w m) as (_ & R2 & _ & _ & _ & R6 & _).
  cbn zeta in *. rewrite R6, R2, Hw.
  destruct (negb (Bool.eqb _ _)) eqn:C; [reflexivity|].
  apply negb_false_iff, eqb_prop in C. rewrite C. exact H.
Qed.

Lemma run_iterations_led_lit w n :
  (forall k, led_raises_at w k = false) ->
  forall m, led_lit m = negb (last_spot_state_taken m) ->
            led_lit (snd (run_iterations w n m))
            = negb (last_spot_state_taken (snd (run_iterations w n m))).
Proof.
  intros Hw. induction n as [|n IH]; intros m H0; [exact H0|].
  simpl run_iterations. unfold bind.
  pose proof (run_iteration_led_lit w m Hw H0) as H1.
  pose proof (run_iteration_spec w m) as (R1 & _). cbn zeta in R1.
  destruct (run_iteration w m) as [r1 m1]. cbn [fst snd] in *. subst r1.
  apply IH. exact H1.
Qed.

(** X5.  When the LED driver does not raise, the LED itself is the inverse
    of the stored occupancy after [initialize_state] and after every round
    of the main loop that follows. *)
Theorem run_keeps_led_inverse_of_state (w : World) (m : Monitor) (n : nat) :
  (forall k, led_raises_at w k = false) ->
  let m' := exec (run_iterations w n) (exec (initialize_state w) m) in
  led_lit m' = negb (last_spot_state_taken m').
Proof.
  intros Hw. cbn zeta. unfold exec.
  apply (run_iterations_led_lit w n Hw).
  pose proof (initialize_state_full w m) as (_ & I2 & _ & I4 & _).
  cbn zeta in *. rewrite Hw in I4. rewrite I4, I2. reflexivity.
Qed.

(** X5 without network, after four rounds in front of a car. *)
Lemma run_keeps_led_inverse_of_state_witness :
  let m' := exec (run_iterations offline_world 4)
                 (exec (initialize_state offline_world) (init true)) in
  led_lit m' = negb (last_spot_state_taken m').
Proof.
  apply (run_keeps_led_inverse_of_state offline_world (init true) 4).
  intros k. reflexivity.
Defined.

Lemma alternating_snoc (l : list string) :
  forall a b, alternating (l ++ [a]) -> a <> b ->
              alternating ((l ++ [a]) ++ [b]).
Proof.
  induction l as [|x l IH]; intros a b H Hab.
  - simpl. auto.
  - destruct l as [|y l].
    + simpl in *. tauto.
    + change (x <> y /\ alternating ((y :: l) ++ [a])) in H.
      change (x <> y /\ alternating (((y :: l) ++ [a]) ++ [b])).
      destruct H as (H1 & H2). split; [exact H1|]. apply IH; assumption.
Qed.

Lemma last_of_cases {A} (l : list A) :
  match last_of l with
  | Some a => exists l0, l = l0 ++ [a]
  | None => l = []
  end.
Proof.
  unfold last_of. destruct (rev l) as [|a r] eqn:E.
  - apply (f_equal (@rev A)) in E. rewrite rev_involutive in E. exact E.
  - exists (rev r). apply (f_equal (@rev A)) in E.
    rewrite rev_involutive in E. exact E.
Qed.

Lemma event_urls_differ (b : bool) :
  event_url (event_of b) <> event_url (event_of (negb b)).
Proof. destruct b; intro H; vm_compute in H; discriminate H. Qed.

Lemma run_iteration_posts_follow_state w m :
  posts_follow_state m -> posts_follow_state (snd (run_iteration w m)).
Proof.
  unfold posts_follow_state. intros (H1 & H2).
  pose proof (run_iteration_spec w m) as (_ & R2 & R3 & _).
  cbn zeta in *. rewrite R3, R2. clear R2 R3.
  destruct (negb (Bool.eqb _ _)) eqn:C.
  - apply negb_true_iff in C.
    match type of C with Bool.eqb ?x _ = false => set (new := x) in * end.
    assert (Hn : last_spot_state_taken m = negb new).
    { destruct new, (last_spot_state_taken m); simpl in C;
        try discriminate; reflexivity. }
    rewrite last_of_snoc. split; [|reflexivity].
    pose proof (last_of_cases (posts (trace m))) as Hc.
    destruct (last_of (posts (trace m))) as [u|].
    + destruct Hc as (l0 & Hl). rewrite Hl in *.
      apply alternating_snoc; [exact H1|].
      rewrite H2, Hn. intro E. symmetry in E.
      exact (event_urls_differ new E).
    + rewrite Hc. simpl. exact I.
  - apply negb_false_iff, eqb_prop in C. rewrite app_nil_r, C.
    split; assumption.
Qed.

Lemma run_iterations_posts_follow_state w n :
  forall m, posts_follow_state m ->
            posts_follow_state (snd (run_iterations w n m)).
Proof.
  induction n as [|n IH]; intros m J; [exact J|].
  simpl run_iterations. unfold bind.
  pose proof (run_iteration_posts_follow_state w m J) as J1.
  pose proof (run_iteration_spec w m) as (R1 & _). cbn zeta in R1.
  destruct (run_iteration w m) as [r1 m1]. cbn [fst snd] in *. subst r1.
  apply IH. exact J1.
Qed.

(** X6.  Starting with nothing posted, [initialize_state] followed by any
    number of rounds of the main loop posts events that alternate: the
    endpoint never gets two arrivals or two departures in a row.  The last
    event posted is the one of the stored occupancy, and if nothing was
    posted the spot is stored as empty. *)
Theorem run_posts_alternate (w : World) (m : Monitor) (n : nat) :
  posts (trace m) = [] ->
  let m' := exec (run_iterations w n) (exec (initialize_state w) m) in
  alternating (posts (trace m')) /\
  match last_of (posts (trace m')) with
  | Some url => url = event_url (event_of (last_spot_state_taken m'))
  | None => last_spot_state_taken m' = false
  end.
Proof.
  intros H0. cbn zeta. unfold exec.
  apply (run_iterations_posts_follow_state w n).
  pose proof (initialize_state_full w m) as (_ & I2 & _ & _ & _ & I6).
  cbn zeta in *. rewrite H0 in I6.
  unfold posts_follow_state. rewrite I6, I2.
  destruct (first_valid _); simpl; auto.
Qed.

(** X6 from a fresh monitor, without network, after four rounds. *)
Lemma run_posts_alternate_witness :
  let m' := exec (run_iterations offline_world 4)
                 (exec (initialize_state offline_world) (init true)) in
  alternating (posts (trace m')) /\
  last_of (posts (trace m'))
  = Some "https://dpo.been-jammin.ch/api/parking/arrival"%string.
Proof.
  destruct (run_posts_alternate offline_world (init true) 4 eq_refl)
    as (H1 & _).
  split; [exact H1|reflexivity].
Defined.

(** X7.  [cleanup] never raises, also when the LED driver does.  It
    commands the LED off, which leaves the LED off unless the driver
    raised; it posts nothing and leaves the stored state alone. *)
Theorem cleanup_switches_led_off (w : World) (m : Monitor) :
  let r := cleanup w m in
  fst r = Ok tt /\
  led_commands (trace (snd r)) = led_commands (trace m) ++ [false] /\
  led_lit (snd r) = (if led_raises_at w (led_calls m) then led_lit m else false)
  /\ posts (trace (snd r)) = posts (trace m) /\
  post_calls (snd r) = post_calls m /\
  sonar_calls (snd r) = sonar_calls m /\
  last_spot_state_taken (snd r) = last_spot_state_taken m.
Proof.
  cbn zeta. unfold cleanup. run.
  destruct (led_raises_at w (led_calls m)); simpl; traces;
    repeat split; reflexivity.
Qed.

End ParkingLightProofs.

(** ** The liquid-level meter *)

Module TeaMeterProofs.
Import TeaMeter.

Lemma string_app_assoc (a b c : string) :
  ((a ++ b) ++ c = a ++ (b ++ c))%string.
Proof. induction a as [|ch a IH]; simpl; [|rewrite IH]; reflexivity. Qed.

Lemma sleeps_app t1 t2 : sleeps (t1 ++ t2) = sleeps t1 ++ sleeps t2.
Proof.
  induction t1 as [|e t1 IH]; simpl; [reflexivity|].
  destruct e; simpl; rewrite IH; reflexivity.
Qed.

(** Python's left-to-right sum is the sum. *)
Lemma fold_left_Qplus (xs : list Q) :
  forall a, (fold_left Qplus xs a == a + fold_right Qplus 0 xs)%Q.
Proof.
  induction xs as [|x xs IH]; intros a; simpl.
  - rewrite Qplus_0_r. reflexivity.
  - rewrite IH. rewrite Qplus_assoc. reflexivity.
Qed.

Lemma py_sum_mean (x : Q) (xs : list Q) :
  py_div_len (py_sum (x :: xs)) (List.length (x :: xs))
  = Ok (py_sum (x :: xs) / inject_Z (Z.of_nat (List.length (x :: xs))))%Q
  /\ (py_sum (x :: xs) / inject_Z (Z.of_nat (List.length (x :: xs)))
      == mean (x :: xs))%Q.
Proof.
  split; [reflexivity|].
  unfold mean, py_sum. rewrite fold_left_Qplus, Qplus_0_l. reflexivity.
Qed.

Ltac step :=
  unfold read_environmental_data, get_distance_reading, calculate_fill_level,
    os_makedirs, open_w, f_write in *;
  unfold sonar_get_distance, dht_sensor_read, button_read, time_monotonic,
    time_strftime, disk_call in *;
  unfold call, logger, time_sleep, emit, update, attr, lift, when,
    try_except, raise, bind, ret, modify, gets, get in *.

Lemma get_distance_reading_spec w m :
  let r := get_distance_reading w m in
  fst r = Ok (match sonar_at w (calls m Sonar) with
              | Distance d => if Qlt_bool 0 d then Some d else None
              | SonarRaises => None
              end) /\
  sonar_only 1 m (snd r).
Proof.
  cbn zeta. step. destruct (sonar_at w (calls m Sonar)) as [d|]; simpl.
  - split; [reflexivity|]. constructor; simpl; try reflexivity.
    intros []; simpl; unfold bump; simpl; lia.
  - split; [reflexivity|]. constructor; simpl; try reflexivity.
    + rewrite sleeps_app, app_nil_r. reflexivity.
    + intros []; simpl; unfold bump; simpl; lia.
Qed.

Lemma sonar_only_trans a b m1 m2 m3 :
  sonar_only a m1 m2 -> sonar_only b m2 m3 -> sonar_only (a + b) m1 m3.
Proof.
  intros [s1 f1 t1 c1] [s2 f2 t2 c2]. constructor; try congruence.
  intros d. rewrite c2, c1. destruct (device_eqb Sonar d); lia.
Qed.

Lemma calibration_loop_spec w remaining :
  forall i distances m,
    let r := calibration_loop w i remaining distances m in
    fst r = Ok (distances ++
                positive_samples (sonar_outcomes w (calls m Sonar) remaining))
    /\ sonar_only remaining m (snd r).
Proof.
  induction remaining as [|k IH]; intros i distances m; cbn zeta.
  - simpl. unfold ret. simpl. rewrite app_nil_r. split; [reflexivity|].
    constructor; try reflexivity. intros d.
    destruct (device_eqb Sonar d); lia.
  - remember (calibration_loop w i (S k) distances m) as res eqn:E.
    simpl calibration_loop in E. unfold bind at 1 in E.
    pose proof (get_distance_reading_spec w m) as (G1 & G2). cbn zeta in *.
    destruct (get_distance_reading w m) as [r1 m1]. cbn [fst snd] in *.
    subst r1.
    assert (Hc : calls m1 Sonar = S (calls m Sonar)).
    { rewrite (so_calls _ _ _ G2). simpl. lia. }
    unfold sonar_outcomes. simpl seq. simpl map.
    unfold positive_samples. simpl samples.
    destruct (sonar_at w (calls m Sonar)) as [d|];
      [destruct (Qlt_bool 0 d)|].
    + unfold logger, bind, ret in E. cbn beta iota in E.
      specialize (IH (S i) (distances ++ [d]) m1). cbn zeta in IH.
      destruct IH as (I1 & I2). rewrite Hc in I1. rewrite <- E in I1, I2.
      split.
      * rewrite I1. unfold sonar_outcomes, positive_samples.
        rewrite <- app_assoc. reflexivity.
      * change (S k) with (1 + k). eapply sonar_only_trans; eassumption.
    + unfold logger, emit, modify, bind in E. cbn beta iota in E.
      match type of E with
      | context [calibration_loop w (S i) k distances ?m2] =>
          specialize (IH (S i) distances m2); set (m0 := m2) in *
      end.
      cbn zeta in IH. destruct IH as (I1 & I2). rewrite <- E in I1, I2.
      change (calls m0 Sonar) with (calls m1 Sonar) in I1. rewrite Hc in I1.
      split; [exact I1|].
      change (S k) with (1 + k). eapply sonar_only_trans; [exact G2|].
      destruct I2 as [s2 f2 t2 c2]. constructor; try assumption.
      rewrite t2. subst m0. simpl. rewrite sleeps_app, app_nil_r. reflexivity.
    + unfold logger, emit, modify, bind in E. cbn beta iota in E.
      match type of E with
      | context [calibration_loop w (S i) k distances ?m2] =>
          specialize (IH (S i) distances m2); set (m0 := m2) in *
      end.
      cbn zeta in IH. destruct IH as (I1 & I2). rewrite <- E in I1, I2.
      change (calls m0 Sonar) with (calls m1 Sonar) in I1. rewrite Hc in I1.
      split; [exact I1|].
      change (S k) with (1 + k). eapply sonar_only_trans; [exact G2|].
      destruct I2 as [s2 f2 t2 c2]. constructor; try assumption.
      rewrite t2. subst m0. simpl. rewrite sleeps_app, app_nil_r. reflexivity.
Qed.

Lemma calibrate_empty_cup_spec w m :
  let valid :=
    positive_samples (sonar_outcomes w (calls m Sonar) CALIBRATION_READS) in
  let reference :=
    match valid with
    | [] => DEFAULT_DISTANCE_TO_EMPTY_CUP_BOTTOM_CM
    | _ => (py_sum valid / inject_Z (Z.of_nat (List.length valid)))%Q
    end in
  let r := calibrate_empty_cup w m in
  fst r = Ok (match valid with [] => false | _ => true end) /\
  self (snd r) = set_calibrated_empty_cup_distance reference (self m) /\
  fs (snd r) = fs m /\
  sleeps (trace (snd r)) = sleeps (trace m) /\
  (forall d, calls (snd r) d
             = calls m d + (if device_eqb Sonar d then CALIBRATION_READS else 0)).
Proof.
  cbn zeta.
  remember (calibrate_empty_cup w m) as res eqn:E.
  unfold calibrate_empty_cup, logger, emit, modify, bind in E.
  cbn beta iota in E.
  match type of E with
  | context [calibration_loop w 0 CALIBRATION_READS [] ?m1] =>
      pose proof (calibration_loop_spec w CALIBRATION_READS 0 [] m1)
        as (L1 & L2); set (m0 := m1) in *
  end.
  cbn zeta in L1, L2. change (calls m0 Sonar) with (calls m Sonar) in L1.
  destruct (calibration_loop w 0 CALIBRATION_READS [] m0) as [r1 m1].
  cbn [fst snd] in L1, L2. subst r1. cbn [app] in E.
  destruct L2 as [s2 f2 t2 c2].
  destruct (positive_samples _) as [|x xs] eqn:Hv.
  - unfold update, modify, ret in E. cbn beta iota in E. subst res.
    cbn [fst snd self fs trace calls set_self set_trace].
    rewrite s2, f2, sleeps_app, t2. subst m0. simpl.
    rewrite sleeps_app, !app_nil_r. repeat split. exact c2.
  - unfold lift in E. destruct (py_sum_mean x xs) as (D & _).
    rewrite D in E.
    unfold update, modify, ret in E. cbn beta iota in E. subst res.
    cbn [fst snd self fs trace calls set_self set_trace].
    rewrite s2, f2, sleeps_app, t2. subst m0. simpl.
    rewrite sleeps_app, !app_nil_r. repeat split. exact c2.
Qed.

(** C1 (amended: valid means strictly positive). [calibrate_empty_cup]
    reads the sonar exactly [CALIBRATION_READS] times, never raises, and
    leaves as reference the arithmetic mean of the valid samples when there
    is at least one and [DEFAULT_DISTANCE_TO_EMPTY_CUP_BOTTOM_CM]
    otherwise, where a sample is valid when the read raised no error and
    its value is strictly greater than zero.  It returns [True] in the
    first case and [False] in the second. *)
Theorem calibrate_empty_cup_mean_of_positive (w : World) (m : Machine) :
  let r := calibrate_empty_cup w m in
  let valid :=
    positive_samples (sonar_outcomes w (calls m Sonar) CALIBRATION_READS) in
  fst r = Ok (match valid with [] => false | _ => true end) /\
  calls (snd r) Sonar = calls m Sonar + CALIBRATION_READS /\
  reference_is_mean_of positive_samples w m (snd r).
Proof.
  cbn zeta.
  pose proof (calibrate_empty_cup_spec w m) as (R1 & R2 & _ & _ & R5).
  cbn zeta in *. split; [exact R1|]. split; [apply (R5 Sonar)|].
  unfold reference_is_mean_of. rewrite R2.
  destruct (positive_samples _) as [|x xs]; [reflexivity|].
  simpl calibrated_empty_cup_distance. apply py_sum_mean.
Qed.

(** The example of the specification: readings 12.0, -1, 14.0, error, 13.0
    give the reference 13.0. *)
Example calibrate_empty_cup_example :
  let w := sonar_world [Distance 12; Distance (-1); Distance 14; SonarRaises;
                        Distance 13] in
  let m' := exec (calibrate_empty_cup w) (init empty_disk) in
  eval (calibrate_empty_cup w) (init empty_disk) = Ok true /\
  (calibrated_empty_cup_distance (self m') == 13)%Q.
Proof. split; reflexivity. Qed.

(** C1 as stated fails: with valid read as non-negative, the readings
    12.0, 0.0, 14.0, error, 13.0 have the four valid samples 12, 0, 14, 13
    of mean 9.75, but the reference is 13: the reading 0.0 is dropped. *)
Lemma calibrate_empty_cup_drops_zero_reading :
  let w := sonar_world [Distance 12; Distance 0; Distance 14; SonarRaises;
                        Distance 13] in
  let m' := exec (calibrate_empty_cup w) (init empty_disk) in
  nonnegative_samples (sonar_outcomes w 0 CALIBRATION_READS)
    = [12; 0; 14; 13]%Q /\
  (calibrated_empty_cup_distance (self m') == 13)%Q /\
  ~ reference_is_mean_of nonnegative_samples w (init empty_disk) m'.
Proof.
  cbn zeta. split; [reflexivity|]. split; [reflexivity|].
  intro H. vm_compute in H. discriminate H.
Qed.

Lemma string_app_nil_r (a : string) : (a ++ "")%string = a.
Proof. induction a as [|ch a IH]; simpl; [|rewrite IH]; reflexivity. Qed.

(** The first characters of a text are a beginning of it. *)
Lemma substring_prefix (n : nat) :
  forall s, exists rest, s = (substring 0 n s ++ rest)%string.
Proof.
  induction n as [|n IH]; intros s.
  - exists s. destruct s; reflexivity.
  - destruct s as [|c s].
    + exists ""%string. reflexivity.
    + destruct (IH s) as (rest & H). exists rest. simpl. rewrite <- H.
      reflexivity.
Qed.

Lemma prefix_of_prefix (p q s rest1 rest2 : string) :
  q = (p ++ rest1)%string -> s = (q ++ rest2)%string ->
  s = (p ++ (rest1 ++ rest2))%string.
Proof. intros -> ->. apply string_app_assoc. Qed.

Lemma first_fault_app w a :
  forall from b,
    first_fault w from (a + b)
    = match first_fault w from a with
      | Some e => Some e
      | None => first_fault w (from + a) b
      end.
Proof.
  induction a as [|a IH]; intros from b.
  - simpl. rewrite Nat.add_0_r. reflexivity.
  - simpl. destruct (disk_fault_at w from); [reflexivity|].
    rewrite IH. replace (S from + a) with (from + S a) by lia. reflexivity.
Qed.

Lemma joined_app (a b : list Row) :
  joined (a ++ b) = (joined a ++ joined b)%string.
Proof.
  unfold joined. induction a as [|r a IH]; simpl; [reflexivity|].
  rewrite IH, string_app_assoc. reflexivity.
Qed.

(** One [f.write]. *)
Lemma f_write_step w f s m :
  f_write w f s m =
  let m1 := set_calls (bump Disk (calls m)) m in
  match disk_fault_at w (calls m Disk) with
  | Some e =>
      (Raise e,
       set_fs {| data_dir_exists := data_dir_exists (fs m);
                 csv_file :=
                   Some (substring 0 (flushed_at w (calls m Disk))
                                   (f ++ s)%string) |} m1)
  | None => (Ok (f ++ s)%string, m1)
  end.
Proof.
  unfold f_write, spill, call, bind, modify, raise, ret. cbn zeta.
  destruct (disk_fault_at w (calls m Disk)); reflexivity.
Qed.

(** Writing the rows to the handle: all of them when no call faults;
    otherwise the file holds a beginning of what was written.  Nothing but
    the file and the disk counter changes. *)
Lemma write_rows_spec w rows :
  forall m f,
    let r := write_rows w f rows m in
    self (snd r) = self m /\ trace (snd r) = trace m /\
    data_dir_exists (fs (snd r)) = data_dir_exists (fs m) /\
    (forall d, d <> Disk -> calls (snd r) d = calls m d) /\
    match first_fault w (calls m Disk) (List.length rows) with
    | None =>
        fst r = Ok (f ++ joined rows)%string /\
        fs (snd r) = fs m /\
        calls (snd r) Disk = calls m Disk + List.length rows
    | Some _ =>
        (exists e, fst r = Raise e) /\
        exists written rest,
          csv_file (fs (snd r)) = Some written /\
          (f ++ joined rows)%string = (written ++ rest)%string
    end.
Proof.
  induction rows as [|row rows IH]; intros m f; cbn zeta.
  - simpl. unfold joined, ret. simpl. rewrite string_app_nil_r.
    repeat split; auto.
  - remember (write_rows w f (row :: rows) m) as res eqn:E.
    simpl write_rows in E. unfold bind in E.
    rewrite (f_write_step w f _ m) in E. cbn zeta in E.
    simpl first_fault. simpl List.length.
    destruct (disk_fault_at w (calls m Disk)) as [e|].
    + subst res. cbn [fst snd self trace fs calls set_calls set_fs
                      data_dir_exists csv_file].
      refine (conj eq_refl (conj eq_refl (conj eq_refl (conj _ (conj _ _))))).
      { intros d Hd. unfold bump. destruct d; simpl; congruence. }
      { eexists; reflexivity. }
      destruct (substring_prefix (flushed_at w (calls m Disk))
                  (f ++ csv_line row)%string) as (rest & Hr).
      eexists; exists (rest ++ joined rows)%string.
      split; [reflexivity|].
      unfold joined. simpl. fold (joined rows).
      rewrite <- string_app_assoc. rewrite Hr at 1.
      apply string_app_assoc.
    + match type of E with
      | context [write_rows w ?f1 rows ?m2] =>
          specialize (IH m2 f1); set (m0 := m2) in *
      end.
      cbn zeta in IH. rewrite <- E in IH.
      destruct IH as (I1 & I2 & I3 & I4 & I5).
      change (calls m0 Disk) with (S (calls m Disk)) in I5.
      split; [exact I1|]. split; [exact I2|]. split; [exact I3|].
      split.
      { intros d Hd. rewrite (I4 d Hd). subst m0. simpl. unfold bump.
        destruct d; simpl; try reflexivity. congruence. }
      unfold joined in *. simpl. fold (joined rows) in *.
      rewrite <- string_app_assoc.
      destruct (first_fault w (S (calls m Disk)) (List.length rows)) as [e|].
      * exact I5.
      * destruct I5 as (I5 & I6 & I7).
        split; [exact I5|]. split; [exact I6|]. rewrite I7. lia.
Qed.

(** The [with] block of [save_session_data], entered with the directory
    in place: it makes [3 + len(data)] disk calls, the open, the header,
    one write per row and the close. *)
Lemma with_open_w_spec w data m :
  data_dir_exists (fs m) = true ->
  let r := with_open_w w
             (fun f => bind (f_write w f (csv_header ++ "
")%string) (fun f0 => write_rows w f0 data)) m in
  self (snd r) = self m /\ trace (snd r) = trace m /\
  data_dir_exists (fs (snd r)) = true /\
  (forall d, d <> Disk -> calls (snd r) d = calls m d) /\
  match first_fault w (calls m Disk) (3 + List.length data) with
  | None =>
      fst r = Ok tt /\ csv_file (fs (snd r)) = Some (csv_content data)
  | Some _ =>
      (exists e, fst r = Raise e) /\
      (csv_file (fs (snd r)) = csv_file (fs m) \/
       exists written rest,
         csv_file (fs (snd r)) = Some written /\
         csv_content data = (written ++ rest)%string)
  end.
Proof.
  intros Hdir. cbn zeta.
  match goal with |- context [with_open_w w ?b m] => set (body := b) end.
  remember (with_open_w w body m) as res eqn:E.
  unfold with_open_w, open_w, disk_call, call in E.
  unfold bind at 1 2 3 4 in E. cbn beta iota in E.
  replace (3 + List.length data) with (S (S (List.length data + 1))) by lia.
  cbn [first_fault].
  assert (Hbump : forall c d, d <> Disk -> bump Disk c d = c d).
  { intros c d Hd. unfold bump. destruct d; simpl; congruence. }
  destruct (disk_fault_at w (calls m Disk)) as [e0|].
  { unfold raise in E. cbn beta iota in E. subst res.
    cbn [fst snd self trace fs calls set_calls].
    refine (conj eq_refl (conj eq_refl (conj Hdir (conj _ (conj _ _))))).
    - intros d Hd. apply Hbump. exact Hd.
    - eexists; reflexivity.
    - left; reflexivity. }
  unfold ret, gets in E. cbn beta iota in E.
  cbn [fs set_calls data_dir_exists] in E. rewrite Hdir in E.
  unfold modify, bind at 1 in E. cbn beta iota in E.
  unfold bind at 1, try_except in E.
  set (m1 := set_fs _ (set_calls _ m)) in E.
  assert (S1 : self m1 = self m) by reflexivity.
  assert (T1 : trace m1 = trace m) by reflexivity.
  assert (C1 : calls m1 Disk = S (calls m Disk)) by reflexivity.
  assert (O1 : forall d, d <> Disk -> calls m1 d = calls m d).
  { intros d Hd. subst m1. cbn [calls set_fs set_calls]. apply Hbump, Hd. }
  assert (D1 : data_dir_exists (fs m1) = true) by reflexivity.
  clearbody m1.
  subst body. cbn beta in E. unfold bind at 1 in E.
  rewrite (f_write_step w ""%string _ m1) in E. cbn zeta in E.
  rewrite C1 in *.
  assert (Hclose : forall (e : exn) (m2 : Machine),
             exists e', (bind (disk_call w) (fun _ => @raise Machine string e)) m2
                        = (Raise e', set_calls (bump Disk (calls m2)) m2)).
  { intros e m2. unfold disk_call, call, bind, raise.
    destruct (disk_fault_at w (calls m2 Disk)) as [e2|]; eexists; reflexivity. }
  unfold disk_call, call, ret in Hclose.
  destruct (disk_fault_at w (S (calls m Disk))) as [e1|].
  { destruct (Hclose e1 (set_fs
        {| data_dir_exists := data_dir_exists (fs m1);
           csv_file := Some (substring 0 (flushed_at w (S (calls m Disk)))
                               ("" ++ (csv_header ++ "
"))%string) |} (set_calls (bump Disk (calls m1)) m1))) as (e' & He').
    rewrite He' in E. subst res.
    cbn [fst snd self trace fs calls set_calls set_fs data_dir_exists
         csv_file].
    refine (conj S1 (conj T1 (conj D1 (conj _ (conj _ _))))).
    - intros d Hd. rewrite !Hbump by exact Hd. apply O1, Hd.
    - eexists; reflexivity.
    - right.
      destruct (substring_prefix (flushed_at w (S (calls m Disk)))
                  ("" ++ (csv_header ++ "
"))%string) as (rest & Hr).
      eexists; exists (rest ++ joined data)%string.
      split; [reflexivity|].
      unfold csv_content.
      change (csv_header ++ "
" ++ joined data)%string with (("" ++ (csv_header ++ "
")) ++ joined data)%string.
      rewrite Hr at 1. apply string_app_assoc. }
  set (m2 := set_calls (bump Disk (calls m1)) m1) in E.
  pose proof (write_rows_spec w data m2 ("" ++ (csv_header ++ "
"))%string) as (W1 & W2 & W3 & W4 & W5).
  cbn zeta in W1, W2, W3, W4, W5.
  assert (C2 : calls m2 Disk = S (S (calls m Disk))).
  { subst m2. cbn [calls set_calls]. unfold bump. simpl. rewrite C1.
    reflexivity. }
  rewrite C2 in W5.
  rewrite first_fault_app. cbn [first_fault].
  destruct (write_rows w _ data m2) as [r3 m3]. cbn [fst snd] in *.
  assert (S3 : self m3 = self m) by (rewrite W1; exact S1).
  assert (T3 : trace m3 = trace m) by (rewrite W2; exact T1).
  assert (D3 : data_dir_exists (fs m3) = true) by (rewrite W3; exact D1).
  assert (O3 : forall d, d <> Disk -> calls m3 d = calls m d).
  { intros d Hd. rewrite (W4 d Hd). subst m2. cbn [calls set_calls].
    rewrite Hbump by exact Hd. apply O1, Hd. }
  destruct (first_fault w (S (S (calls m Disk))) (List.length data)) as [e2|].
  { destruct W5 as ((e & W5) & written & rest & W6 & W7). subst r3.
    destruct (Hclose e m3) as (e' & He'). rewrite He' in E. subst res.
    cbn [fst snd self trace fs calls set_calls].
    refine (conj S3 (conj T3 (conj D3 (conj _ (conj _ _))))).
    - intros d Hd. rewrite Hbump by exact Hd. apply O3, Hd.
    - eexists; reflexivity.
    - right. exists written, rest. split; [exact W6|]. exact W7. }
  destruct W5 as (W5 & W6 & W7). subst r3.
  unfold f_close, call, spill, bind, modify, raise in E. cbn beta iota in E.
  rewrite W7 in E.
  destruct (disk_fault_at w (S (S (calls m Disk)) + List.length data))
    as [e3|].
  - subst res.
    cbn [fst snd self trace fs calls set_calls set_fs data_dir_exists
         csv_file].
    refine (conj S3 (conj T3 (conj D3 (conj _ (conj _ _))))).
    + intros d Hd. rewrite Hbump by exact Hd. apply O3, Hd.
    + eexists; reflexivity.
    + right.
      destruct (substring_prefix
                  (flushed_at w (S (S (calls m Disk)) + List.length data))
                  (("" ++ (csv_header ++ "
")) ++ joined data)%string) as (rest & Hr).
      eexists; exists rest. split; [reflexivity|]. exact Hr.
  - subst res.
    cbn [fst snd self trace fs calls set_calls set_fs data_dir_exists
         csv_file].
    refine (conj S3 (conj T3 (conj D3 (conj _ (conj eq_refl eq_refl))))).
    intros d Hd. rewrite Hbump by exact Hd. apply O3, Hd.
Qed.

(** [save_session_data] on a non-empty buffer makes [4 + len(data)] disk
    calls: [makedirs], [open], the header, one write per row, the close. *)
Lemma save_session_data_nonempty w m row rows :
  measurement_data (self m) = row :: rows ->
  let data := row :: rows in
  let r := save_session_data w m in
  fst r = Ok tt /\
  self (snd r) = set_measurement_data [] (self m) /\
  (forall d, d <> Disk -> calls (snd r) d = calls m d) /\
  match first_fault w (calls m Disk) (4 + List.length data) with
  | None =>
      trace (snd r) = trace m ++ save_log data None /\
      data_dir_exists (fs (snd r)) = true /\
      csv_file (fs (snd r)) = Some (csv_content data)
  | Some _ =>
      (exists e, trace (snd r) = trace m ++ save_log data (Some e)) /\
      (csv_file (fs (snd r)) = csv_file (fs m) \/
       exists written rest,
         csv_file (fs (snd r)) = Some written /\
         csv_content data = (written ++ rest)%string)
  end.
Proof.
  intros Hd. cbn zeta.
  remember (save_session_data w m) as res eqn:E.
  unfold save_session_data in E. unfold attr, gets in E. unfold bind at 1 in E.
  cbn beta iota in E. rewrite Hd in E.
  unfold logger, emit, modify in E. unfold bind at 1 in E. cbn beta iota in E.
  unfold bind at 1 in E. cbn beta iota in E.
  set (m2 := set_trace _ (set_trace _ m)) in E.
  assert (T2 : trace m2 = trace m ++ [Log INFO SessionDataSummary;
                 Log INFO (TotalMeasurements (List.length (row :: rows)))]).
  { subst m2. simpl. rewrite <- app_assoc. reflexivity. }
  assert (F2 : self m2 = self m) by reflexivity.
  assert (C2 : calls m2 = calls m) by reflexivity.
  assert (D2 : fs m2 = fs m) by reflexivity.
  clearbody m2.
  change (4 + List.length (row :: rows))
    with (S (3 + List.length (row :: rows))).
  cbn [first_fault].
  assert (Hbump : forall c d, d <> Disk -> bump Disk c d = c d).
  { intros c d Hne. unfold bump. destruct d; simpl; congruence. }
  unfold bind at 1, try_except in E.
  unfold bind at 1, os_makedirs, bind at 1, disk_call, bind at 1, call in E.
  cbn beta iota in E. rewrite C2 in E.
  destruct (disk_fault_at w (calls m Disk)) as [e0|].
  { unfold raise, update, modify in E. cbn beta iota in E.
    assert (G : fst res = Ok tt /\
                self (snd res) = set_measurement_data [] (self m) /\
                calls (snd res) = bump Disk (calls m) /\
                trace (snd res) = trace m ++ save_log (row :: rows) (Some e0) /\
                fs (snd res) = fs m).
    { unfold save_log.
      destruct e0; cbn beta iota in E; unfold emit, modify in E; subst res;
        cbn [fst snd self calls fs trace set_self set_trace set_calls];
        rewrite T2, F2, ?D2, ?C2, <- app_assoc;
        refine (conj eq_refl (conj eq_refl (conj eq_refl
                  (conj eq_refl eq_refl)))). }
    destruct G as (G1 & G2 & G3 & G4 & G5).
    refine (conj G1 (conj G2 (conj _ (conj (ex_intro _ e0 G4) _)))).
    - intros d Hne. rewrite G3. apply Hbump, Hne.
    - left. rewrite G5. reflexivity. }
  unfold ret, modify in E. cbn beta iota in E.
  unfold bind at 1 in E.
  set (m3 := set_fs _ (set_calls _ m2)) in E.
  assert (Hdir : data_dir_exists (fs m3) = true) by reflexivity.
  pose proof (with_open_w_spec w (row :: rows) m3 Hdir)
    as (W1 & W2 & W3 & W4 & W5).
  cbn zeta in W1, W2, W3, W4, W5.
  assert (C3 : calls m3 Disk = S (calls m Disk)).
  { subst m3. cbn [calls set_fs set_calls]. rewrite ?C2. reflexivity. }
  rewrite C3 in W5.
  assert (F3 : csv_file (fs m3) = csv_file (fs m)).
  { subst m3. cbn [fs set_fs csv_file set_calls]. rewrite D2. reflexivity. }
  assert (O3 : forall d, d <> Disk -> calls m3 d = calls m d).
  { intros d Hne. subst m3. cbn [calls set_fs set_calls]. rewrite ?C2.
    apply Hbump, Hne. }
  change (self m3) with (self m2) in W1. change (trace m3) with (trace m2) in W2.
  clearbody m3.
  destruct (with_open_w w _ m3) as [r4 m4]. cbn [fst snd] in *.
  destruct (first_fault w (S (calls m Disk)) (3 + List.length (row :: rows)))
    as [e1|].
  { destruct W5 as ((e & W5) & W6). subst r4.
    unfold update, modify in E. cbn beta iota in E.
    assert (G : fst res = Ok tt /\
                self (snd res) = set_measurement_data [] (self m4) /\
                calls (snd res) = calls m4 /\
                trace (snd res)
                = trace m4 ++ match e with
                              | IOError => [Log ERROR CouldNotWrite]
                              | _ => [Log ERROR UnexpectedErrorSavingCSV]
                              end /\
                fs (snd res) = fs m4).
    { destruct e; cbn beta iota in E; unfold emit, modify in E; subst res;
        cbn [fst snd self calls fs trace set_self set_trace set_calls];
        refine (conj eq_refl (conj eq_refl (conj eq_refl
                  (conj eq_refl eq_refl)))). }
    destruct G as (G1 & G2 & G3 & G4 & G5).
    refine (conj G1 (conj _ (conj _ (conj (ex_intro _ e _) _)))).
    - rewrite G2, W1, F2. reflexivity.
    - intros d Hne. rewrite G3, (W4 d Hne). apply O3, Hne.
    - rewrite G4, W2, T2, <- app_assoc. unfold save_log.
      destruct e; reflexivity.
    - rewrite G5. rewrite F3 in W6. exact W6. }
  destruct W5 as (W5 & W6). subst r4. cbn beta iota in E.
  unfold bind at 1 in E. cbn beta iota in E.
  destruct (positive_fill_levels (row :: rows)) as [|x xs] eqn:Hp;
    cbn beta iota in E.
  - unfold ret, update, modify in E. cbn beta iota in E. subst res.
    cbn [fst snd self calls fs trace set_self set_trace].
    unfold save_log. rewrite Hp.
    rewrite W1, W2, T2, F2, <- !app_assoc, W3, W6.
    refine (conj eq_refl (conj eq_refl (conj _ (conj eq_refl
              (conj eq_refl eq_refl))))).
    intros d Hne. rewrite (W4 d Hne). apply O3, Hne.
  - unfold lift in E. cbn [py_max_list] in E. unfold bind at 1 in E.
    cbn beta iota in E. unfold bind at 1 in E.
    destruct (py_sum_mean x xs) as (D & _). rewrite D in E.
    cbn beta iota in E.
    unfold ret, update, modify in E. cbn beta iota in E. subst res.
    cbn [fst snd self calls fs trace set_self set_trace].
    unfold save_log. rewrite Hp.
    rewrite W1, W2, T2, F2, <- !app_assoc, W3, W6.
    refine (conj eq_refl (conj eq_refl (conj _ (conj eq_refl
              (conj eq_refl eq_refl))))).
    intros d Hne. rewrite (W4 d Hne). apply O3, Hne.
Qed.

Lemma logged_counts_app t1 t2 :
  logged_counts (t1 ++ t2) = logged_counts t1 ++ logged_counts t2.
Proof.
  induction t1 as [|e t1 IH]; simpl; [reflexivity|].
  destruct e as [l []|]; simpl; rewrite IH; reflexivity.
Qed.

Lemma logged_summaries_app t1 t2 :
  logged_summaries (t1 ++ t2) = logged_summaries t1 ++ logged_summaries t2.
Proof.
  induction t1 as [|e t1 IH]; simpl; [reflexivity|].
  destruct e as [l []|]; simpl; rewrite IH; reflexivity.
Qed.

Lemma save_session_data_empty w m :
  measurement_data (self m) = [] ->
  save_session_data w m
  = (Ok tt, set_trace (trace m ++ [Log INFO NoDataCollected]) m).
Proof.
  intros H. unfold save_session_data, attr, gets, bind. rewrite H. reflexivity.
Qed.

(** The comprehension of the summary is the filter of the specification. *)
Lemma positive_fill_levels_filter rows :
  positive_fill_levels rows = fill_levels_above_zero rows.
Proof.
  unfold fill_levels_above_zero.
  induction rows as [|row rows IH]; simpl; [reflexivity|].
  destruct (Qlt_bool 0 (row_3 row)); simpl; rewrite IH; reflexivity.
Qed.

Lemma py_max_cases a y :
  (py_max a y = a \/ py_max a y = y) /\ (a <= py_max a y)%Q
  /\ (y <= py_max a y)%Q.
Proof.
  unfold py_max. destruct (Qlt_bool a y) eqn:E.
  - apply Qlt_bool_iff in E. repeat split; auto.
    + apply Qlt_le_weak; exact E.
    + apply Qle_refl.
  - apply Qlt_bool_false_iff in E. repeat split; auto. apply Qle_refl.
Qed.

(** Python's [max] of a non-empty list is an element of the list that no
    element exceeds. *)
Lemma fold_left_py_max xs :
  forall a, let mx := fold_left py_max xs a in
            (mx = a \/ In mx xs) /\ (a <= mx)%Q
            /\ Forall (fun x => (x <= mx)%Q) xs.
Proof.
  induction xs as [|y ys IH]; intros a; cbn zeta; simpl.
  - repeat split; auto. apply Qle_refl.
  - specialize (IH (py_max a y)). cbn zeta in IH.
    destruct IH as (I1 & I2 & I3).
    destruct (py_max_cases a y) as (P1 & P2 & P3).
    split; [|split].
    + destruct I1 as [I1|I1]; [|auto].
      rewrite I1. destruct P1 as [P1|P1]; rewrite P1; auto.
    + eapply Qle_trans; eassumption.
    + constructor; [eapply Qle_trans; eassumption|exact I3].
Qed.

Lemma py_max_list_is_max x xs :
  is_max_of (x :: xs) (fold_left py_max xs x).
Proof.
  destruct (fold_left_py_max xs x) as (I1 & I2 & I3). split.
  - destruct I1 as [I1|I1]; [left; auto|right; exact I1].
  - constructor; assumption.
Qed.

(** C3 (amended).  [save_session_data] never raises.  On an empty buffer
    it makes no disk call and leaves the file system as it was.  On a
    non-empty buffer it logs the number of all records before it tries to
    write, whatever the write does.  When none of its disk calls faults
    ([makedirs], [open], the write of the header, one write per record,
    and the close of the file that ends the [with] block) the file holds
    the header and one row per record, and, if some record has a
    fill level strictly greater than zero, one summary is logged whose
    maximum and average are the greatest and the arithmetic mean of
    exactly those fill levels (none is logged if there is no such record).
    When a disk call faults no summary is logged. *)
Theorem save_session_data_summary (w : World) (m : Machine) :
  let data := measurement_data (self m) in
  let m' := exec (save_session_data w) m in
  let above_zero := fill_levels_above_zero data in
  eval (save_session_data w) m = Ok tt /\
  match data with
  | [] =>
      fs m' = fs m /\ calls m' Disk = calls m Disk /\
      logged_counts (trace m') = logged_counts (trace m) /\
      logged_summaries (trace m') = logged_summaries (trace m)
  | _ :: _ =>
      logged_counts (trace m')
        = logged_counts (trace m) ++ [List.length data] /\
      match first_fault w (calls m Disk) (4 + List.length data) with
      | None =>
          csv_file (fs m') = Some (csv_content data) /\
          match above_zero with
          | [] => logged_summaries (trace m') = logged_summaries (trace m)
          | _ :: _ =>
              exists max_fill avg_fill,
                logged_summaries (trace m')
                  = logged_summaries (trace m) ++ [(max_fill, avg_fill)] /\
                is_max_of above_zero max_fill /\
                (avg_fill == mean above_zero)%Q
          end
      | Some _ => logged_summaries (trace m') = logged_summaries (trace m)
      end
  end.
Proof.
  cbn zeta. unfold exec, eval.
  destruct (measurement_data (self m)) as [|row rows] eqn:Hd.
  - rewrite (save_session_data_empty w m Hd). cbn [fst snd fs calls set_trace trace].
    rewrite logged_counts_app, logged_summaries_app. simpl.
    rewrite !app_nil_r. auto.
  - pose proof (save_session_data_nonempty w m row rows Hd)
      as (R1 & _ & _ & R4).
    cbn zeta in R1, R4.
    split; [exact R1|].
    rewrite <- positive_fill_levels_filter.
    destruct (first_fault w (calls m Disk) (4 + List.length (row :: rows)))
      as [e0|].
    + destruct R4 as ((e & R4) & _). rewrite R4. unfold save_log.
      rewrite logged_counts_app, logged_summaries_app. split.
      * destruct e; simpl; rewrite ?app_nil_r; reflexivity.
      * destruct e; simpl; rewrite ?app_nil_r; reflexivity.
    + destruct R4 as (R4 & R5 & R6). rewrite R4. unfold save_log.
      rewrite logged_counts_app, logged_summaries_app.
      destruct (positive_fill_levels (row :: rows)) as [|x xs].
      * simpl. rewrite !app_nil_r. auto.
      * split; [reflexivity|]. split; [exact R6|].
        eexists; eexists. split; [reflexivity|].
        split; [apply py_max_list_is_max|apply py_sum_mean].
Qed.

(** The example of the specification, on a disk without faults: two data
    rows after the header, and a summary over the first record only. *)
Example save_session_data_example :
  let m' := exec (save_session_data (sonar_world []))
                 (sampling example_buffer empty_disk) in
  csv_file (fs m') = Some "Time,Temp,Hum,FillLevelCM
09:00:00,22.0,55.0,3.2
09:00:01,22.0,55.0,-999.0
"%string /\
  logged_counts (trace m') = [2] /\
  logged_summaries (trace m') = [(32 # 10, (32 # 10) / 1)%Q] /\
  measurement_data (self m') = [].
Proof. repeat split; reflexivity. Qed.

(** C3 as stated fails: the summary depends on the write, and the count
    is over all records.  With the example buffer, the maximum and average
    are logged when the disk works and are not logged when the disk raises
    [IOError] (here already in [os.makedirs]); the count logged is 2 in
    both runs although one record has a fill level above zero. *)
Lemma save_session_data_summary_depends_on_write :
  let m := sampling example_buffer empty_disk in
  let works := constant_world SonarRaises DhtRaises 1 None in
  let faults := constant_world SonarRaises DhtRaises 1 (Some IOError) in
  logged_summaries (trace (exec (save_session_data works) m))
    = [(32 # 10, (32 # 10) / 1)%Q] /\
  logged_summaries (trace (exec (save_session_data faults) m)) = [] /\
  logged_summaries (trace (exec (save_session_data works) m))
    <> logged_summaries (trace (exec (save_session_data faults) m)) /\
  logged_counts (trace (exec (save_session_data works) m)) = [2] /\
  logged_counts (trace (exec (save_session_data faults) m)) = [2] /\
  List.length (fill_levels_above_zero example_buffer) = 1.
Proof.
  cbn zeta. split; [reflexivity|]. split; [reflexivity|].
  split; [discriminate|]. repeat split; reflexivity.
Qed.

(** C6.  [save_session_data] always returns, and when it has returned the
    buffer is empty, whatever the disk did; the buffer of a fresh
    [TeaMeter] is empty too. *)
Theorem save_session_data_clears_buffer
    (w : World) (m : Machine) (disk : FileSystem) :
  eval (save_session_data w) m = Ok tt /\
  measurement_data (self (exec (save_session_data w) m)) = [] /\
  measurement_data (self (init disk)) = [].
Proof.
  unfold exec, eval.
  destruct (measurement_data (self m)) as [|row rows] eqn:Hd.
  - rewrite (save_session_data_empty w m Hd). simpl. auto.
  - pose proof (save_session_data_nonempty w m row rows Hd)
      as (R1 & R2 & _).
    cbn zeta in R1, R2. rewrite R1, R2. simpl. auto.
Qed.

(** A write fault loses the session but not the next one: the buffer is
    empty although nothing reached the disk. *)
Example save_session_data_fault_example :
  let faults := constant_world SonarRaises DhtRaises 1 (Some IOError) in
  let m' := exec (save_session_data faults)
                 (sampling example_buffer empty_disk) in
  measurement_data (self m') = [] /\ fs m' = empty_disk.
Proof. split; reflexivity. Qed.

(** C8.  For a non-empty buffer, when none of the disk calls faults
    ([makedirs], [open], the write of the header, one write per record,
    and the close of the file that ends the [with] block), the output
    directory exists afterwards and the file holds exactly the header row
    [Time,Temp,Hum,FillLevelCM] followed by one row per record in the
    order of the buffer, each row being the time string, the temperature,
    the humidity and the fill level, the three numbers printed with one
    decimal; this holds whatever the directory and the file were before,
    so earlier content is replaced.  When a disk call faults the file is
    either untouched or holds a beginning of that content, never the
    earlier content followed by new rows. *)
Theorem save_session_data_writes_csv (w : World) (m : Machine) :
  measurement_data (self m) <> [] ->
  let data := measurement_data (self m) in
  let m' := exec (save_session_data w) m in
  match first_fault w (calls m Disk) (4 + List.length data) with
  | None =>
      data_dir_exists (fs m') = true /\
      csv_file (fs m')
      = Some ("Time,Temp,Hum,FillLevelCM
" ++ fold_right String.append ""
       (map (fun row =>
               row_0 row ++ "," ++ format_1f (row_1 row) ++ ","
                 ++ format_1f (row_2 row) ++ "," ++ format_1f (row_3 row)
                 ++ "
") data))%string
  | Some _ =>
      csv_file (fs m') = csv_file (fs m) \/
      exists written rest,
        csv_file (fs m') = Some written /\
        csv_content data = (written ++ rest)%string
  end.
Proof.
  intros Hne. cbn zeta. unfold exec.
  destruct (measurement_data (self m)) as [|row rows] eqn:Hd; [congruence|].
  pose proof (save_session_data_nonempty w m row rows Hd)
    as (_ & _ & _ & R4).
  cbn zeta in R4.
  destruct (first_fault w (calls m Disk) (4 + List.length (row :: rows)));
    [exact (proj2 R4)|exact (proj2 R4)].
Qed.

(** C8 at the example buffer, on a disk that has no directory yet. *)
Lemma save_session_data_writes_csv_witness :
  let m := sampling example_buffer empty_disk in
  let m' := exec (save_session_data (sonar_world [])) m in
  data_dir_exists (fs m') = true /\
  csv_file (fs m') = Some "Time,Temp,Hum,FillLevelCM
09:00:00,22.0,55.0,3.2
09:00:01,22.0,55.0,-999.0
"%string.
Proof.
  apply (save_session_data_writes_csv (sonar_world [])
           (sampling example_buffer empty_disk)).
  simpl. discriminate.
Defined.

Ltac norm_in E :=
  cbn beta iota in E;
  cbn [calls set_calls bump device_eqb self set_self set_trace fs trace
       set_measurement_data set_temp_read_counter set_last_temp
       set_last_humidity measurement_data is_cup_present is_measuring
       calibrated_empty_cup_distance temp_read_counter last_temp
       last_humidity] in E.

(** One tick with the cup present, in terms of what the devices answer. *)
Lemma process_measurement_cycle_present w m :
  button_at w (calls m Button) <> 0%Z ->
  let fresh := (temp_read_counter (self m) mod TEMP_READ_INTERVAL =? 0) in
  let cache := (last_humidity (self m), last_temp (self m)) in
  let env :=
    if fresh then
      match dht_at w (calls m Dht) with
      | DhtValues (Some hum) (Some temp) => (hum, temp)
      | _ => cache
      end
    else cache in
  let fill :=
    match sonar_at w (calls m Sonar) with
    | Distance d =>
        if Qlt_bool 0 d
        then (calibrated_empty_cup_distance (self m) - d)%Q
        else error_fill_level
    | SonarRaises => error_fill_level
    end in
  let elapsed :=
    (monotonic_at w (S (calls m Monotonic))
     - monotonic_at w (calls m Monotonic))%Q in
  let sleep_time := py_max 0 (MIN_READING_INTERVAL_S - elapsed) in
  let r := process_measurement_cycle w m in
  fst r = Ok tt /\
  self (snd r)
  = {| measurement_data :=
         measurement_data (self m)
         ++ [(strftime_HMS (localtime_at w (calls m Clock)),
              snd env, fst env, fill)];
       is_cup_present := is_cup_present (self m);
       is_measuring := is_measuring (self m);
       calibrated_empty_cup_distance := calibrated_empty_cup_distance (self m);
       temp_read_counter := temp_read_counter (self m) + 1;
       last_temp := snd env;
       last_humidity := fst env |} /\
  fs (snd r) = fs m /\
  sleeps (trace (snd r))
  = sleeps (trace m) ++ (if Qlt_bool 0 sleep_time then [sleep_time] else []) /\
  (forall d, calls (snd r) d
             = calls m d + match d with
                           | Sonar | Button | Clock => 1
                           | Dht => if fresh then 1 else 0
                           | Monotonic => 2
                           | Disk => 0
                           end).
Proof.
  intros Hb. cbn zeta.
  remember (process_measurement_cycle w m) as res eqn:E.
  unfold process_measurement_cycle in E. step.
  cbn beta iota in E.
  cbn [calls set_calls bump device_eqb self set_self set_trace] in E.
  apply Z.eqb_neq in Hb. rewrite Hb in E. cbn beta iota in E.
  cbn [calls set_calls bump device_eqb self set_self set_trace] in E.
  set (fresh := (temp_read_counter (self m) mod TEMP_READ_INTERVAL =? 0)) in *.
  set (sleep_time := py_max 0 _) in *.
  destruct fresh; norm_in E.
  - destruct (dht_at w (calls m Dht)) as [[hum|] [temp|]|]; norm_in E;
      (destruct (sonar_at w (calls m Sonar)) as [d|]; norm_in E;
       [destruct (Qlt_bool 0 d); norm_in E|]);
      fold sleep_time in E.
    all: destruct (Qlt_bool 0 sleep_time); norm_in E; subst res;
      cbn [fst snd self fs trace calls set_self set_calls set_trace];
      repeat rewrite sleeps_app; cbn [sleeps app]; rewrite ?app_nil_r;
      (refine (conj eq_refl (conj eq_refl (conj eq_refl (conj eq_refl _))));
       intros []; unfold bump; simpl; lia).
  - (destruct (sonar_at w (calls m Sonar)) as [d|]; norm_in E;
     [destruct (Qlt_bool 0 d); norm_in E|]);
      fold sleep_time in E.
    all: destruct (Qlt_bool 0 sleep_time); norm_in E; subst res;
      cbn [fst snd self fs trace calls set_self set_calls set_trace];
      repeat rewrite sleeps_app; cbn [sleeps app]; rewrite ?app_nil_r;
      (refine (conj eq_refl (conj eq_refl (conj eq_refl (conj eq_refl _))));
       intros []; unfold bump; simpl; lia).
Qed.

(** C4.  On a tick with the cup present: when the tick counter is not a
    multiple of [TEMP_READ_INTERVAL] the DHT sensor is not read, and when
    it is a multiple the sensor is read once; in the first case, and in
    the second when the read raises or returns [None] for either value,
    the record appended by the tick carries the cached temperature and
    humidity, and the cache is the same after the tick. *)
Theorem tick_uses_cached_environment (w : World) (m : Machine) :
  button_at w (calls m Button) <> 0%Z ->
  temp_read_counter (self m) mod TEMP_READ_INTERVAL <> 0
  \/ dht_failed (dht_at w (calls m Dht)) = true ->
  let m' := exec (process_measurement_cycle w) m in
  (exists time fill,
      measurement_data (self m')
      = measurement_data (self m)
        ++ [(time, last_temp (self m), last_humidity (self m), fill)]) /\
  last_temp (self m') = last_temp (self m) /\
  last_humidity (self m') = last_humidity (self m) /\
  calls m' Dht
  = calls m Dht
    + (if temp_read_counter (self m) mod TEMP_READ_INTERVAL =? 0
       then 1 else 0).
Proof.
  intros Hb Hc. cbn zeta. unfold exec.
  pose proof (process_measurement_cycle_present w m Hb)
    as (_ & P2 & _ & _ & P5).
  cbn zeta in P2, P5. rewrite P2, (P5 Dht). clear P2 P5.
  cbn [measurement_data last_temp last_humidity].
  assert (He : (if temp_read_counter (self m) mod TEMP_READ_INTERVAL =? 0
                then match dht_at w (calls m Dht) with
                     | DhtValues (Some hum) (Some temp) => (hum, temp)
                     | _ => (last_humidity (self m), last_temp (self m))
                     end
                else (last_humidity (self m), last_temp (self m)))
               = (last_humidity (self m), last_temp (self m))).
  { destruct (temp_read_counter (self m) mod TEMP_READ_INTERVAL =? 0) eqn:F;
      [|reflexivity].
    apply Nat.eqb_eq in F. destruct Hc as [Hc|Hc]; [congruence|].
    destruct (dht_at w (calls m Dht)) as [[?|] [?|]|];
      simpl in Hc; try discriminate; reflexivity. }
  rewrite He. cbn [fst snd]. split; [eauto|]. auto.
Qed.

(** C4 at a throttled tick: counter 1, cache (22.0, 55.0), and a DHT sensor
    that would answer something else. *)
Lemma tick_uses_cached_environment_witness :
  let w := constant_world (Distance 5) (DhtValues (Some 60%Q) (Some 30%Q)) 1 None in
  let m := sampling [("09:00:00", 22, 55, 32 # 10)%Q] empty_disk in
  let m' := exec (process_measurement_cycle w) m in
  (exists time fill,
      measurement_data (self m')
      = [("09:00:00", 22, 55, 32 # 10)%Q] ++ [(time, 22, 55, fill)%Q]) /\
  last_temp (self m') = 22%Q /\ last_humidity (self m') = 55%Q /\
  calls m' Dht = 0.
Proof.
  apply (tick_uses_cached_environment
           (constant_world (Distance 5) (DhtValues (Some 60%Q) (Some 30%Q)) 1 None)
           (sampling [("09:00:00", 22, 55, 32 # 10)%Q] empty_disk)).
  - simpl. lia.
  - left. simpl. lia.
Defined.



(** The three cases of C5 on one machine: 5.0 is subtracted from the
    reference 13.0; an exception and the reading -2.0 give the sentinel. *)
Example tick_records_fill_level_example :
  let fill_after sonar :=
    map row_3 (measurement_data
                 (self (exec (process_measurement_cycle
                                (constant_world sonar DhtRaises 1 None))
                             (sampling [] empty_disk)))) in
  fill_after (Distance 5) = [(13 - 5)%Q] /\
  fill_after SonarRaises = [(-999)%Q] /\
  fill_after (Distance (-2)) = [(-999)%Q].
Proof. repeat split; reflexivity. Qed.


Lemma sleep_time_cases (elapsed : Q) :
  let sleep_time := py_max 0 (MIN_READING_INTERVAL_S - elapsed) in
  (0 <= sleep_time)%Q /\
  (sleep_time == Qmax 0 (MIN_READING_INTERVAL_S - elapsed))%Q /\
  (if Qlt_bool 0 sleep_time then [sleep_time] else [])
  = (if Qle_bool MIN_READING_INTERVAL_S elapsed then []
     else [(MIN_READING_INTERVAL_S - elapsed)%Q]).
Proof.
  cbn zeta. unfold py_max.
  destruct (Qlt_bool 0 (MIN_READING_INTERVAL_S - elapsed)) eqn:E.
  - rewrite E. apply Qlt_bool_iff in E.
    split; [apply Qlt_le_weak; exact E|]. split.
    + symmetry. apply Q.max_r. apply Qlt_le_weak; exact E.
    + destruct (Qle_bool MIN_READING_INTERVAL_S elapsed) eqn:F;
        [|reflexivity].
      apply Qle_bool_iff in F. exfalso.
      apply (Qlt_not_le _ _ E). unfold Qminus.
      apply Qle_minus_iff in F.
      setoid_replace (MIN_READING_INTERVAL_S + - elapsed)%Q
        with (- (elapsed + - MIN_READING_INTERVAL_S))%Q by ring.
      apply (Qopp_le_compat 0) in F. exact F.
  - assert (Z0 : Qlt_bool 0 0 = false) by reflexivity. rewrite Z0.
    apply Qlt_bool_false_iff in E.
    split; [apply Qle_refl|]. split.
    + symmetry. apply Q.max_l. exact E.
    + destruct (Qle_bool MIN_READING_INTERVAL_S elapsed) eqn:F;
        [reflexivity|].
      exfalso. assert (G : ~ (MIN_READING_INTERVAL_S <= elapsed)%Q).
      { intro G. apply Qle_bool_iff in G. congruence. }
      apply G. apply Qle_minus_iff.
      setoid_replace (elapsed + - MIN_READING_INTERVAL_S)%Q
        with (- (MIN_READING_INTERVAL_S - elapsed))%Q by ring.
      apply (Qopp_le_compat _ 0) in E. exact E.
Qed.

(** C9.  On a tick with the cup present the sleep duration computed is
    [max(0, MIN_READING_INTERVAL_S - elapsed)], which is never negative;
    the tick sleeps for [MIN_READING_INTERVAL_S - elapsed] when the
    processing took less than the minimum interval and does not sleep at
    all when it took at least that long; in both cases the tick appended
    its record. *)
Theorem tick_sleeps_the_remainder (w : World) (m : Machine) :
  button_at w (calls m Button) <> 0%Z ->
  let elapsed :=
    (monotonic_at w (S (calls m Monotonic))
     - monotonic_at w (calls m Monotonic))%Q in
  let sleep_time := py_max 0 (MIN_READING_INTERVAL_S - elapsed) in
  let m' := exec (process_measurement_cycle w) m in
  (0 <= sleep_time)%Q /\
  (sleep_time == Qmax 0 (MIN_READING_INTERVAL_S - elapsed))%Q /\
  sleeps (trace m')
  = sleeps (trace m)
    ++ (if Qle_bool MIN_READING_INTERVAL_S elapsed then []
        else [(MIN_READING_INTERVAL_S - elapsed)%Q]) /\
  List.length (measurement_data (self m'))
  = S (List.length (measurement_data (self m))).
Proof.
  intros Hb. cbn zeta. unfold exec.
  pose proof (process_measurement_cycle_present w m Hb)
    as (_ & P2 & _ & P4 & _).
  cbn zeta in P2, P4. rewrite P2, P4. clear P2 P4.
  destruct (sleep_time_cases
              (monotonic_at w (S (calls m Monotonic))
               - monotonic_at w (calls m Monotonic))%Q) as (S1 & S2 & S3).
  cbn zeta in S1, S2, S3. rewrite S3.
  split; [exact S1|]. split; [exact S2|]. split; [reflexivity|].
  cbn [measurement_data]. rewrite length_app. simpl. lia.
Qed.

(** C9 where the processing took 0.03 s: the tick sleeps the remaining
    0.07 s. *)
Lemma tick_sleeps_the_remainder_witness :
  let w := sonar_world [Distance 5] in
  let m' := exec (process_measurement_cycle w) (sampling [] empty_disk) in
  sleeps (trace m')
  = [((1 # 10) - (monotonic_at w 1 - monotonic_at w 0))%Q] /\
  ((1 # 10) - (monotonic_at w 1 - monotonic_at w 0) == 7 # 100)%Q /\
  List.length (measurement_data (self m')) = 1.
Proof.
  assert (Hb : button_at (sonar_world [Distance 5])
                 (calls (sampling [] empty_disk) Button) <> 0%Z)
    by (simpl; lia).
  destruct (tick_sleeps_the_remainder (sonar_world [Distance 5])
              (sampling [] empty_disk) Hb) as (_ & _ & H3 & H4).
  split; [exact H3|]. split; [reflexivity|exact H4].
Defined.

(** What [save_session_data] does to the cache, the buffer and the DHT
    counter, whatever the buffer and the disk. *)
Lemma save_session_data_frame w m :
  let r := save_session_data w m in
  fst r = Ok tt /\
  measurement_data (self (snd r)) = [] /\
  last_temp (self (snd r)) = last_temp (self m) /\
  last_humidity (self (snd r)) = last_humidity (self m) /\
  calls (snd r) Dht = calls m Dht.
Proof.
  cbn zeta. destruct (measurement_data (self m)) as [|row rows] eqn:Hd.
  - rewrite (save_session_data_empty w m Hd). simpl. auto.
  - pose proof (save_session_data_nonempty w m row rows Hd)
      as (R1 & R2 & R3 & _).
    cbn zeta in R1, R2, R3. rewrite R1, R2, R3; [|discriminate].
    simpl. auto.
Qed.

(** The tick on which the cup is found removed. *)
Lemma process_measurement_cycle_removed w m :
  button_at w (calls m Button) = 0%Z ->
  let r := process_measurement_cycle w m in
  fst r = Ok tt /\
  measurement_data (self (snd r)) = [] /\
  last_temp (self (snd r)) = last_temp (self m) /\
  last_humidity (self (snd r)) = last_humidity (self m) /\
  calls (snd r) Dht = calls m Dht.
Proof.
  intros Hb. cbn zeta.
  remember (process_measurement_cycle w m) as res eqn:E.
  unfold process_measurement_cycle in E.
  unfold time_monotonic, time_strftime, button_read, call, logger, emit,
    update, modify, bind, ret in E.
  cbn beta iota in E.
  cbn [calls set_calls bump device_eqb] in E.
  rewrite Hb in E. change (0 =? 0)%Z with true in E. cbn beta iota in E.
  match type of E with
  | res = save_session_data w ?m1 =>
      pose proof (save_session_data_frame w m1) as F; set (m0 := m1) in *
  end.
  cbn zeta in F. rewrite <- E in F.
  destruct F as (F1 & F2 & F3 & F4 & F5).
  repeat split; assumption.
Qed.

Lemma wait_for_cup_frame w m :
  let r := wait_for_cup w m in
  fst r = Ok tt /\
  measurement_data (self (snd r)) = measurement_data (self m) /\
  last_temp (self (snd r)) = last_temp (self m) /\
  last_humidity (self (snd r)) = last_humidity (self m) /\
  calls (snd r) Dht = calls m Dht.
Proof.
  cbn zeta.
  remember (wait_for_cup w m) as res eqn:E.
  unfold wait_for_cup in E.
  unfold button_read, call, when, bind at 1 2, ret in E.
  cbn beta iota in E.
  destruct (button_at w (calls m Button) =? 1)%Z.
  - unfold logger, time_sleep, emit, update, modify in E.
    unfold bind at 1 2 3 in E. cbn beta iota in E.
    unfold bind at 1 in E.
    match type of E with
    | context [calibrate_empty_cup w ?m1] =>
        pose proof (calibrate_empty_cup_spec w m1) as (C1 & C2 & _ & _ & C5);
          set (m0 := m1) in *
    end.
    cbn zeta in C1, C2, C5.
    destruct (calibrate_empty_cup w m0) as [r1 m1]. cbn [fst snd] in *.
    rewrite C1 in E. unfold bind in E. cbn beta iota in E. subst res.
    cbn [fst snd self calls set_self set_trace].
    rewrite C2, (C5 Dht). subst m0. simpl. unfold bump. simpl.
    repeat split; try reflexivity; lia.
  - subst res. simpl. auto.
Qed.

(** A tick never raises, never lowers the DHT counter, and keeps the
    cache and the records unread as long as the DHT reads it makes fail. *)
Lemma process_measurement_cycle_unread w m :
  let r := process_measurement_cycle w m in
  fst r = Ok tt /\
  calls m Dht <= calls (snd r) Dht /\
  ((forall k, calls m Dht <= k < calls (snd r) Dht ->
              dht_failed (dht_at w k) = true) ->
   unread m -> unread (snd r)).
Proof.
  cbn zeta. destruct (Z.eq_dec (button_at w (calls m Button)) 0) as [Hb|Hb].
  - pose proof (process_measurement_cycle_removed w m Hb)
      as (R1 & R2 & R3 & R4 & R5).
    cbn zeta in *. split; [exact R1|]. split; [lia|].
    intros _ (U1 & U2 & U3). unfold unread. rewrite R2, R3, R4. auto.
  - pose proof (process_measurement_cycle_present w m Hb)
      as (P1 & P2 & _ & _ & P5).
    cbn zeta in *. split; [exact P1|]. rewrite (P5 Dht). split; [lia|].
    intros Hfail (U1 & U2 & U3). unfold unread. rewrite P2.
    cbn [measurement_data last_temp last_humidity].
    assert (He : (if temp_read_counter (self m) mod TEMP_READ_INTERVAL =? 0
                  then match dht_at w (calls m Dht) with
                       | DhtValues (Some hum) (Some temp) => (hum, temp)
                       | _ => (last_humidity (self m), last_temp (self m))
                       end
                  else (last_humidity (self m), last_temp (self m)))
                 = (last_humidity (self m), last_temp (self m))).
    { destruct (temp_read_counter (self m) mod TEMP_READ_INTERVAL =? 0);
        [|reflexivity].
      specialize (Hfail (calls m Dht) ltac:(lia)).
      destruct (dht_at w (calls m Dht)) as [[?|] [?|]|];
        simpl in Hfail; try discriminate; reflexivity. }
    rewrite He. cbn [fst snd]. split; [exact U1|]. split; [exact U2|].
    apply Forall_app. split; [exact U3|].
    constructor; [split; assumption|constructor].
Qed.

Lemma run_iteration_unread w m :
  let r := run_iteration w m in
  fst r = Ok tt /\
  calls m Dht <= calls (snd r) Dht /\
  ((forall k, calls m Dht <= k < calls (snd r) Dht ->
              dht_failed (dht_at w k) = true) ->
   unread m -> unread (snd r)).
Proof.
  cbn zeta.
  remember (run_iteration w m) as res eqn:E.
  unfold run_iteration in E. unfold attr, gets in E.
  unfold bind at 1 2 in E. cbn beta iota in E.
  assert (H1 : exists m1,
             when (negb (is_cup_present (self m)))
               (wait_for_cup w;; time_sleep (1 # 10))%monad m = (Ok tt, m1) /\
             measurement_data (self m1) = measurement_data (self m) /\
             last_temp (self m1) = last_temp (self m) /\
             last_humidity (self m1) = last_humidity (self m) /\
             calls m1 Dht = calls m Dht).
  { unfold when. destruct (negb (is_cup_present (self m))).
    - unfold bind. pose proof (wait_for_cup_frame w m) as F. cbn zeta in F.
      destruct (wait_for_cup w m) as [r0 m0]. cbn [fst snd] in F.
      destruct F as (F1 & F2 & F3 & F4 & F5). subst r0.
      eexists. split; [reflexivity|]. simpl. auto.
    - exists m. split; [reflexivity|]. auto. }
  destruct H1 as (m1 & W0 & W1 & W2 & W3 & W4).
  rewrite W0 in E. unfold bind in E. cbn beta iota in E.
  assert (U : unread m -> unread m1).
  { intros (U1 & U2 & U3). unfold unread. rewrite W1, W2, W3. auto. }
  unfold when in E. destruct (is_measuring (self m1)).
  - pose proof (process_measurement_cycle_unread w m1) as (P1 & P2 & P3).
    cbn zeta in *. rewrite <- E in P1, P2, P3. rewrite W4 in P2, P3.
    split; [exact P1|]. split; [exact P2|]. auto.
  - subst res. unfold ret. cbn [fst snd].
    split; [reflexivity|]. split; [lia|]. auto.
Qed.

Lemma run_iterations_unread w n :
  forall m,
    let r := run_iterations w n m in
    fst r = Ok tt /\
    calls m Dht <= calls (snd r) Dht /\
    ((forall k, calls m Dht <= k < calls (snd r) Dht ->
                dht_failed (dht_at w k) = true) ->
     unread m -> unread (snd r)).
Proof.
  induction n as [|n IH]; intros m; cbn zeta.
  - simpl. split; [reflexivity|]. split; [lia|]. auto.
  - remember (run_iterations w (S n) m) as res eqn:E.
    simpl run_iterations in E. unfold bind in E.
    pose proof (run_iteration_unread w m) as (R1 & R2 & R3). cbn zeta in *.
    destruct (run_iteration w m) as [r1 m1]. cbn [fst snd] in *. subst r1.
    specialize (IH m1). cbn zeta in IH. rewrite <- E in IH.
    destruct IH as (I1 & I2 & I3).
    split; [exact I1|]. split; [lia|].
    intros Hfail U. apply I3.
    + intros k Hk. apply Hfail. lia.
    + apply R3; [|exact U]. intros k Hk. apply Hfail. lia.
Qed.

(** C10.  [__init__] sets the cache to temperature -1.0 and humidity
    -1.0.  After any number of rounds of the main loop, if every DHT read
    made so far has failed, the cache still holds -1.0 and -1.0 and so does
    every record in the buffer; a row for such a record prints them as
    [-1.0], like any other value. *)
Theorem records_before_first_dht_read
    (w : World) (disk : FileSystem) (n : nat) :
  let m' := exec (run_iterations w n) (init disk) in
  (forall k, k < calls m' Dht -> dht_failed (dht_at w k) = true) ->
  last_temp (self (init disk)) = (-1)%Q /\
  last_humidity (self (init disk)) = (-1)%Q /\
  last_temp (self m') = (-1)%Q /\
  last_humidity (self m') = (-1)%Q /\
  Forall (fun row => row_1 row = (-1)%Q /\ row_2 row = (-1)%Q
                     /\ format_1f (row_1 row) = "-1.0"%string
                     /\ format_1f (row_2 row) = "-1.0"%string)
         (measurement_data (self m')).
Proof.
  cbn zeta. intros Hfail. unfold exec in *.
  pose proof (run_iterations_unread w n (init disk)) as (_ & _ & R3).
  cbn zeta in R3.
  destruct R3 as (U1 & U2 & U3).
  - intros k Hk. apply Hfail. lia.
  - repeat split. constructor.
  - split; [reflexivity|]. split; [reflexivity|].
    split; [exact U1|]. split; [exact U2|].
    eapply Forall_impl; [|exact U3].
    intros row (H1 & H2). rewrite H1, H2. repeat split; reflexivity.
Qed.

(** C10 on three rounds with a DHT sensor that always raises: the three
    records of the buffer carry -1.0 and -1.0. *)
Lemma records_before_first_dht_read_witness :
  let w := constant_world (Distance 5) DhtRaises 1 None in
  let m' := exec (run_iterations w 3) (init empty_disk) in
  List.length (measurement_data (self m')) = 3 /\
  last_temp (self m') = (-1)%Q /\
  Forall (fun row => row_1 row = (-1)%Q /\ row_2 row = (-1)%Q
                     /\ format_1f (row_1 row) = "-1.0"%string
                     /\ format_1f (row_2 row) = "-1.0"%string)
         (measurement_data (self m')).
Proof.
  assert (H : forall k,
             k < calls (exec (run_iterations
                                (constant_world (Distance 5) DhtRaises 1 None) 3)
                             (init empty_disk)) Dht ->
             dht_failed (dht_at (constant_world (Distance 5) DhtRaises 1 None) k)
             = true) by (intros k _; reflexivity).
  destruct (records_before_first_dht_read
              (constant_world (Distance 5) DhtRaises 1 None) empty_disk 3 H)
    as (_ & _ & H3 & _ & H5).
  split; [reflexivity|]. split; [exact H3|exact H5].
Defined.

(** ** More of the liquid-level meter *)

(** X8.  [read_environmental_data] never raises and reads the DHT sensor
    exactly once.  The pair it returns, humidity first, is always the
    cache as it is after the call: the fresh values when the sensor gave
    both, and the unchanged cache when the read raised or gave [None] for
    either value.  Nothing else of [self] changes. *)
Theorem read_environmental_data_returns_cache (w : World) (m : Machine) :
  let r := read_environmental_data w m in
  let fresh :=
    match dht_at w (calls m Dht) with
    | DhtValues (Some hum) (Some temp) => (hum, temp)
    | _ => (last_humidity (self m), last_temp (self m))
    end in
  fst r = Ok fresh /\
  last_humidity (self (snd r)) = fst fresh /\
  last_temp (self (snd r)) = snd fresh /\
  self (snd r)
  = set_last_temp (snd fresh) (set_last_humidity (fst fresh) (self m)) /\
  calls (snd r) Dht = S (calls m Dht) /\
  calls (snd r) Sonar = calls m Sonar /\
  fs (snd r) = fs m /\
  sleeps (trace (snd r)) = sleeps (trace m).
Proof.
  cbn zeta. step. cbn beta iota.
  destruct (dht_at w (calls m Dht)) as [[hum|] [temp|]|];
    cbn [fst snd self calls fs trace set_self set_calls set_trace bump
         device_eqb last_humidity last_temp set_last_temp set_last_humidity];
    rewrite ?sleeps_app, ?app_nil_r;
    repeat split; try reflexivity;
    destruct (self m); reflexivity.
Qed.

(** X9.  [get_distance_reading] never raises and reads the sonar exactly
    once.  It returns a distance only when the sensor gave one that is
    strictly greater than zero; a sensor exception, zero and negative
    values all give [None].  [self] and the file system are untouched. *)
Theorem get_distance_reading_only_positive (w : World) (m : Machine) :
  let r := get_distance_reading w m in
  exists reading,
    fst r = Ok reading /\
    match reading with
    | Some d => sonar_at w (calls m Sonar) = Distance d /\ (0 < d)%Q
    | None =>
        match sonar_at w (calls m Sonar) with
        | Distance d => (d <= 0)%Q
        | SonarRaises => True
        end
    end /\
    calls (snd r) Sonar = S (calls m Sonar) /\
    self (snd r) = self m /\ fs (snd r) = fs m.
Proof.
  cbn zeta.
  pose proof (get_distance_reading_spec w m) as (G1 & [G2 G3 _ G5]).
  cbn zeta in *. rewrite G1, G2, G3, (G5 Sonar). clear G1 G2 G3 G5.
  eexists. split; [reflexivity|].
  split; [|repeat split; simpl; lia].
  destruct (sonar_at w (calls m Sonar)) as [d|]; [|exact I].
  destruct (Qlt_bool 0 d) eqn:E.
  - split; [reflexivity|]. apply Qlt_bool_iff. exact E.
  - apply Qlt_bool_false_iff. exact E.
Qed.

(** X10.  [calibrate_empty_cup] changes nothing of [self] but the
    reference: the buffer, both flags, the tick counter and the cache are
    kept.  It does not sleep, does not touch the file system, and calls
    no device but the sonar, which it reads [CALIBRATION_READS] times
    whatever the reads give.  When no read gives a valid sample the
    reference is [DEFAULT_DISTANCE_TO_EMPTY_CUP_BOTTOM_CM], whatever it
    was before. *)
Theorem calibrate_empty_cup_changes_only_reference (w : World) (m : Machine) :
  let r := calibrate_empty_cup w m in
  let valid :=
    positive_samples (sonar_outcomes w (calls m Sonar) CALIBRATION_READS) in
  let reference := calibrated_empty_cup_distance (self (snd r)) in
  self (snd r) = set_calibrated_empty_cup_distance reference (self m) /\
  sleeps (trace (snd r)) = sleeps (trace m) /\
  fs (snd r) = fs m /\
  (forall d, calls (snd r) d
             = calls m d + match d with
                           | Sonar => CALIBRATION_READS
                           | _ => 0
                           end) /\
  match valid with
  | [] => reference = DEFAULT_DISTANCE_TO_EMPTY_CUP_BOTTOM_CM
  | _ :: _ => fst r = Ok true
  end.
Proof.
  cbn zeta.
  pose proof (calibrate_empty_cup_spec w m) as (R1 & R2 & R3 & R4 & R5).
  cbn zeta in *. rewrite R2, R3, R4.
  cbn [calibrated_empty_cup_distance set_calibrated_empty_cup_distance].
  split; [reflexivity|]. split; [reflexivity|]. split; [reflexivity|].
  split.
  - intros d. rewrite (R5 d). destruct d; reflexivity.
  - destruct (positive_samples _) as [|x xs]; [reflexivity|exact R1].
Qed.

(** X10 on a sonar that always raises, from a reference of 13.0. *)
Example calibrate_empty_cup_changes_only_reference_example :
  let w := constant_world SonarRaises DhtRaises 1 None in
  let m := sampling example_buffer empty_disk in
  let m' := exec (calibrate_empty_cup w) m in
  calibrated_empty_cup_distance (self m) = 13%Q /\
  calibrated_empty_cup_distance (self m') = 15%Q /\
  measurement_data (self m') = example_buffer /\
  calls m' Sonar = 5 /\ calls m' Dht = 0 /\ calls m' Disk = 0.
Proof. repeat split; reflexivity. Qed.

(** [wait_for_cup] in terms of what the button and the sonar answer. *)
Lemma wait_for_cup_spec w m :
  let r := wait_for_cup w m in
  let reference :=
    match positive_samples
            (sonar_outcomes w (calls m Sonar) CALIBRATION_READS) with
    | [] => DEFAULT_DISTANCE_TO_EMPTY_CUP_BOTTOM_CM
    | valid => (py_sum valid / inject_Z (Z.of_nat (List.length valid)))%Q
    end in
  fst r = Ok tt /\
  fs (snd r) = fs m /\
  if (button_at w (calls m Button) =? 1)%Z then
    self (snd r)
    = set_temp_read_counter 0
        (set_is_measuring true
           (set_calibrated_empty_cup_distance reference
              (set_is_cup_present true (self m)))) /\
    sleeps (trace (snd r)) = sleeps (trace m) ++ [CALIBRATION_DELAY_S] /\
    (forall d, calls (snd r) d
               = calls m d + match d with
                             | Button => 1
                             | Sonar => CALIBRATION_READS
                             | _ => 0
                             end)
  else snd r = set_calls (bump Button (calls m)) m.
Proof.
  cbn zeta.
  remember (wait_for_cup w m) as res eqn:E.
  unfold wait_for_cup in E.
  unfold button_read, call, when, bind at 1 2, ret in E.
  cbn beta iota in E.
  destruct (button_at w (calls m Button) =? 1)%Z.
  - unfold logger, time_sleep, emit, update, modify in E.
    unfold bind at 1 2 3 in E. cbn beta iota in E.
    unfold bind at 1 in E.
    match type of E with
    | context [calibrate_empty_cup w ?m1] =>
        pose proof (calibrate_empty_cup_spec w m1)
          as (C1 & C2 & C3 & C4 & C5);
          set (m0 := m1) in *
    end.
    cbn zeta in C1, C2, C3, C4, C5.
    change (calls m0 Sonar) with (calls m Sonar) in *.
    destruct (calibrate_empty_cup w m0) as [r1 m1]. cbn [fst snd] in *.
    rewrite C1 in E. unfold bind in E. cbn beta iota in E. subst res.
    cbn [fst snd self calls fs trace set_self set_trace].
    rewrite ?sleeps_app, C2, C3, C4. subst m0.
    cbn [self fs trace set_self set_trace set_calls sleeps].
    rewrite !sleeps_app. cbn [sleeps]. rewrite !app_nil_r.
    split; [reflexivity|]. split; [reflexivity|].
    split; [destruct (positive_samples _); reflexivity|].
    split; [reflexivity|].
    intros d. rewrite (C5 d). cbn [calls set_calls set_self set_trace].
    unfold bump. destruct d; simpl; lia.
  - subst res. cbn [fst snd fs set_calls]. auto.
Qed.

(** X11.  [wait_for_cup] never raises and reads the button once.  When the
    button reads anything but 1 nothing else happens: no sleep, no sensor
    read, no change of [self].  When it reads 1 the method sleeps
    [CALIBRATION_DELAY_S], calibrates with exactly [CALIBRATION_READS]
    sonar reads, sets both flags and resets the tick counter to 0; the
    buffer and the environmental cache are kept, the DHT sensor and the
    disk are not used. *)
Theorem wait_for_cup_starts_session (w : World) (m : Machine) :
  let r := wait_for_cup w m in
  fst r = Ok tt /\
  calls (snd r) Button = S (calls m Button) /\
  calls (snd r) Dht = calls m Dht /\
  calls (snd r) Disk = calls m Disk /\
  fs (snd r) = fs m /\
  measurement_data (self (snd r)) = measurement_data (self m) /\
  last_temp (self (snd r)) = last_temp (self m) /\
  last_humidity (self (snd r)) = last_humidity (self m) /\
  if (button_at w (calls m Button) =? 1)%Z then
    is_cup_present (self (snd r)) = true /\
    is_measuring (self (snd r)) = true /\
    temp_read_counter (self (snd r)) = 0 /\
    calls (snd r) Sonar = calls m Sonar + CALIBRATION_READS /\
    sleeps (trace (snd r)) = sleeps (trace m) ++ [CALIBRATION_DELAY_S] /\
    reference_is_mean_of positive_samples w m (snd r)
  else
    self (snd r) = self m /\
    calls (snd r) Sonar = calls m Sonar /\
    trace (snd r) = trace m.
Proof.
  cbn zeta.
  pose proof (wait_for_cup_spec w m) as (W1 & W2 & W3). cbn zeta in *.
  split; [exact W1|].
  destruct (button_at w (calls m Button) =? 1)%Z.
  - destruct W3 as (W3 & W4 & W5).
    rewrite (W5 Button), (W5 Dht), (W5 Disk), (W5 Sonar), W2, W3, W4.
    cbn [measurement_data last_temp last_humidity is_cup_present is_measuring
         temp_read_counter set_temp_read_counter set_is_measuring
         set_calibrated_empty_cup_distance set_is_cup_present].
    repeat split; try reflexivity; try lia.
    unfold reference_is_mean_of. rewrite W3.
    cbn [calibrated_empty_cup_distance set_temp_read_counter set_is_measuring
         set_calibrated_empty_cup_distance].
    destruct (positive_samples _) as [|x xs]; [reflexivity|].
    apply py_sum_mean.
  - rewrite W3. cbn [calls set_calls self trace fs]. unfold bump. simpl.
    repeat split; reflexivity.
Qed.

Lemma process_measurement_cycle_removed_eq w m :
  button_at w (calls m Button) = 0%Z ->
  process_measurement_cycle w m = save_session_data w (removed m).
Proof.
  intros Hb. unfold process_measurement_cycle.
  unfold time_monotonic, time_strftime, button_read, call, logger, emit,
    update, modify, bind, ret.
  cbn beta iota. cbn [calls set_calls bump device_eqb].
  rewrite Hb. reflexivity.
Qed.

(** [save_session_data] changes [self] only by emptying the buffer. *)
Lemma save_session_data_self w m :
  fst (save_session_data w m) = Ok tt /\
  self (snd (save_session_data w m)) = set_measurement_data [] (self m) /\
  sleeps (trace (snd (save_session_data w m))) = sleeps (trace m) /\
  (forall d, d <> Disk -> calls (snd (save_session_data w m)) d = calls m d).
Proof.
  destruct (measurement_data (self m)) as [|row rows] eqn:Hd.
  - rewrite (save_session_data_empty w m Hd).
    cbn [fst snd self trace calls set_trace].
    rewrite sleeps_app, app_nil_r.
    repeat split; try reflexivity.
    destruct (self m). simpl in Hd. subst. reflexivity.
  - pose proof (save_session_data_nonempty w m row rows Hd)
      as (R1 & R2 & R3 & R4).
    cbn zeta in *. rewrite R1, R2.
    repeat split; try assumption.
    destruct (first_fault _ _ _) as [e0|].
    + destruct R4 as ((e & R4) & _). rewrite R4, sleeps_app.
      unfold save_log. destruct e; simpl; rewrite app_nil_r; reflexivity.
    + destruct R4 as (R4 & _). rewrite R4, sleeps_app.
      unfold save_log. destruct (positive_fill_levels _);
        simpl; rewrite app_nil_r; reflexivity.
Qed.

(** The tick that finds the cup removed, in full. *)
Lemma process_measurement_cycle_removed_full w m :
  button_at w (calls m Button) = 0%Z ->
  let data := measurement_data (self m) in
  let r := process_measurement_cycle w m in
  fst r = Ok tt /\
  self (snd r)
  = set_measurement_data []
      (set_is_measuring false (set_is_cup_present false (self m))) /\
  calls (snd r) Sonar = calls m Sonar /\
  calls (snd r) Dht = calls m Dht /\
  sleeps (trace (snd r)) = sleeps (trace m) /\
  match data with
  | [] => fs (snd r) = fs m /\ calls (snd r) Disk = calls m Disk
  | _ :: _ =>
      match first_fault w (calls m Disk) (4 + List.length data) with
      | None =>
          data_dir_exists (fs (snd r)) = true /\
          csv_file (fs (snd r)) = Some (csv_content data)
      | Some _ =>
          csv_file (fs (snd r)) = csv_file (fs m) \/
          exists written rest,
            csv_file (fs (snd r)) = Some written /\
            csv_content data = (written ++ rest)%string
      end
  end.
Proof.
  intros Hb. cbn zeta.
  rewrite (process_measurement_cycle_removed_eq w m Hb).
  pose proof (save_session_data_self w (removed m)) as (S1 & S2 & S3 & S4).
  split; [exact S1|]. split; [exact S2|].
  split; [rewrite S4 by discriminate; reflexivity|].
  split; [rewrite S4 by discriminate; reflexivity|].
  split.
  { rewrite S3. unfold removed. cbn [trace set_self set_trace].
    rewrite sleeps_app, app_nil_r. reflexivity. }
  destruct (measurement_data (self m)) as [|row rows] eqn:Hd.
  - assert (He : measurement_data (self (removed m)) = []) by exact Hd.
    rewrite (save_session_data_empty w (removed m) He).
    split; reflexivity.
  - assert (He : measurement_data (self (removed m)) = row :: rows)
      by exact Hd.
    pose proof (save_session_data_nonempty w (removed m) row rows He)
      as (_ & _ & _ & R4).
    cbn zeta in R4. change (calls (removed m) Disk) with (calls m Disk) in R4.
    change (fs (removed m)) with (fs m) in R4.
    destruct (first_fault _ _ _); exact (proj2 R4).
Qed.

(** X12.  The tick that finds the cup removed (the button reads 0) reads
    neither the sonar nor the DHT sensor and does not sleep.  It clears
    both flags and empties the buffer, leaving the reference, the counter
    and the cache as they were.  With an empty buffer the disk is not
    touched; otherwise, when none of the disk calls faults ([makedirs],
    [open], the writes and the close of the file), the session file holds
    the header and the rows of the buffer, and when one faults the file
    is untouched or holds a beginning of that content. *)
Theorem tick_without_cup_flushes_session (w : World) (m : Machine) :
  button_at w (calls m Button) = 0%Z ->
  let data := measurement_data (self m) in
  let r := process_measurement_cycle w m in
  fst r = Ok tt /\
  self (snd r)
  = set_measurement_data []
      (set_is_measuring false (set_is_cup_present false (self m))) /\
  calls (snd r) Sonar = calls m Sonar /\
  calls (snd r) Dht = calls m Dht /\
  sleeps (trace (snd r)) = sleeps (trace m) /\
  match data with
  | [] => fs (snd r) = fs m /\ calls (snd r) Disk = calls m Disk
  | _ :: _ =>
      match first_fault w (calls m Disk) (4 + List.length data) with
      | None =>
          data_dir_exists (fs (snd r)) = true /\
          csv_file (fs (snd r)) = Some (csv_content data)
      | Some _ =>
          csv_file (fs (snd r)) = csv_file (fs m) \/
          exists written rest,
            csv_file (fs (snd r)) = Some written /\
            csv_content data = (written ++ rest)%string
      end
  end.
Proof.
  intros Hb. cbn zeta.
  pose proof (process_measurement_cycle_removed_full w m Hb)
    as (R1 & R2 & R3 & R4 & R5 & R6).
  cbn zeta in *.
  split; [exact R1|]. split; [exact R2|]. split; [exact R3|].
  split; [exact R4|]. split; [exact R5|].
  destruct (measurement_data (self m)); exact R6.
Qed.

(** X12 at the example buffer on a working disk. *)
Lemma tick_without_cup_flushes_session_witness :
  let w := constant_world (Distance 5) DhtRaises 0 None in
  let m' := exec (process_measurement_cycle w)
                 (sampling example_buffer empty_disk) in
  measurement_data (self m') = [] /\
  is_measuring (self m') = false /\
  calls m' Sonar = 0 /\
  csv_file (fs m') = Some (csv_content example_buffer).
Proof.
  destruct (tick_without_cup_flushes_session
              (constant_world (Distance 5) DhtRaises 0 None)
              (sampling example_buffer empty_disk) eq_refl)
    as (_ & H2 & H3 & _ & _ & _ & H6).
  unfold exec. rewrite H2. split; [reflexivity|]. split; [reflexivity|].
  split; [exact H3|exact H6].
Defined.

Lemma process_measurement_cycle_session_invariant w m :
  is_measuring (self m) = true ->
  session_invariant m ->
  fst (process_measurement_cycle w m) = Ok tt /\
  session_invariant (snd (process_measurement_cycle w m)).
Proof.
  intros Hm (I1 & I2 & I3). unfold session_invariant.
  destruct (Z.eq_dec (button_at w (calls m Button)) 0) as [Hb|Hb].
  - rewrite (process_measurement_cycle_removed_eq w m Hb).
    pose proof (save_session_data_self w (removed m)) as (S1 & S2 & _).
    rewrite S2. split; [exact S1|]. simpl.
    repeat split; auto. discriminate.
  - pose proof (process_measurement_cycle_present w m Hb) as (P1 & P2 & _).
    cbn zeta in *. rewrite P2. split; [exact P1|].
    cbn [is_cup_present is_measuring measurement_data temp_read_counter].
    split; [exact I1|]. split; [congruence|].
    intros _. rewrite length_app, (I3 Hm). reflexivity.
Qed.

Lemma run_iteration_session_invariant w m :
  session_invariant m ->
  fst (run_iteration w m) = Ok tt /\
  session_invariant (snd (run_iteration w m)).
Proof.
  intros (I1 & I2 & I3).
  remember (run_iteration w m) as res eqn:E.
  unfold run_iteration in E. unfold attr, gets in E.
  unfold bind at 1 2 in E. cbn beta iota in E.
  destruct (is_cup_present (self m)) eqn:Hp; cbn [negb when] in E.
  - unfold ret, bind in E. cbn beta iota in E.
    symmetry in I1. rewrite I1 in E. cbn [when] in E. subst res.
    apply process_measurement_cycle_session_invariant; [exact I1|].
    unfold session_invariant. rewrite Hp. auto.
  - unfold bind at 1 2 in E.
    pose proof (wait_for_cup_spec w m) as (W1 & _ & W3). cbn zeta in *.
    destruct (wait_for_cup w m) as [r1 m1]. cbn [fst snd] in *. subst r1.
    unfold time_sleep, emit, modify, bind in E. cbn beta iota in E.
    cbn [self set_trace] in E.
    symmetry in I1.
    destruct (button_at w (calls m Button) =? 1)%Z.
    + destruct W3 as (W3 & _). rewrite W3 in E.
      cbn [is_measuring set_temp_read_counter set_is_measuring when] in E.
      subst res.
      apply process_measurement_cycle_session_invariant.
      * cbn [self set_trace]. rewrite W3. reflexivity.
      * unfold session_invariant. cbn [self set_trace]. rewrite W3.
        cbn [is_cup_present is_measuring measurement_data temp_read_counter
             set_temp_read_counter set_is_measuring
             set_calibrated_empty_cup_distance set_is_cup_present].
        split; [reflexivity|]. split; [discriminate|].
        intros _. rewrite (I2 I1). reflexivity.
    + subst m1. cbn [self set_calls] in E. rewrite I1 in E.
      cbn [when] in E. subst res. unfold ret. cbn [fst snd].
      split; [reflexivity|]. unfold session_invariant.
      cbn [self set_trace set_calls]. rewrite Hp, I1.
      split; [reflexivity|]. split; [intros _; apply I2; exact I1|].
      discriminate.
Qed.

(** X13.  From [__init__], any number of rounds of the main loop never
    raises, and between rounds: [is_cup_present] and [is_measuring] are
    equal; inside a session the tick counter equals the number of records
    in the buffer; outside a session the buffer is empty. *)
Theorem run_keeps_session_invariant
    (w : World) (disk : FileSystem) (n : nat) :
  let m' := exec (run_iterations w n) (init disk) in
  eval (run_iterations w n) (init disk) = Ok tt /\
  is_cup_present (self m') = is_measuring (self m') /\
  if is_measuring (self m')
  then List.length (measurement_data (self m')) = temp_read_counter (self m')
  else measurement_data (self m') = [].
Proof.
  cbn zeta. unfold exec, eval.
  assert (H0 : session_invariant (init disk)).
  { unfold session_invariant. simpl. auto. }
  assert (H : fst (run_iterations w n (init disk)) = Ok tt /\
              session_invariant (snd (run_iterations w n (init disk)))).
  { generalize dependent (init disk).
    induction n as [|n IH]; intros m H0.
    - split; [reflexivity|exact H0].
    - simpl run_iterations. unfold bind.
      destruct (run_iteration_session_invariant w m H0) as (R1 & R2).
      destruct (run_iteration w m) as [r1 m1]. cbn [fst snd] in *. subst r1.
      apply IH. exact R2. }
  destruct H as (H1 & I1 & I2 & I3).
  split; [exact H1|]. split; [exact I1|].
  destruct (is_measuring (self (snd (run_iterations w n (init disk)))));
    auto.
Qed.

(** X14.  The [finally] block of [run] never raises and leaves the buffer
    empty without changing anything else of [self].  With an empty buffer
    it does not touch the disk; with records in the buffer, when none of
    the disk calls faults ([makedirs], [open], the writes and the close of
    the file), the session file holds the header and those records, and
    when one faults the file is untouched or holds a beginning of that
    content. *)
Theorem run_finally_flushes_buffer (w : World) (m : Machine) :
  let data := measurement_data (self m) in
  let r := run_finally w m in
  fst r = Ok tt /\
  self (snd r) = set_measurement_data [] (self m) /\
  match data with
  | [] => fs (snd r) = fs m /\ calls (snd r) = calls m
  | _ :: _ =>
      match first_fault w (calls m Disk) (4 + List.length data) with
      | None =>
          data_dir_exists (fs (snd r)) = true /\
          csv_file (fs (snd r)) = Some (csv_content data)
      | Some _ =>
          csv_file (fs (snd r)) = csv_file (fs m) \/
          exists written rest,
            csv_file (fs (snd r)) = Some written /\
            csv_content data = (written ++ rest)%string
      end
  end.
Proof.
  cbn zeta.
  remember (run_finally w m) as res eqn:E.
  unfold run_finally in E. unfold attr, gets in E. unfold bind at 1 2 in E.
  cbn beta iota in E.
  destruct (measurement_data (self m)) as [|row rows] eqn:Hd.
  - unfold ret, logger, emit, modify in E. subst res.
    cbn [fst snd self fs calls set_trace].
    repeat split; try reflexivity.
    destruct (self m). simpl in Hd. subst. reflexivity.
  - unfold logger, emit, modify in E. unfold bind at 1 in E.
    cbn beta iota in E.
    set (m1 := set_trace _ m) in E.
    assert (He : measurement_data (self m1) = row :: rows) by exact Hd.
    pose proof (save_session_data_nonempty w m1 row rows He)
      as (R1 & R2 & _ & R4).
    cbn zeta in *. change (calls m1 Disk) with (calls m Disk) in R4.
    change (fs m1) with (fs m) in R4.
    destruct (save_session_data w m1) as [r2 m2]. cbn [fst snd] in *.
    subst r2. subst res. cbn [fst snd self fs set_trace].
    split; [reflexivity|]. split; [exact R2|].
    destruct (first_fault _ _ _); exact (proj2 R4).
Qed.

(** X15.  Saving twice in a row writes once: right after
    [save_session_data] has returned, a second call finds the buffer empty,
    logs that there is no data and touches nothing else, neither the disk
    nor [self]. *)
Theorem save_session_data_twice (w : World) (m : Machine) :
  let m1 := exec (save_session_data w) m in
  save_session_data w m1
  = (Ok tt, set_trace (trace m1 ++ [Log INFO NoDataCollected]) m1).
Proof.
  cbn zeta. unfold exec. apply save_session_data_empty.
  pose proof (save_session_data_self w m) as (_ & S2 & _).
  rewrite S2. reflexivity.
Qed.

Lemma parity_flips (c : nat) :
  (c mod TEMP_READ_INTERVAL =? 0)
  = negb ((c + 1) mod TEMP_READ_INTERVAL =? 0).
Proof.
  unfold TEMP_READ_INTERVAL.
  rewrite <- (Nat.Div0.add_mod_idemp_l c 1 2).
  pose proof (Nat.mod_upper_bound c 2 ltac:(lia)) as Hb.
  destruct (c mod 2) as [|[|k]]; [reflexivity|reflexivity|lia].
Qed.

(** X16.  Two consecutive ticks with the cup present read the DHT sensor
    exactly once between them, whatever the tick counter is: the sensor is
    read on every second tick. *)
Theorem two_ticks_read_dht_once (w : World) (m : Machine) :
  button_at w (calls m Button) <> 0%Z ->
  button_at w (S (calls m Button)) <> 0%Z ->
  let m1 := exec (process_measurement_cycle w) m in
  let m2 := exec (process_measurement_cycle w) m1 in
  calls m2 Dht = S (calls m Dht) /\
  List.length (measurement_data (self m2))
  = 2 + List.length (measurement_data (self m)).
Proof.
  intros Hb1 Hb2. cbn zeta. unfold exec.
  pose proof (process_measurement_cycle_present w m Hb1)
    as (_ & P2 & _ & _ & P5).
  cbn zeta in P2, P5.
  set (m1 := snd (process_measurement_cycle w m)) in *.
  assert (Hb : button_at w (calls m1 Button) <> 0%Z).
  { rewrite (P5 Button). replace (calls m Button + 1) with (S (calls m Button))
      by lia. exact Hb2. }
  pose proof (process_measurement_cycle_present w m1 Hb)
    as (_ & Q2 & _ & _ & Q5).
  cbn zeta in Q2, Q5. rewrite (Q5 Dht), Q2, (P5 Dht), P2.
  cbn [temp_read_counter measurement_data].
  rewrite !length_app. cbn [List.length].
  rewrite (parity_flips (temp_read_counter (self m))).
  destruct ((temp_read_counter (self m) + 1) mod TEMP_READ_INTERVAL =? 0);
    simpl; lia.
Qed.

(** X16 from the start of a session. *)
Lemma two_ticks_read_dht_once_witness :
  let w := sonar_world [Distance 5; Distance 4] in
  let m2 := exec (process_measurement_cycle w)
                 (exec (process_measurement_cycle w)
                       (sampling [] empty_disk)) in
  calls m2 Dht = 1 /\ List.length (measurement_data (self m2)) = 2.
Proof.
  apply (two_ticks_read_dht_once (sonar_world [Distance 5; Distance 4])
           (sampling [] empty_disk)); simpl; lia.
Defined.

(** X19.  A tick with the cup present never raises and appends exactly one
    record, stamped with the clock as read at the start of the tick.  It
    leaves both flags and the calibration reference as they were (there is
    no calibration inside a session), advances the tick counter by one and
    does not touch the disk. *)
Theorem tick_appends_one_record (w : World) (m : Machine) :
  button_at w (calls m Button) <> 0%Z ->
  let r := process_measurement_cycle w m in
  fst r = Ok tt /\
  (exists temperature humidity fill,
      measurement_data (self (snd r))
      = measurement_data (self m)
        ++ [(strftime_HMS (localtime_at w (calls m Clock)),
             temperature, humidity, fill)]) /\
  is_cup_present (self (snd r)) = is_cup_present (self m) /\
  is_measuring (self (snd r)) = is_measuring (self m) /\
  calibrated_empty_cup_distance (self (snd r))
  = calibrated_empty_cup_distance (self m) /\
  temp_read_counter (self (snd r)) = temp_read_counter (self m) + 1 /\
  fs (snd r) = fs m /\
  calls (snd r) Disk = calls m Disk.
Proof.
  intros Hb. cbn zeta.
  pose proof (process_measurement_cycle_present w m Hb)
    as (P1 & P2 & P3 & _ & P5).
  cbn zeta in *. rewrite P2, P3, (P5 Disk).
  split; [exact P1|]. split; [do 3 eexists; reflexivity|].
  repeat split; simpl; lia.
Qed.

(** X19 on the first tick of a session, at 09:00:00. *)
Lemma tick_appends_one_record_witness :
  let r := process_measurement_cycle (sonar_world [Distance 5])
             (sampling [] empty_disk) in
  fst r = Ok tt /\
  (exists temperature humidity fill,
      measurement_data (self (snd r))
      = [("09:00:00"%string, temperature, humidity, fill)]) /\
  temp_read_counter (self (snd r)) = 1 /\
  fs (snd r) = empty_disk.
Proof.
  destruct (tick_appends_one_record (sonar_world [Distance 5])
              (sampling [] empty_disk)) as (H1 & H2 & _ & _ & _ & H6 & H7 & _).
  - simpl. lia.
  - split; [exact H1|]. split; [exact H2|]. split; [exact H6|exact H7].
Defined.

(** Inside a session a round of the main loop is a tick. *)
Lemma run_iteration_in_session w m :
  is_cup_present (self m) = true ->
  is_measuring (self m) = true ->
  run_iteration w m = process_measurement_cycle w m.
Proof.
  intros Hp Hm. unfold run_iteration, attr, gets, bind, when, ret.
  rewrite Hp. cbn [negb]. rewrite Hm.
  destruct (process_measurement_cycle w m); reflexivity.
Qed.

Lemma session_records_length w n :
  forall sonar dht clock counter reference humidity temperature,
    List.length (session_records w n sonar dht clock counter reference
                   humidity temperature) = n.
Proof.
  induction n as [|n IH]; intros; simpl; [reflexivity|].
  rewrite IH. reflexivity.
Qed.

(** A session of [k] ticks with the cup present followed by the tick that
    finds it removed. *)
Lemma session_rows w k :
  forall m,
    is_cup_present (self m) = true ->
    is_measuring (self m) = true ->
    (forall i, i < k -> button_at w (calls m Button + i) <> 0%Z) ->
    button_at w (calls m Button + k) = 0%Z ->
    let rows :=
      session_records w k (calls m Sonar) (calls m Dht) (calls m Clock)
        (temp_read_counter (self m)) (calibrated_empty_cup_distance (self m))
        (last_humidity (self m)) (last_temp (self m)) in
    let r := run_iterations w (S k) m in
    fst r = Ok tt /\
    measurement_data (self (snd r)) = [] /\
    is_cup_present (self (snd r)) = false /\
    is_measuring (self (snd r)) = false /\
    match measurement_data (self m) ++ rows with
    | [] => fs (snd r) = fs m
    | written =>
        match first_fault w (calls m Disk) (4 + List.length written) with
        | None => csv_file (fs (snd r)) = Some (csv_content written)
        | Some _ => True
        end
    end.
Proof.
  induction k as [|k IH]; intros m Hp Hm Hpresent Hremoved; cbn zeta.
  - rewrite Nat.add_0_r in Hremoved.
    cbn [session_records]. rewrite app_nil_r.
    simpl run_iterations. unfold bind.
    rewrite (run_iteration_in_session w m Hp Hm).
    pose proof (process_measurement_cycle_removed_full w m Hremoved)
      as (R1 & R2 & _ & _ & _ & R6).
    cbn zeta in *.
    destruct (process_measurement_cycle w m) as [r1 m1].
    cbn [fst snd] in *. subst r1. unfold ret. cbn [fst snd].
    rewrite R2. split; [reflexivity|]. split; [reflexivity|].
    split; [reflexivity|]. split; [reflexivity|].
    destruct (measurement_data (self m)) as [|row rows];
      [apply R6|].
    destruct (first_fault _ _ _); [exact I|apply R6].
  - assert (Hb : button_at w (calls m Button) <> 0%Z).
    { specialize (Hpresent 0 ltac:(lia)). rewrite Nat.add_0_r in Hpresent.
      exact Hpresent. }
    pose proof (process_measurement_cycle_present w m Hb)
      as (P1 & P2 & P3 & _ & P5).
    cbn zeta in P1, P2, P3, P5.
    change (run_iterations w (S (S k)) m)
      with ((run_iteration w ;; run_iterations w (S k))%monad m).
    unfold bind. rewrite (run_iteration_in_session w m Hp Hm).
    destruct (process_measurement_cycle w m) as [r1 m1].
    cbn [fst snd] in *. subst r1.
    assert (Hp1 : is_cup_present (self m1) = true) by (rewrite P2; exact Hp).
    assert (Hm1 : is_measuring (self m1) = true) by (rewrite P2; exact Hm).
    assert (Hc : calls m1 Button = S (calls m Button))
      by (rewrite (P5 Button); lia).
    destruct (IH m1 Hp1 Hm1) as (I1 & I2 & I3 & I4 & I5).
    { intros i Hi. rewrite Hc.
      replace (S (calls m Button) + i) with (calls m Button + S i) by lia.
      apply Hpresent. lia. }
    { rewrite Hc.
      replace (S (calls m Button) + k) with (calls m Button + S k) by lia.
      exact Hremoved. }
    cbn zeta in I1, I2, I3, I4, I5.
    split; [exact I1|]. split; [exact I2|]. split; [exact I3|].
    split; [exact I4|].
    rewrite P2, (P5 Sonar), (P5 Dht), (P5 Clock), (P5 Disk), P3 in I5.
    cbn [measurement_data temp_read_counter calibrated_empty_cup_distance
         last_humidity last_temp] in I5.
    rewrite Nat.add_0_r, <- app_assoc in I5. cbn [app] in I5.
    exact I5.
Qed.

(** X20.  A session from start to end: in a session (both flags set), when
    the button reads non-zero on [k + 1] rounds of the main loop and zero
    on the next, these [k + 2] rounds never raise, they end with the
    buffer empty and the session closed, and, when none of the disk calls
    faults ([makedirs], [open], the writes and the close of the file), the
    session file holds the header, the rows of the records that were
    already in the buffer and then, tick after tick, the row of each of
    the [k + 1] ticks: its time is the clock read of that tick, its fill
    level comes from the sonar read of that tick (the reference minus the
    distance, or -999.0), and its temperature and humidity are those of
    the latest DHT read that gave both, the sensor being tried on the
    ticks whose counter is a multiple of [TEMP_READ_INTERVAL]. *)
Theorem session_writes_one_row_per_tick (w : World) (m : Machine) (k : nat) :
  is_cup_present (self m) = true ->
  is_measuring (self m) = true ->
  (forall i, i <= k -> button_at w (calls m Button + i) <> 0%Z) ->
  button_at w (calls m Button + S k) = 0%Z ->
  first_fault w (calls m Disk)
    (4 + List.length (measurement_data (self m)) + S k) = None ->
  let rows :=
    session_records w (S k) (calls m Sonar) (calls m Dht) (calls m Clock)
      (temp_read_counter (self m)) (calibrated_empty_cup_distance (self m))
      (last_humidity (self m)) (last_temp (self m)) in
  let r := run_iterations w (S (S k)) m in
  List.length rows = S k /\
  fst r = Ok tt /\
  measurement_data (self (snd r)) = [] /\
  is_cup_present (self (snd r)) = false /\
  is_measuring (self (snd r)) = false /\
  csv_file (fs (snd r))
  = Some (csv_content (measurement_data (self m) ++ rows)).
Proof.
  intros Hp Hm Hpresent Hremoved Hf. cbn zeta.
  destruct (session_rows w (S k) m Hp Hm) as (I1 & I2 & I3 & I4 & I5).
  { intros i Hi. apply Hpresent. lia. }
  { exact Hremoved. }
  cbn zeta in I1, I2, I3, I4, I5.
  split; [apply session_records_length|].
  split; [exact I1|]. split; [exact I2|]. split; [exact I3|].
  split; [exact I4|].
  set (rows := session_records _ _ _ _ _ _ _ _ _) in *.
  assert (L : List.length rows = S k) by apply session_records_length.
  clearbody rows.
  destruct rows as [|row rows]; [discriminate L|].
  destruct (measurement_data (self m) ++ row :: rows) as [|x xs] eqn:Ha.
  { destruct (measurement_data (self m)); discriminate Ha. }
  rewrite <- Ha in I5 |- *. rewrite length_app, L in I5.
  replace (4 + (List.length (measurement_data (self m)) + S k))
    with (4 + List.length (measurement_data (self m)) + S k) in I5 by lia.
  rewrite Hf in I5. exact I5.
Qed.

(** X20 for a session of two ticks on a working disk: the sonar reads 5.0
    under a reference of 13.0, the DHT sensor gives 55.0 % and 22.0
    degrees, the clock starts at 09:00:00. *)
Lemma session_writes_one_row_per_tick_witness :
  let r := run_iterations (button_world [1; 1]%Z) 3
             (sampling [] empty_disk) in
  fst r = Ok tt /\
  measurement_data (self (snd r)) = [] /\
  is_measuring (self (snd r)) = false /\
  csv_file (fs (snd r)) = Some "Time,Temp,Hum,FillLevelCM
09:00:00,22.0,55.0,8.0
09:00:01,22.0,55.0,8.0
"%string.
Proof.
  assert (Hb : forall i, i <= 1 ->
                 button_at (button_world [1; 1]%Z)
                   (calls (sampling [] empty_disk) Button + i) <> 0%Z).
  { intros i Hi. destruct i as [|[|i]]; simpl; lia. }
  destruct (session_writes_one_row_per_tick (button_world [1; 1]%Z)
              (sampling [] empty_disk) 1 eq_refl eq_refl Hb eq_refl eq_refl)
    as (_ & H1 & H2 & _ & H4 & H5).
  split; [exact H1|]. split; [exact H2|]. split; [exact H4|exact H5].
Defined.

(** A session whose close faults: the two ticks are lost down to the 30
    characters that had reached the file, and the next session starts
    with an empty buffer. *)
Example session_cut_example :
  let m' := exec (run_iterations (faulty_disk_world 5 30) 3)
                 (sampling [] empty_disk) in
  csv_file (fs m') = Some "Time,Temp,Hum,FillLevelCM
09:0"%string /\
  measurement_data (self m') = [] /\
  logged_summaries (trace m') = [].
Proof. repeat split; reflexivity. Qed.

End TeaMeterProofs.
